(** * API_IMAGE_STORAGE: the upload service of [main.py] and [main_comentado.py]

    A shallow embedding of the two FastAPI applications of the repository and
    the properties of their endpoints.

    - Python [str] is [string]; [bytes] is [list byte]; Python [int] is [Z].
    - The file system is a tree of directories and regular files, walked the
      way the Linux kernel walks a path: [ENOENT] for a missing name,
      [ENOTDIR] for a step through a regular file, [ENAMETOOLONG] for a
      component over 255 bytes or a path text of 4096 bytes or more; Python
      refuses a path that holds a NUL byte with [ValueError].  The tree has no
      symbolic or hard links, and no permissions, quotas or device errors, so
      [Path.resolve] is the lexical normalisation [os.path.realpath] performs
      when no component is a link.
    - [pathlib] is that of CPython 3.11 to 3.13: [exists], [is_dir] and
      [is_file] answer [False] for [ENOENT], [ENOTDIR] and [ValueError] and
      pass any other [OSError] on.
    - Effects are written in a state-and-exception monad over [world]: the
      working directory, the disk, the manager's [active_connections], the
      state of every WebSocket object and a log of the [send_text] calls.
      A raised exception keeps the effects that happened before it.
    - One call of an endpoint is run to completion; other coroutines that the
      event loop could run at an [await] are not interleaved.
    - [uuid.uuid4()] takes its 128 random bits as an argument of the endpoint.

    [Module Main] embeds [main.py], [Module Comentado] embeds
    [main_comentado.py]; each definition carries the name it has there. *)

From Stdlib Require Import Bool Arith ZArith NArith Lia List Ascii String.
From Stdlib Require Import Strings.Byte.
From Stdlib Require DecimalString.
Import ListNotations.

Local Open Scope string_scope.
Local Open Scope list_scope.

(* ===================================================================== *)
(** ** Python strings *)
(* ===================================================================== *)

Module Str.

(** [c in s] for a one-character [c]. *)
Fixpoint contains (c : ascii) (s : string) : bool :=
  match s with
  | EmptyString => false
  | String d s' => if Ascii.eqb c d then true else contains c s'
  end.

(** [s.startswith(p)]. *)
Definition startswith (s p : string) : bool := String.prefix p s.

(** [sep.join(l)]. *)
Fixpoint join (sep : string) (l : list string) : string :=
  match l with
  | [] => ""
  | [x] => x
  | x :: rest => x ++ sep ++ join sep rest
  end.

(** [s.split(sep)] for a one-character [sep]: never empty, and
    [join sep (split sep s) = s]. *)
Fixpoint split (sep : ascii) (s : string) : list string :=
  match s with
  | EmptyString => [""]
  | String d s' =>
      if Ascii.eqb sep d then "" :: split sep s'
      else match split sep s' with
           | [] => [String d ""]
           | x :: rest => String d x :: rest
           end
  end.

(** [s.split(sep, 1)]: cut at the first [sep] only. *)
Fixpoint split1 (sep : ascii) (s : string) : list string :=
  match s with
  | EmptyString => [""]
  | String d s' =>
      if Ascii.eqb sep d then [""; s']
      else match split1 sep s' with
           | [] => [String d ""]
           | x :: rest => String d x :: rest
           end
  end.

(** [l[i]] where the index is known to be in range; [""] stands for the
    [IndexError] otherwise. *)
Definition item (l : list string) (i : nat) : string := nth i l "".

(** [s.rfind(c)]: the index of the last [c], or [-1]. *)
Fixpoint rfind_from (c : ascii) (s : string) (i : Z) (found : Z) : Z :=
  match s with
  | EmptyString => found
  | String d s' => rfind_from c s' (i + 1) (if Ascii.eqb c d then i else found)
  end.

Definition rfind (c : ascii) (s : string) : Z := rfind_from c s 0 (-1).

(** [s[i:]] for [0 <= i]. *)
Fixpoint drop (i : nat) (s : string) : string :=
  match i, s with
  | O, _ => s
  | S i', String _ s' => drop i' s'
  | S _, EmptyString => ""
  end.

(** [s[i:j]] for [0 <= i <= j]. *)
Definition slice (i j : nat) (s : string) : string := String.substring i (j - i) s.

Definition lower_char (c : ascii) : ascii :=
  let n := nat_of_ascii c in
  if (65 <=? n)%nat && (n <=? 90)%nat then ascii_of_nat (n + 32) else c.

(** [s.lower()] on the ASCII letters; the other characters are the bytes of
    the UTF-8 encoding and stay as they are. *)
Fixpoint lower (s : string) : string :=
  match s with
  | EmptyString => ""
  | String c s' => String (lower_char c) (lower s')
  end.

(** [x in l] for a collection of strings. *)
Definition mem (x : string) (l : list string) : bool :=
  existsb (String.eqb x) l.

(** The NUL byte. *)
Definition NUL : ascii := "000"%char.


End Str.

(** The double-quote character, as a string. *)
Definition quote : string := String "034"%char "".

(** [repr(s)] for a string without quotes or escapes. *)
Definition repr (s : string) : string := "'" ++ s ++ "'".

(* ===================================================================== *)
(** ** Exceptions and the effect monad *)
(* ===================================================================== *)

(** The exception classes the service raises or meets; each of them derives
    from [Exception]. *)
Inductive exn : Type :=
| HTTPException (status_code : Z) (detail : string)
| WebSocketDisconnect (code : Z)
| RuntimeError (msg : string)
| ValueError (msg : string)
| OSError (errno : Z)
| FileNotFoundError
| FileExistsError
| NotADirectoryError
| IsADirectoryError.

(** [errno.ENAMETOOLONG]; an error with this number has no class of its own
    and is raised as a plain [OSError]. *)
Definition ENAMETOOLONG : Z := 36.

(** [isinstance(e, Exception)]. *)
Definition is_Exception (e : exn) : bool := true.

(** [isinstance(e, WebSocketDisconnect)]. *)
Definition is_WebSocketDisconnect (e : exn) : bool :=
  match e with WebSocketDisconnect _ => true | _ => false end.

(** [isinstance(e, OSError)]. *)
Definition is_OSError (e : exn) : bool :=
  match e with
  | OSError _
  | FileNotFoundError | FileExistsError | NotADirectoryError | IsADirectoryError => true
  | _ => false
  end.

Inductive outcome (A : Type) : Type :=
| Returned (a : A)
| Raised (e : exn).
Arguments Returned {A} a.
Arguments Raised {A} e.

(** The HTTP status FastAPI answers with: the code of an [HTTPException],
    500 for any other exception, 200 for a returned value. *)
Definition status_of {A : Type} (o : outcome A) : Z :=
  match o with
  | Returned _ => 200
  | Raised (HTTPException code _) => code
  | Raised _ => 500
  end.

Section Monad.
Context {W : Type}.

Definition M (A : Type) : Type := W -> outcome A * W.

Definition ret {A} (a : A) : M A := fun w => (Returned a, w).

Definition raise {A} (e : exn) : M A := fun w => (Raised e, w).

Definition bind {A B} (c : M A) (k : A -> M B) : M B :=
  fun w => match c w with
           | (Returned a, w') => k a w'
           | (Raised e, w') => (Raised e, w')
           end.

(** [try: c  except <class>: handler]. *)
Definition try_except {A} (c : M A) (class : exn -> bool) (handler : M A) : M A :=
  fun w => match c w with
           | (Raised e, w') => if class e then handler w' else (Raised e, w')
           | r => r
           end.

Definition get : M W := fun w => (Returned w, w).
Definition modify (f : W -> W) : M unit := fun w => (Returned tt, f w).

(** [for x in l: body(x)] over a list value. *)
Fixpoint for_each {A} (l : list A) (body : A -> M unit) : M unit :=
  match l with
  | [] => ret tt
  | x :: rest => bind (body x) (fun _ => for_each rest body)
  end.
End Monad.
Arguments M : clear implicits.

Declare Scope py_scope.
Delimit Scope py_scope with py.
Notation "x <- c ;; k" := (bind c (fun x => k))
  (at level 61, c at next level, right associativity) : py_scope.
Notation "c ;; k" := (bind c (fun _ => k))
  (at level 61, right associativity) : py_scope.

(* ===================================================================== *)
(** ** pathlib *)
(* ===================================================================== *)

Module Pathlib.

(** A [PurePosixPath]: whether it is anchored at [/], and its components.
    Parsing drops empty and [.] components and keeps [..].  (POSIX lets a
    path that starts with exactly two slashes keep them; the kernel and
    [resolve] read them as one, and so does this record.) *)
Record Path : Type := mkPath { is_absolute : bool; parts : list string }.

Definition kept (c : string) : bool :=
  negb (String.eqb c "") && negb (String.eqb c ".").

(** [Path(s)]. *)
Definition parse (s : string) : Path :=
  {| is_absolute := Str.startswith s "/";
     parts := filter kept (Str.split "/" s) |}.

(** [p / s]: an absolute right operand replaces the left one. *)
Definition truediv (p : Path) (s : string) : Path :=
  let q := parse s in
  if is_absolute q then q
  else {| is_absolute := is_absolute p; parts := parts p ++ parts q |}.

(** The child path [iterdir] yields for a directory entry: the entry name is
    appended as it is. *)
Definition child (p : Path) (entry : string) : Path :=
  {| is_absolute := is_absolute p; parts := parts p ++ [entry] |}.

(** [p.name]: the final component, [''] when there is none. *)
Definition name (p : Path) : string := last (parts p) "".

(** [p.suffix]: from the last dot of the name, when that dot is neither the
    first nor the last character (pathlib up to Python 3.13). *)
Definition suffix (p : Path) : string :=
  let n := name p in
  let i := Str.rfind "." n in
  if ((0 <? i) && (i <? Z.of_nat (String.length n) - 1))%Z
  then Str.drop (Z.to_nat i) n
  else "".

(** [str(p)]. *)
Definition str (p : Path) : string :=
  if is_absolute p then "/" ++ Str.join "/" (parts p)
  else match parts p with [] => "." | _ => Str.join "/" (parts p) end.

(** One component of [realpath] when nothing is a link: an empty or [.]
    component is skipped, [..] drops the last component (the root is its own
    parent), a name is appended. *)
Definition normalize_step (acc : list string) (c : string) : list string :=
  if String.eqb c "" || String.eqb c "." then acc
  else if String.eqb c ".." then removelast acc
  else acc ++ [c].

Definition normalize (start comps : list string) : list string :=
  fold_left normalize_step comps start.

(** [os.path.realpath(p)] in the working directory [cwd], on a tree without
    links. *)
Definition realpath (cwd : list string) (p : Path) : Path :=
  {| is_absolute := true;
     parts := normalize [] ((if is_absolute p then [] else cwd) ++ parts p) |}.

(** Some component of [p] holds a NUL byte. *)
Definition has_nul (p : Path) : bool := existsb (Str.contains Str.NUL) (parts p).

(** [p.resolve()] in the working directory [cwd]: [realpath] looks at every
    named component with [os.lstat], which refuses a NUL byte; the
    [OSError] of a name that is missing or too long is ignored there. *)
Definition resolve (cwd : list string) (p : Path) : outcome Path :=
  if has_nul p then Raised (ValueError "embedded null byte")
  else Returned (realpath cwd p).

End Pathlib.

Notation "p // s" := (Pathlib.truediv p s) (at level 40, left associativity).

(* ===================================================================== *)
(** ** The file system *)
(* ===================================================================== *)

Module Fs.
Import Pathlib.

#[warnings="-register-all"]
Inductive node : Type :=
| File (content : list byte)
| Dir (entries : list (string * node)).

(** The entry called [c] of a directory listing. *)
Fixpoint assoc (c : string) (es : list (string * node)) : option node :=
  match es with
  | [] => None
  | (d, n) :: rest => if String.eqb c d then Some n else assoc c rest
  end.

(** The node at a canonical location (names only, from the root). *)
Fixpoint lookup (root : node) (loc : list string) {struct loc} : option node :=
  match loc with
  | [] => Some root
  | c :: loc' =>
      match root with
      | Dir es => match assoc c es with
                  | Some n => lookup n loc'
                  | None => None
                  end
      | File _ => None
      end
  end.

(** Replace the entry [c], or add it after the existing ones. *)
Fixpoint set_entry (c : string) (v : node) (es : list (string * node))
  : list (string * node) :=
  match es with
  | [] => [(c, v)]
  | (d, n) :: rest =>
      if String.eqb c d then (d, v) :: rest else (d, n) :: set_entry c v rest
  end.

(** Store [v] at a canonical location whose parent directory exists. *)
Fixpoint put (root : node) (loc : list string) (v : node) {struct loc} : node :=
  match loc with
  | [] => v
  | c :: loc' =>
      match root with
      | Dir es =>
          match assoc c es with
          | Some n => Dir (set_entry c (put n loc' v) es)
          | None => match loc' with
                    | [] => Dir (set_entry c v es)
                    | _ => root
                    end
          end
      | File _ => root
      end
  end.

(** The longest component and the shortest refused path text, in bytes. *)
Definition NAME_MAX : nat := 255.
Definition PATH_MAX : nat := 4096.

(** What every call does with its path argument before the walk: Python
    refuses a NUL byte, the kernel a text of [PATH_MAX] bytes or more. *)
Definition getname (p : Path) : outcome unit :=
  if has_nul p then Raised (ValueError "embedded null byte")
  else if (PATH_MAX <=? String.length (str p))%nat then Raised (OSError ENAMETOOLONG)
  else Returned tt.

(** One component of the kernel's path walk from the directory at [cur]:
    [ENOTDIR] when [cur] is a file, [ENAMETOOLONG] when the name is over
    [NAME_MAX] bytes, [ENOENT] when the name is missing. *)
Definition walk_step (root : node) (cur : list string) (c : string)
  : outcome (list string) :=
  match lookup root cur with
  | Some (Dir es) =>
      if String.eqb c "" || String.eqb c "." then Returned cur
      else if String.eqb c ".." then Returned (removelast cur)
      else if (NAME_MAX <? String.length c)%nat then Raised (OSError ENAMETOOLONG)
      else match assoc c es with
           | Some _ => Returned (cur ++ [c])
           | None => Raised FileNotFoundError
           end
  | Some (File _) => Raised NotADirectoryError
  | None => Raised FileNotFoundError
  end.

Fixpoint walk (root : node) (cur : list string) (comps : list string)
  : outcome (list string) :=
  match comps with
  | [] => Returned cur
  | c :: rest =>
      match walk_step root cur c with
      | Returned cur' => walk root cur' rest
      | Raised e => Raised e
      end
  end.

(** Where the walk of [p] starts. *)
Definition origin (cwd : list string) (p : Path) : list string :=
  if is_absolute p then [] else cwd.

(** The node the walk of [p] ends at. *)
Definition namei (root : node) (cwd : list string) (p : Path) : outcome node :=
  match walk root (origin cwd p) (parts p) with
  | Returned loc => match lookup root loc with
                    | Some n => Returned n
                    | None => Raised FileNotFoundError
                    end
  | Raised e => Raised e
  end.

(** [os.stat(p)]: the node [p] leads to. *)
Definition stat (root : node) (cwd : list string) (p : Path) : outcome node :=
  match getname p with
  | Returned _ => namei root cwd p
  | Raised e => Raised e
  end.

(** pathlib's [_ignore_error], and the [ValueError] its callers catch next
    to it: the errors for which [exists], [is_dir] and [is_file] are
    [False]. *)
Definition ignore_error (e : exn) : bool :=
  match e with
  | FileNotFoundError | NotADirectoryError | ValueError _ => true
  | _ => false
  end.

(** [p.exists()]. *)
Definition exists_ (root : node) (cwd : list string) (p : Path) : outcome bool :=
  match stat root cwd p with
  | Returned _ => Returned true
  | Raised e => if ignore_error e then Returned false else Raised e
  end.

(** [p.is_dir()]. *)
Definition is_dir (root : node) (cwd : list string) (p : Path) : outcome bool :=
  match stat root cwd p with
  | Returned (Dir _) => Returned true
  | Returned (File _) => Returned false
  | Raised e => if ignore_error e then Returned false else Raised e
  end.

(** [p.is_file()]. *)
Definition is_file (root : node) (cwd : list string) (p : Path) : outcome bool :=
  match stat root cwd p with
  | Returned (File _) => Returned true
  | Returned (Dir _) => Returned false
  | Raised e => if ignore_error e then Returned false else Raised e
  end.

(** [p.iterdir()]: one child path per entry, in directory order. *)
Definition iterdir (root : node) (cwd : list string) (p : Path)
  : outcome (list Path) :=
  match stat root cwd p with
  | Returned (Dir es) => Returned (map (fun e => child p (fst e)) es)
  | Returned (File _) => Raised NotADirectoryError
  | Raised e => Raised e
  end.

(** The directory a new entry of [p] goes into, and the entry's name. *)
Definition parent_and_name (root : node) (cwd : list string) (p : Path)
  : outcome (list string * list (string * node) * string) :=
  match walk root (origin cwd p) (removelast (parts p)) with
  | Returned cur =>
      match lookup root cur with
      | Some (Dir es) => Returned (cur, es, last (parts p) "")
      | Some (File _) => Raised NotADirectoryError
      | None => Raised FileNotFoundError
      end
  | Raised e => Raised e
  end.

(** [os.mkdir(p)]: the disk with the new, empty directory. *)
Definition os_mkdir (root : node) (cwd : list string) (p : Path) : outcome node :=
  match getname p with
  | Raised e => Raised e
  | Returned _ =>
      match parts p with
      | [] => Raised FileExistsError
      | _ =>
          match parent_and_name root cwd p with
          | Returned (cur, es, nm) =>
              if String.eqb nm ".." then Raised FileExistsError
              else if (NAME_MAX <? String.length nm)%nat
              then Raised (OSError ENAMETOOLONG)
              else match assoc nm es with
                   | Some _ => Raised FileExistsError
                   | None => Returned (put root (cur ++ [nm]) (Dir []))
                   end
          | Raised e => Raised e
          end
      end
  end.

(** [p.mkdir(exist_ok=True)]: a [ValueError] and the error of a missing
    parent are passed on; after any other [OSError] the answer of
    [p.is_dir()] decides, and when that call raises, its error is the one
    passed on. *)
Definition mkdir_exist_ok (root : node) (cwd : list string) (p : Path)
  : outcome node :=
  match os_mkdir root cwd p with
  | Returned root' => Returned root'
  | Raised FileNotFoundError => Raised FileNotFoundError
  | Raised e =>
      if is_OSError e
      then match is_dir root cwd p with
           | Returned true => Returned root
           | Returned false => Raised e
           | Raised e' => Raised e'
           end
      else Raised e
  end.

(** [p.open('wb')]: the canonical location of the created or truncated file
    and the disk with the empty file in place. *)
Definition open_wb (root : node) (cwd : list string) (p : Path)
  : outcome (list string * node) :=
  match getname p with
  | Raised e => Raised e
  | Returned _ =>
      match parts p with
      | [] => Raised IsADirectoryError
      | _ =>
          match parent_and_name root cwd p with
          | Returned (cur, es, nm) =>
              if String.eqb nm ".." then Raised IsADirectoryError
              else if (NAME_MAX <? String.length nm)%nat
              then Raised (OSError ENAMETOOLONG)
              else match assoc nm es with
                   | Some (Dir _) => Raised IsADirectoryError
                   | _ => Returned (cur ++ [nm], put root (cur ++ [nm]) (File []))
                   end
          | Raised e => Raised e
          end
      end
  end.

(** [buffer.write(data)] on the file opened at [loc]. *)
Definition append_bytes (root : node) (loc : list string) (data : list byte) : node :=
  match lookup root loc with
  | Some (File old) => put root loc (File (old ++ data))
  | _ => root
  end.

End Fs.

(* ===================================================================== *)
(** ** uuid *)
(* ===================================================================== *)

Module Uuid.

Definition hex_digit (n : N) : ascii :=
  nth (N.to_nat n) (list_ascii_of_string "0123456789abcdef") "0"%char.

(** The [k] low hexadecimal digits of [n], most significant first, in front
    of [acc]. *)
Fixpoint hex_from (k : nat) (n : N) (acc : string) : string :=
  match k with
  | O => acc
  | S k' => hex_from k' (N.shiftr n 4) (String (hex_digit (N.land n 15)) acc)
  end.

(** ['%032x' % n] for [n < 2^128]. *)
Definition hex32 (n : N) : string := hex_from 32 n "".

(** [UUID(bytes=os.urandom(16), version=4).int], the sixteen random bytes
    read as a big-endian number: the variant and version bits are forced. *)
Definition uuid4 (urandom16 : N) : N :=
  let int := N.land urandom16 (N.ones 128) in
  let int := N.ldiff int (N.shiftl 0xc000 48) in
  let int := N.lor int (N.shiftl 0x8000 48) in
  let int := N.ldiff int (N.shiftl 0xf000 64) in
  N.lor int (N.shiftl 4 76).

(** [str(u)]: the digits grouped 8-4-4-4-12. *)
Definition str (int : N) : string :=
  let hex := hex32 int in
  Str.slice 0 8 hex ++ "-" ++ Str.slice 8 12 hex ++ "-" ++ Str.slice 12 16 hex
    ++ "-" ++ Str.slice 16 20 hex ++ "-" ++ Str.slice 20 32 hex.

End Uuid.

(* ===================================================================== *)
(** ** The process state *)
(* ===================================================================== *)

(** A WebSocket object is known by its identity. *)
Definition WebSocket : Type := nat.

Inductive WebSocketState : Type := CONNECTING | CONNECTED | DISCONNECTED | RESPONSE.

(** What the service can observe of one WebSocket: the two state fields of
    Starlette's [WebSocket], whether the transport still reaches the peer,
    and the text frames the peer has been sent. *)
Record socket : Type := mkSocket {
  client_state : WebSocketState;
  application_state : WebSocketState;
  peer_reachable : bool;
  delivered : list string
}.

Record world : Type := mkWorld {
  cwd : list string;
  disk : Fs.node;
  active_connections : list WebSocket;
  sockets : WebSocket -> socket;
  send_log : list (WebSocket * string)
}.

Definition set_disk (d : Fs.node) (w : world) : world :=
  mkWorld (cwd w) d (active_connections w) (sockets w) (send_log w).

Definition set_active_connections (l : list WebSocket) (w : world) : world :=
  mkWorld (cwd w) (disk w) l (sockets w) (send_log w).

Definition set_socket (ws : WebSocket) (s : socket) (w : world) : world :=
  mkWorld (cwd w) (disk w) (active_connections w)
    (fun x => if Nat.eqb x ws then s else sockets w x) (send_log w).

Definition log_send (ws : WebSocket) (message : string) (w : world) : world :=
  mkWorld (cwd w) (disk w) (active_connections w) (sockets w)
    (send_log w ++ [(ws, message)]).

(** Run a file-system call that yields a new disk. *)
Definition on_disk (f : Fs.node -> list string -> outcome Fs.node) : M world unit :=
  fun w => match f (disk w) (cwd w) with
           | Returned d => (Returned tt, set_disk d w)
           | Raised e => (Raised e, w)
           end.

(** Run a file-system call that only reads. *)
Definition read_disk {A} (f : Fs.node -> list string -> A) : M world A :=
  fun w => (Returned (f (disk w) (cwd w)), w).

(** Run a file-system call that reads and may fail. *)
Definition lift {A} (f : Fs.node -> list string -> outcome A) : M world A :=
  fun w => (f (disk w) (cwd w), w).

(* ===================================================================== *)
(** ** Starlette objects *)
(* ===================================================================== *)

Module Starlette.

(** The messages the service sends: [websocket.accept] and
    [websocket.send] with a text. *)
Inductive message : Type :=
| Accept
| Send (text : string).

Definition message_type (m : message) : string :=
  match m with
  | Accept => "websocket.accept"
  | Send _ => "websocket.send"
  end.

(** The [RuntimeError] of a message that the state does not allow. *)
Definition unexpected (allowed : string) (m : message) : exn :=
  RuntimeError ("Expected ASGI message " ++ allowed ++ ", but got "
                  ++ repr (message_type m)).

(** [await websocket.send(message)]: the state machine on
    [application_state].  A text goes out on a connected socket whose peer
    is reachable; when the transport fails, the [OSError] is turned into
    [WebSocketDisconnect(1006)] and the socket is marked disconnected. *)
Definition send (ws : WebSocket) (m : message) : M world unit :=
  fun w =>
    let s := sockets w ws in
    match application_state s with
    | CONNECTING =>
        match m with
        | Accept =>
            (Returned tt,
             set_socket ws
               (mkSocket (client_state s) CONNECTED (peer_reachable s) (delivered s)) w)
        | Send _ =>
            (Raised (unexpected
                       (quote ++ "websocket.accept" ++ quote ++ ", "
                          ++ quote ++ "websocket.close" ++ quote ++ " or "
                          ++ quote ++ "websocket.http.response.start" ++ quote) m), w)
        end
    | CONNECTED =>
        match m with
        | Send text =>
            if peer_reachable s
            then (Returned tt,
                  set_socket ws
                    (mkSocket (client_state s) CONNECTED true (delivered s ++ [text])) w)
            else (Raised (WebSocketDisconnect 1006),
                  set_socket ws
                    (mkSocket (client_state s) DISCONNECTED false (delivered s)) w)
        | Accept =>
            (Raised (unexpected
                       (quote ++ "websocket.send" ++ quote ++ " or "
                          ++ quote ++ "websocket.close" ++ quote) m), w)
        end
    | RESPONSE =>
        (Raised (unexpected
                   (quote ++ "websocket.http.response.body" ++ quote) m), w)
    | DISCONNECTED =>
        (Raised (RuntimeError
                   ("Cannot call " ++ quote ++ "send" ++ quote
                      ++ " once a close message has been sent.")), w)
    end.

(** [await websocket.accept()]: a socket that has not seen the client's
    [websocket.connect] event takes it first (the event the server always
    delivers first), then the accept message is sent. *)
Definition accept (ws : WebSocket) : M world unit :=
  bind
    (modify (fun w =>
       let s := sockets w ws in
       match client_state s with
       | CONNECTING =>
           set_socket ws
             (mkSocket CONNECTED (application_state s) (peer_reachable s) (delivered s)) w
       | _ => w
       end))
    (fun _ => send ws Accept).

(** [await websocket.send_text(message)]; the call is logged. *)
Definition send_text (ws : WebSocket) (message : string) : M world unit :=
  fun w => send ws (Send message) (log_send ws message w).

(** One frame from the client, after the handshake.  (Binary frames are left
    out: what [receive_text] does with one depends on the keys the server
    puts in the event.) *)
Inductive frame : Type :=
| Text (data : string)
| Close (code : Z).

(** The type of the event the server makes of a frame. *)
Definition event_type (f : frame) : string :=
  match f with
  | Text _ => "websocket.receive"
  | Close _ => "websocket.disconnect"
  end.

(** [await websocket.receive_text()] when the next frame is [f]: the check
    on [application_state], then [receive], the state machine on
    [client_state]; a close frame marks the client disconnected and is
    raised as [WebSocketDisconnect]. *)
Definition receive_text (ws : WebSocket) (f : frame) : M world string :=
  fun w =>
    let s := sockets w ws in
    match application_state s with
    | CONNECTED =>
        match client_state s with
        | CONNECTING =>
            (Raised (RuntimeError
                       ("Expected ASGI message " ++ quote ++ "websocket.connect" ++ quote
                          ++ ", but got " ++ repr (event_type f))), w)
        | CONNECTED =>
            match f with
            | Text data => (Returned data, w)
            | Close code =>
                (Raised (WebSocketDisconnect code),
                 set_socket ws
                   (mkSocket DISCONNECTED (application_state s) (peer_reachable s)
                      (delivered s)) w)
            end
        | _ =>
            (Raised (RuntimeError
                       ("Cannot call " ++ quote ++ "receive" ++ quote
                          ++ " once a disconnect message has been received.")), w)
        end
    | _ =>
        (Raised (RuntimeError
                   ("WebSocket is not connected. Need to call " ++ quote ++ "accept"
                      ++ quote ++ " first.")), w)
    end.

(** The [SpooledTemporaryFile] behind an upload. *)
Record SpooledFile : Type := mkSpooled { data : list byte; position : Z }.

(** [f.seek(offset, whence)] with whence 0 (start), 1 (current), 2 (end). *)
Definition seek (f : SpooledFile) (offset whence : Z) : SpooledFile :=
  let base := if (whence =? 2)%Z then Z.of_nat (List.length (data f))
              else if (whence =? 1)%Z then position f else 0%Z in
  mkSpooled (data f) (base + offset).

(** [f.tell()]. *)
Definition tell (f : SpooledFile) : Z := position f.

(** [f.read()]: the bytes from the cursor to the end. *)
Definition remaining (f : SpooledFile) : list byte :=
  skipn (Z.to_nat (position f)) (data f).

Record UploadFile : Type := mkUpload { filename : option string; file : SpooledFile }.

(** [shutil.copyfileobj(src, buffer)] into the file opened at [loc]. *)
Definition copyfileobj (src : SpooledFile) (loc : list string) : M world unit :=
  modify (fun w => set_disk (Fs.append_bytes (disk w) loc (remaining src)) w).

(** [FileResponse(path)], and what it sends when the response is rendered:
    the path is looked at with [os.stat] then; a missing path and a path that
    is no regular file are [RuntimeError]s that name the path as it was
    given. *)
Inductive Response : Type :=
| FileResponse (path : Pathlib.Path).

Definition body (w : world) (r : Response) : outcome (list byte) :=
  match r with
  | FileResponse p =>
      match Fs.stat (disk w) (cwd w) p with
      | Returned (Fs.File content) => Returned content
      | Returned (Fs.Dir _) =>
          Raised (RuntimeError ("File at path " ++ Pathlib.str p ++ " is not a file."))
      | Raised FileNotFoundError =>
          Raised (RuntimeError ("File at path " ++ Pathlib.str p ++ " does not exist."))
      | Raised e => Raised e
      end
  end.

End Starlette.

(** [f'{x}'] for an optional string. *)
Definition fmt (x : option string) : string :=
  match x with Some s => s | None => "None" end.

(** The truth value of an optional string: [None] and [''] are false. *)
Definition truthy (x : option string) : bool :=
  match x with Some s => negb (String.eqb s "") | None => false end.

(** [l.remove(x)]: the list without the first [x], [None] for the
    [ValueError] of an absent [x]. *)
Fixpoint list_remove (x : WebSocket) (l : list WebSocket) : option (list WebSocket) :=
  match l with
  | [] => None
  | y :: rest =>
      if Nat.eqb x y then Some rest
      else match list_remove x rest with
           | Some rest' => Some (y :: rest')
           | None => None
           end
  end.

(** [for x in l: acc = body(x, acc)]. *)
Fixpoint for_fold {W A B} (l : list A) (acc : B) (body : A -> B -> M W B) : M W B :=
  match l with
  | [] => ret acc
  | x :: rest => bind (body x acc) (fun acc' => for_fold rest acc' body)
  end.

(** [str(n)] for an integer. *)
Definition str_int (n : Z) : string := DecimalString.NilZero.string_of_int (Z.to_int n).

(** The JSON text broadcast after an upload: an object whose key [event]
    has the value [new_file]. *)
Definition new_file_event : string :=
  "{" ++ quote ++ "event" ++ quote ++ ": " ++ quote ++ "new_file" ++ quote ++ "}".

(** The JSON object an upload answers with. *)
Record upload_result : Type := mkResult {
  res_file_id : string;
  res_filename : option string;
  res_user_id : string;
  res_url : string
}.

(** One element of a listing. *)
Record file_entry : Type := mkEntry {
  entry_user_id : string;
  entry_filename : string;
  entry_stored_filename : string;
  entry_url : string
}.

(** The state of an endpoint coroutine that has consumed its input: waiting
    at an [await], or returned. *)
Inductive coroutine : Type := Suspended | Finished.

Local Open Scope string_scope.
Local Open Scope py_scope.

(* ===================================================================== *)
(** ** main.py *)
(* ===================================================================== *)

Module Main.
Import Pathlib Starlette.

Definition UPLOAD_DIR : Path := parse "uploads".

(** [ConnectionManager.connect]. *)
Definition connect (websocket : WebSocket) : M world unit :=
  accept websocket ;;
  modify (fun w => set_active_connections (active_connections w ++ [websocket])%list w).

(** [ConnectionManager.disconnect]. *)
Definition disconnect (websocket : WebSocket) : M world unit :=
  fun w => match list_remove websocket (active_connections w) with
           | Some l => (Returned tt, set_active_connections l w)
           | None => (Raised (ValueError "list.remove(x): x not in list"), w)
           end.

(** [ConnectionManager.broadcast].  [send_text] leaves [active_connections]
    alone, so the loop runs over the list as it is on entry. *)
Definition broadcast (message : string) : M world unit :=
  w <- get ;;
  for_each (active_connections w) (fun connection =>
    try_except (send_text connection message) is_Exception (ret tt)).

(** The [while True] loop of [websocket_endpoint] over the frames the client
    sends; it waits when they are used up. *)
Fixpoint receive_loop (websocket : WebSocket) (frames : list frame) : M world coroutine :=
  match frames with
  | [] => ret Suspended
  | f :: rest => receive_text websocket f ;; receive_loop websocket rest
  end.

Definition websocket_endpoint (websocket : WebSocket) (frames : list frame)
  : M world coroutine :=
  connect websocket ;;
  try_except (receive_loop websocket frames) is_WebSocketDisconnect
    (disconnect websocket ;; ret Finished).

Definition upload_file (urandom16 : N) (file : UploadFile) (user_id : string)
  : M world upload_result :=
  if String.eqb user_id "" then raise (HTTPException 400 "user_id is required")
  else
    let user_dir := UPLOAD_DIR // user_id in
    on_disk (fun d c => Fs.mkdir_exist_ok d c user_dir) ;;
    let file_id := Uuid.str (Uuid.uuid4 urandom16) in
    let safe_filename := file_id ++ "_" ++ fmt (filename file) in
    let file_path := user_dir // safe_filename in
    opened <- lift (fun d c => Fs.open_wb d c file_path) ;;
    modify (set_disk (snd opened)) ;;
    copyfileobj (Starlette.file file) (fst opened) ;;
    broadcast new_file_event ;;
    ret {| res_file_id := file_id;
           res_filename := filename file;
           res_user_id := user_id;
           res_url := "http://127.0.0.1:8000/files/" ++ user_id ++ "/" ++ safe_filename |}.

(** [name.split('_', 1)[1] if '_' in name else name]. *)
Definition listed_filename (name : string) : string :=
  if Str.contains "_" name then Str.item (Str.split1 "_" name) 1 else name.

Definition list_all_files : M world (list file_entry) :=
  ex <- lift (fun d c => Fs.exists_ d c UPLOAD_DIR) ;;
  if ex then
    user_dirs <- lift (fun d c => Fs.iterdir d c UPLOAD_DIR) ;;
    for_fold user_dirs [] (fun user_dir all_files =>
      isd <- lift (fun d c => Fs.is_dir d c user_dir) ;;
      if isd then
        let user_id := name user_dir in
        file_paths <- lift (fun d c => Fs.iterdir d c user_dir) ;;
        for_fold file_paths all_files (fun file_path all_files =>
          isf <- lift (fun d c => Fs.is_file d c file_path) ;;
          if isf then
            ret (all_files ++
                 [{| entry_user_id := user_id;
                     entry_filename := listed_filename (name file_path);
                     entry_stored_filename := name file_path;
                     entry_url := "http://127.0.0.1:8000/files/" ++ user_id ++ "/"
                                    ++ name file_path |}])%list
          else ret all_files)
      else ret all_files)
  else ret [].

Definition list_user_files (user_id : string) : M world (list file_entry) :=
  let user_dir := UPLOAD_DIR // user_id in
  ex <- lift (fun d c => Fs.exists_ d c user_dir) ;;
  isd <- (if ex then lift (fun d c => Fs.is_dir d c user_dir) else ret false) ;;
  if isd then
    file_paths <- lift (fun d c => Fs.iterdir d c user_dir) ;;
    for_fold file_paths [] (fun file_path user_files =>
      isf <- lift (fun d c => Fs.is_file d c file_path) ;;
      if isf then
        ret (user_files ++
             [{| entry_user_id := user_id;
                 entry_filename := listed_filename (name file_path);
                 entry_stored_filename := name file_path;
                 entry_url := "http://127.0.0.1:8000/files/" ++ user_id ++ "/"
                                ++ name file_path |}])%list
      else ret user_files)
  else ret [].

Definition get_file (user_id filename : string) : M world Response :=
  let file_path := UPLOAD_DIR // user_id // filename in
  ex <- lift (fun d c => Fs.exists_ d c file_path) ;;
  if negb ex then raise (HTTPException 404 "File not found")
  else ret (FileResponse file_path).

End Main.

(* ===================================================================== *)
(** ** main_comentado.py *)
(* ===================================================================== *)

Module Comentado.
Import Pathlib Starlette.

Definition UPLOAD_DIR : Path := parse "uploads".

(** The set literal, in the order it is written; the order only shows in the
    text of the error message. *)
Definition ALLOWED_EXTENSIONS : list string :=
  [".jpg"; ".jpeg"; ".png"; ".gif"; ".webp"; ".pdf"; ".doc"; ".docx"; ".xlsx";
   ".xls"; ".txt"; ".csv"].

Definition MAX_FILE_SIZE : Z := 10 * 1024 * 1024.

(** [ConnectionManager.connect]. *)
Definition connect (websocket : WebSocket) : M world unit :=
  accept websocket ;;
  modify (fun w => set_active_connections (active_connections w ++ [websocket])%list w).

(** [ConnectionManager.disconnect]. *)
Definition disconnect (websocket : WebSocket) : M world unit :=
  fun w => match list_remove websocket (active_connections w) with
           | Some l => (Returned tt, set_active_connections l w)
           | None => (Raised (ValueError "list.remove(x): x not in list"), w)
           end.

(** [ConnectionManager.broadcast].  [send_text] leaves [active_connections]
    alone, so the loop runs over the list as it is on entry. *)
Definition broadcast (message : string) : M world unit :=
  w <- get ;;
  for_each (active_connections w) (fun connection =>
    try_except (send_text connection message) is_Exception (ret tt)).

(** The [while True] loop of [websocket_endpoint] over the frames the client
    sends; it waits when they are used up. *)
Fixpoint receive_loop (websocket : WebSocket) (frames : list frame) : M world coroutine :=
  match frames with
  | [] => ret Suspended
  | f :: rest => receive_text websocket f ;; receive_loop websocket rest
  end.

Definition websocket_endpoint (websocket : WebSocket) (frames : list frame)
  : M world coroutine :=
  connect websocket ;;
  try_except (receive_loop websocket frames) is_WebSocketDisconnect
    (disconnect websocket ;; ret Finished).

(** [Path(file.filename).suffix.lower() if file.filename else '']. *)
Definition file_ext (file : UploadFile) : string :=
  if truthy (filename file) then Str.lower (suffix (parse (fmt (filename file))))
  else "".

Definition disallowed_type_detail : string :=
  "Tipo de archivo no permitido. Extensiones válidas: "
    ++ Str.join ", " ALLOWED_EXTENSIONS.

Definition too_large_detail : string :=
  "Archivo muy grande. Tamaño máximo: "
    ++ str_int (MAX_FILE_SIZE / (1024 * 1024)) ++ "MB".

Definition upload_file (urandom16 : N) (file : UploadFile) (user_id : string)
  : M world upload_result :=
  if String.eqb user_id "" then raise (HTTPException 400 "user_id is required")
  else
    let file_ext := file_ext file in
    if negb (Str.mem file_ext ALLOWED_EXTENSIONS)
    then raise (HTTPException 400 disallowed_type_detail)
    else
      let at_end := seek (Starlette.file file) 0 2 in
      let file_size := tell at_end in
      let rewound := seek at_end 0 0 in
      if (file_size >? MAX_FILE_SIZE)%Z
      then raise (HTTPException 413 too_large_detail)
      else
        let user_dir := UPLOAD_DIR // user_id in
        on_disk (fun d c => Fs.mkdir_exist_ok d c user_dir) ;;
        let file_id := Uuid.str (Uuid.uuid4 urandom16) in
        let safe_filename := file_id ++ "_" ++ fmt (filename file) in
        let file_path := user_dir // safe_filename in
        opened <- lift (fun d c => Fs.open_wb d c file_path) ;;
        modify (set_disk (snd opened)) ;;
        copyfileobj rewound (fst opened) ;;
        broadcast new_file_event ;;
        ret {| res_file_id := file_id;
               res_filename := filename file;
               res_user_id := user_id;
               res_url := "http://127.0.0.1:8000/files/" ++ user_id ++ "/"
                            ++ safe_filename |}.

(** [name.split('_', 1)[1] if '_' in name else name]. *)
Definition listed_filename (name : string) : string :=
  if Str.contains "_" name then Str.item (Str.split1 "_" name) 1 else name.

Definition list_all_files : M world (list file_entry) :=
  ex <- lift (fun d c => Fs.exists_ d c UPLOAD_DIR) ;;
  if ex then
    user_dirs <- lift (fun d c => Fs.iterdir d c UPLOAD_DIR) ;;
    for_fold user_dirs [] (fun user_dir all_files =>
      isd <- lift (fun d c => Fs.is_dir d c user_dir) ;;
      if isd then
        let user_id := name user_dir in
        file_paths <- lift (fun d c => Fs.iterdir d c user_dir) ;;
        for_fold file_paths all_files (fun file_path all_files =>
          isf <- lift (fun d c => Fs.is_file d c file_path) ;;
          if isf then
            ret (all_files ++
                 [{| entry_user_id := user_id;
                     entry_filename := listed_filename (name file_path);
                     entry_stored_filename := name file_path;
                     entry_url := "http://127.0.0.1:8000/files/" ++ user_id ++ "/"
                                    ++ name file_path |}])%list
          else ret all_files)
      else ret all_files)
  else ret [].

Definition list_user_files (user_id : string) : M world (list file_entry) :=
  let user_dir := UPLOAD_DIR // user_id in
  ex <- lift (fun d c => Fs.exists_ d c user_dir) ;;
  isd <- (if ex then lift (fun d c => Fs.is_dir d c user_dir) else ret false) ;;
  if isd then
    file_paths <- lift (fun d c => Fs.iterdir d c user_dir) ;;
    for_fold file_paths [] (fun file_path user_files =>
      isf <- lift (fun d c => Fs.is_file d c file_path) ;;
      if isf then
        ret (user_files ++
             [{| entry_user_id := user_id;
                 entry_filename := listed_filename (name file_path);
                 entry_stored_filename := name file_path;
                 entry_url := "http://127.0.0.1:8000/files/" ++ user_id ++ "/"
                                ++ name file_path |}])%list
      else ret user_files)
  else ret [].

Definition get_file (user_id filename : string) : M world Response :=
  file_path <- lift (fun _ c => resolve c (UPLOAD_DIR // user_id // filename)) ;;
  root <- lift (fun _ c => resolve c UPLOAD_DIR) ;;
  if negb (Str.startswith (str file_path) (str root))
  then raise (HTTPException 403 "Acceso denegado")
  else
    ex <- lift (fun d c => Fs.exists_ d c file_path) ;;
    if negb ex then raise (HTTPException 404 "File not found")
    else ret (FileResponse file_path).

End Comentado.

(* ===================================================================== *)
(** ** Path containment and concrete states *)
(* ===================================================================== *)

(** [a] is a prefix of [b], component by component. *)
Fixpoint is_prefix_of (a b : list string) : bool :=
  match a, b with
  | [], _ => true
  | x :: a', y :: b' => String.eqb x y && is_prefix_of a' b'
  | _ :: _, [] => false
  end.

(** The canonical form of [p] is the canonical storage root or lies below
    it. *)
Definition within_root (cwd : list string) (root p : Pathlib.Path) : bool :=
  is_prefix_of (Pathlib.parts (Pathlib.realpath cwd root))
               (Pathlib.parts (Pathlib.realpath cwd p)).

(** A character that is neither a hexadecimal digit nor a dash. *)
Definition outside_uuid_alphabet (c : ascii) : Prop :=
  Forall (fun d => Ascii.eqb c d = false)
         (list_ascii_of_string "0123456789abcdef-").

(** The final component of the upload's file name holds no dot; a missing or
    empty file name counts. *)
Definition has_no_extension (file : Starlette.UploadFile) : bool :=
  match Starlette.filename file with
  | None => true
  | Some s => negb (Str.contains "." (Pathlib.name (Pathlib.parse s)))
  end.

Definition double_ext_upload : Starlette.UploadFile :=
  Starlette.mkUpload (Some "a.exe.txt") (Starlette.mkSpooled [x4d; x5a] 0).

Definition hidden_exe_upload : Starlette.UploadFile :=
  Starlette.mkUpload (Some "a.txt.exe") (Starlette.mkSpooled [x4d; x5a] 0).

(** A socket [send_text] delivers on: connected, with a reachable peer. *)
Definition deliverable (s : socket) : bool :=
  match application_state s with
  | CONNECTED => peer_reachable s
  | _ => false
  end.

(** A single path component: no [/], and none of [''], [.], [..]. *)
Definition plain (s : string) : bool :=
  negb (Str.contains "/" s) && negb (String.eqb s "") && negb (String.eqb s ".")
  && negb (String.eqb s "..").

(** A name a directory entry can bear: a single path component of at most
    [NAME_MAX] bytes without a NUL byte. *)
Definition valid_name (s : string) : bool :=
  plain s && (String.length s <=? Fs.NAME_MAX)%nat && negb (Str.contains Str.NUL s).

(** Every entry of the tree bears a valid name, as on any disk. *)
Fixpoint well_formed (n : Fs.node) : bool :=
  match n with
  | Fs.File _ => true
  | Fs.Dir es => forallb (fun e => valid_name (fst e) && well_formed (snd e)) es
  end.



(** What the client of a download receives: the bytes the response sends,
    or the exception. *)
Definition served (w : world) (o : outcome Starlette.Response) : outcome (list byte) :=
  match o with
  | Returned r => Starlette.body w r
  | Raised e => Raised e
  end.

(** A server started in [/srv]: the storage root [/srv/uploads] with the
    partitions of alice (one file) and carol (none), and next to the root a
    backup archive and a private file. *)
Definition demo_disk : Fs.node :=
  Fs.Dir
    [("srv",
      Fs.Dir
        [("uploads",
          Fs.Dir
            [("alice", Fs.Dir [("7c1e_report.pdf", Fs.File [x25; x50; x44; x46])]);
             ("carol", Fs.Dir [])]);
         ("uploads.bak", Fs.File [x50; x4b]);
         ("secret.txt", Fs.File [x6b; x65; x79])])].

(** The socket of a listener after the handshake. *)
Definition accepted (s : socket) : socket :=
  mkSocket CONNECTED CONNECTED (peer_reachable s) (delivered s).

(** The socket of a listener after the client has closed. *)
Definition closed_by_client (s : socket) : socket :=
  mkSocket DISCONNECTED CONNECTED (peer_reachable s) (delivered s).

(** Listeners 1 and 3 are connected, listener 2 has been closed, any other
    socket is a fresh one that has not been accepted. *)
Definition demo_sockets (ws : WebSocket) : socket :=
  if Nat.eqb ws 1 || Nat.eqb ws 3 then mkSocket CONNECTED CONNECTED true []
  else if Nat.eqb ws 2 then mkSocket CONNECTED DISCONNECTED false []
  else mkSocket CONNECTING CONNECTING true [].

Definition demo_world : world :=
  mkWorld ["srv"] demo_disk [1; 2; 3]%nat demo_sockets [].

Definition pdf_upload : Starlette.UploadFile :=
  Starlette.mkUpload (Some "notes.pdf") (Starlette.mkSpooled [x25; x50] 0).

Definition exe_upload : Starlette.UploadFile :=
  Starlette.mkUpload (Some "setup.exe") (Starlette.mkSpooled [x4d; x5a] 0).

Definition plain_upload : Starlette.UploadFile :=
  Starlette.mkUpload (Some "README") (Starlette.mkSpooled [x68; x69] 0).

(** An upload whose file name ends with a slash. *)
Definition slash_upload : Starlette.UploadFile :=
  Starlette.mkUpload (Some "b.txt/") (Starlette.mkSpooled [x68; x69] 0).


(** The [uploads] directory exists, and the owner's partition is either
    missing or a directory in which no directory bears the stored name. *)
Definition partition_ready (w : world) (user_id stored : string) : Prop :=
  exists es,
    Fs.stat (disk w) (cwd w) Main.UPLOAD_DIR = Returned (Fs.Dir es) /\
    match Fs.assoc user_id es with
    | None => True
    | Some (Fs.Dir es') => forall es'', Fs.assoc stored es' <> Some (Fs.Dir es'')
    | Some (Fs.File _) => False
    end.

(** [fp.is_file()] returned [True]. *)
Definition regular (w : world) (fp : Pathlib.Path) : bool :=
  match Fs.is_file (disk w) (cwd w) fp with
  | Returned true => true
  | _ => false
  end.

(** The entry a listing makes of a file path for an owner. *)
Definition entry_of (user_id : string) (file_path : Pathlib.Path) : file_entry :=
  {| entry_user_id := user_id;
     entry_filename := Main.listed_filename (Pathlib.name file_path);
     entry_stored_filename := Pathlib.name file_path;
     entry_url := "http://127.0.0.1:8000/files/" ++ user_id ++ "/"
                    ++ Pathlib.name file_path |}.


(** Payloads of one byte over the ceiling, and of exactly the ceiling. *)
Definition payload_over_ceiling : list byte := repeat x00 (Z.to_nat 10485761).

Definition payload_at_ceiling : list byte := repeat x00 (Z.to_nat 10485760).

Definition oversize_exe_upload : Starlette.UploadFile :=
  Starlette.mkUpload (Some "big.exe") (Starlette.mkSpooled payload_over_ceiling 0).

Definition oversize_pdf_upload : Starlette.UploadFile :=
  Starlette.mkUpload (Some "big.pdf") (Starlette.mkSpooled payload_over_ceiling 0).

Definition ceiling_pdf_upload : Starlette.UploadFile :=
  Starlette.mkUpload (Some "full.pdf") (Starlette.mkSpooled payload_at_ceiling 0).

(* ===================================================================== *)
(** ** The connection registry *)
(* ===================================================================== *)

Section Registry.

Import Starlette.

(** What a [send_text] call leaves untouched. *)
Lemma send_text_frame (ws : WebSocket) (message : string) (w : world) :
  let w' := snd (send_text ws message w) in
  active_connections w' = active_connections w /\
  disk w' = disk w /\ cwd w' = cwd w /\
  send_log w' = (send_log w ++ [(ws, message)])%list.
Proof.
  unfold send_text, send; cbn.
  destruct (application_state (sockets w ws)); cbn; auto.
  destruct (peer_reachable (sockets w ws)); cbn; auto.
Qed.

(** One iteration of the loop of [broadcast]: whatever [send_text] raises is
    an [Exception] and is swallowed. *)
Lemma guarded_send_returns (message : string) (c : WebSocket) (w : world) :
  try_except (send_text c message) is_Exception (ret tt) w
  = (Returned tt, snd (send_text c message w)).
Proof.
  unfold try_except.
  destruct (send_text c message w) as [[[]|e] w']; reflexivity.
Qed.

Lemma broadcast_loop (message : string) (l : list WebSocket) :
  forall w : world,
    let r := for_each l (fun connection =>
               try_except (send_text connection message) is_Exception (ret tt)) w in
    fst r = Returned tt /\
    active_connections (snd r) = active_connections w /\
    disk (snd r) = disk w /\ cwd (snd r) = cwd w /\
    send_log (snd r) = (send_log w ++ map (fun c => (c, message)) l)%list.
Proof.
  induction l as [|c l IH]; intros w; cbn.
  - rewrite app_nil_r; auto.
  - unfold bind. rewrite guarded_send_returns.
    destruct (send_text_frame c message w) as (Ha & Hd & Hc & Hl).
    destruct (IH (snd (send_text c message w))) as (H1 & H2 & H3 & H4 & H5).
    cbn in *. repeat split; try congruence.
    rewrite H5, Hl, <- app_assoc. reflexivity.
Qed.

(** [send_text] changes the socket it is called on, and no other. *)
Lemma send_text_sockets (ws : WebSocket) (message : string) (w : world)
  (c : WebSocket) :
  delivered (sockets (snd (send_text ws message w)) c)
  = if Nat.eqb c ws && deliverable (sockets w ws)
    then (delivered (sockets w c) ++ [message])%list
    else delivered (sockets w c).
Proof.
  unfold send_text, send, deliverable; cbn.
  destruct (Nat.eqb_spec c ws) as [->|Hne]; cbn [andb].
  - destruct (application_state (sockets w ws)); cbn; try reflexivity.
    destruct (peer_reachable (sockets w ws)); cbn; now rewrite Nat.eqb_refl.
  - apply Nat.eqb_neq in Hne.
    destruct (application_state (sockets w ws)); cbn; try reflexivity.
    destruct (peer_reachable (sockets w ws)); cbn; now rewrite Hne.
Qed.

Lemma send_text_keeps_other_sockets (ws : WebSocket) (message : string)
  (w : world) (c : WebSocket) :
  c <> ws -> sockets (snd (send_text ws message w)) c = sockets w c.
Proof.
  intros Hne. apply Nat.eqb_neq in Hne. unfold send_text, send; cbn.
  destruct (application_state (sockets w ws)); cbn; try reflexivity.
  destruct (peer_reachable (sockets w ws)); cbn; now rewrite Hne.
Qed.

(** Over a registry without repetition, the loop of [broadcast] hands the
    message once to every registered socket it can deliver on, and nothing
    to any other socket. *)
Lemma broadcast_loop_delivers (message : string) (l : list WebSocket) :
  NoDup l ->
  forall (w : world) (c : WebSocket),
    delivered (sockets (snd (for_each l (fun connection =>
                 try_except (send_text connection message) is_Exception (ret tt)) w)) c)
    = if existsb (Nat.eqb c) l && deliverable (sockets w c)
      then (delivered (sockets w c) ++ [message])%list
      else delivered (sockets w c).
Proof.
  induction 1 as [|c0 l Hnotin _ IH]; intros w c; [reflexivity|].
  cbn [for_each existsb]. unfold bind. rewrite guarded_send_returns.
  rewrite IH. destruct (Nat.eqb_spec c c0) as [->|Hne]; cbn [orb].
  - assert (Hmem : existsb (Nat.eqb c0) l = false).
    { destruct (existsb (Nat.eqb c0) l) eqn:E; [|reflexivity].
      apply existsb_exists in E. destruct E as (x & Hin & Hx).
      apply Nat.eqb_eq in Hx. subst x. contradiction. }
    rewrite Hmem, send_text_sockets, Nat.eqb_refl. reflexivity.
  - now rewrite (send_text_keeps_other_sockets c0 message w c Hne).
Qed.

Lemma Main_broadcast_spec (message : string) (w : world) :
  let r := Main.broadcast message w in
  fst r = Returned tt /\
  active_connections (snd r) = active_connections w /\
  disk (snd r) = disk w /\ cwd (snd r) = cwd w /\
  send_log (snd r)
    = (send_log w ++ map (fun c => (c, message)) (active_connections w))%list.
Proof. exact (broadcast_loop message (active_connections w) w). Qed.

(** Every listener that is registered (once) and can be delivered to
    receives the message exactly once; no other listener receives it. *)
Lemma Main_broadcast_delivers_once (message : string) (w : world) (c : WebSocket) :
  NoDup (active_connections w) ->
  delivered (sockets (snd (Main.broadcast message w)) c)
  = if existsb (Nat.eqb c) (active_connections w) && deliverable (sockets w c)
    then (delivered (sockets w c) ++ [message])%list
    else delivered (sockets w c).
Proof.
  intros H. exact (broadcast_loop_delivers message (active_connections w) H w c).
Qed.

Lemma Comentado_broadcast_same (message : string) (w : world) :
  Comentado.broadcast message w = Main.broadcast message w.
Proof. reflexivity. Qed.

Lemma list_remove_absent (x : WebSocket) (l : list WebSocket) :
  ~ In x l -> list_remove x l = None.
Proof.
  induction l as [|y l IH]; cbn; intros H; [reflexivity|].
  destruct (Nat.eqb_spec x y) as [->|Hxy]; [tauto|].
  rewrite IH; tauto.
Qed.

Lemma list_remove_present (x : WebSocket) (l : list WebSocket) :
  In x l ->
  exists before after,
    l = (before ++ x :: after)%list /\ ~ In x before /\
    list_remove x l = Some (before ++ after)%list.
Proof.
  induction l as [|y l IH]; cbn; [tauto|]. intros H.
  destruct (Nat.eqb_spec x y) as [->|Hxy].
  - exists [], l. cbn. auto.
  - destruct H as [H|H]; [congruence|].
    destruct (IH H) as (b & a & -> & Hb & ->).
    exists (y :: b), a. cbn. intuition congruence.
Qed.

End Registry.

(* ===================================================================== *)
(** ** Facts about strings, stored names and ids *)
(* ===================================================================== *)

Section StringFacts.

Lemma contains_app (c : ascii) (a b : string) :
  Str.contains c (a ++ b) = Str.contains c a || Str.contains c b.
Proof.
  induction a as [|d a IH]; cbn; [reflexivity|].
  destruct (Ascii.eqb c d); [reflexivity|exact IH].
Qed.

Lemma contains_substring (c : ascii) (s : string) :
  Str.contains c s = false ->
  forall i n, Str.contains c (String.substring i n s) = false.
Proof.
  induction s as [|d s IH]; cbn; intros H i n.
  - destruct i, n; reflexivity.
  - destruct (Ascii.eqb c d) eqn:E; [discriminate|].
    destruct i as [|i]; [destruct n as [|n]|]; cbn; rewrite ?E; auto.
Qed.

(** Cutting [a ++ sep ++ b] at the first separator gives back [a] and [b]
    when [a] has no separator. *)
Lemma split1_join (sep : ascii) (a b : string) :
  Str.contains sep a = false ->
  Str.split1 sep (a ++ String sep b) = [a; b].
Proof.
  induction a as [|d a IH]; cbn; intros H.
  - now rewrite Ascii.eqb_refl.
  - destruct (Ascii.eqb sep d); [discriminate|].
    now rewrite (IH H).
Qed.

Lemma listed_filename_of_stored_name (file_id original : string) :
  Str.contains "_" file_id = false ->
  Main.listed_filename (file_id ++ "_" ++ original) = original.
Proof.
  intros H. unfold Main.listed_filename.
  rewrite contains_app, H. cbn [orb Str.contains append Ascii.eqb Bool.eqb].
  change ("_" ++ original) with (String "_" original).
  now rewrite (split1_join "_" file_id original H).
Qed.

Lemma hex_digit_differs (c : ascii) (n : N) :
  outside_uuid_alphabet c -> Ascii.eqb c (Uuid.hex_digit n) = false.
Proof.
  unfold outside_uuid_alphabet, Uuid.hex_digit. intros Hall.
  rewrite Forall_forall in Hall.
  destruct (nth_in_or_default (N.to_nat n)
              (list_ascii_of_string "0123456789abcdef") "0"%char) as [Hin|E].
  - apply Hall. cbn in Hin |- *. intuition.
  - rewrite E. apply Hall. cbn. auto.
Qed.

Lemma hex_from_lacks (c : ascii) (k : nat) :
  outside_uuid_alphabet c ->
  forall (n : N) (acc : string),
    Str.contains c acc = false ->
    Str.contains c (Uuid.hex_from k n acc) = false.
Proof.
  intros Hc. induction k as [|k IH]; intros n acc H; cbn [Uuid.hex_from]; [exact H|].
  apply IH. cbn [Str.contains]. now rewrite (hex_digit_differs c _ Hc).
Qed.

(** The text of a UUID holds hexadecimal digits and dashes only. *)
Lemma uuid_str_lacks (c : ascii) (int : N) :
  outside_uuid_alphabet c -> Str.contains c (Uuid.str int) = false.
Proof.
  intros Hc. unfold Uuid.str, Str.slice.
  assert (H : Str.contains c (Uuid.hex32 int) = false)
    by (apply hex_from_lacks; [exact Hc|reflexivity]).
  assert (Hdash : Ascii.eqb c "-" = false).
  { unfold outside_uuid_alphabet in Hc. rewrite Forall_forall in Hc.
    apply Hc. cbn. intuition. }
  rewrite !contains_app, !(contains_substring _ _ H).
  cbn [Str.contains]. rewrite Hdash. reflexivity.
Qed.

Lemma uuid_str_no_underscore (int : N) :
  Str.contains "_" (Uuid.str int) = false.
Proof. apply uuid_str_lacks. repeat constructor. Qed.

Lemma uuid_str_no_slash (int : N) :
  Str.contains "/" (Uuid.str int) = false.
Proof. apply uuid_str_lacks. repeat constructor. Qed.

(** A string without the separator is one piece. *)
Lemma split_without_separator (sep : ascii) (s : string) :
  Str.contains sep s = false -> Str.split sep s = [s].
Proof.
  induction s as [|d s IH]; cbn; intros H; [reflexivity|].
  destruct (Ascii.eqb sep d); [discriminate|]. now rewrite (IH H).
Qed.

Lemma startswith_absent_char (c : ascii) (s : string) :
  Str.contains c s = false -> Str.startswith s (String c "") = false.
Proof.
  unfold Str.startswith. destruct s as [|d s]; cbn; [reflexivity|].
  destruct (Ascii.eqb_spec c d) as [->|Hcd]; [discriminate|].
  intros _. destruct (ascii_dec c d); [contradiction|reflexivity].
Qed.

(** A name without [/] that is neither empty nor [.] is one path component,
    and joining it to a path makes it the name of the result. *)
Lemma name_of_joined_component (p : Pathlib.Path) (s : string) :
  Str.contains "/" s = false -> s <> "" -> s <> "." ->
  Pathlib.name (p // s) = s.
Proof.
  intros Hslash Hne Hdot.
  unfold Pathlib.truediv, Pathlib.parse.
  rewrite (startswith_absent_char "/" s Hslash), (split_without_separator _ _ Hslash).
  cbn [filter Pathlib.kept Pathlib.is_absolute Pathlib.parts].
  unfold Pathlib.kept.
  destruct (String.eqb_spec s ""); [contradiction|].
  destruct (String.eqb_spec s "."); [contradiction|].
  cbn. unfold Pathlib.name. cbn. apply last_last.
Qed.

Lemma rfind_from_absent (c : ascii) (s : string) :
  Str.contains c s = false ->
  forall i found, Str.rfind_from c s i found = found.
Proof.
  induction s as [|d s IH]; cbn; intros H i found; [reflexivity|].
  destruct (Ascii.eqb c d); [discriminate|]. now apply IH.
Qed.

(** A name without a dot has no suffix. *)
Lemma suffix_without_dot (p : Pathlib.Path) :
  Str.contains "." (Pathlib.name p) = false -> Pathlib.suffix p = "".
Proof.
  intros H. unfold Pathlib.suffix, Str.rfind.
  now rewrite (rfind_from_absent _ _ H).
Qed.

End StringFacts.

(* ===================================================================== *)
(** ** Facts about path texts *)
(* ===================================================================== *)

Section PathTexts.

Import Pathlib.

Lemma plain_inv (s : string) :
  plain s = true ->
  Str.contains "/" s = false /\ String.eqb s "" = false /\
  String.eqb s "." = false /\ String.eqb s ".." = false.
Proof.
  unfold plain. rewrite !andb_true_iff, !negb_true_iff. tauto.
Qed.

Lemma valid_name_inv (s : string) :
  valid_name s = true ->
  plain s = true /\ (String.length s <= Fs.NAME_MAX)%nat /\
  Str.contains Str.NUL s = false.
Proof.
  unfold valid_name. rewrite !andb_true_iff, negb_true_iff, Nat.leb_le. tauto.
Qed.

Lemma parse_plain (s : string) :
  plain s = true -> parse s = mkPath false [s].
Proof.
  intros H. destruct (plain_inv s H) as (Hslash & He & Hd & _).
  unfold parse.
  rewrite (startswith_absent_char "/" s Hslash), (split_without_separator _ _ Hslash).
  cbn [filter]. unfold kept. now rewrite He, Hd.
Qed.


Lemma string_app_assoc (a b c : string) : (a ++ b) ++ c = a ++ (b ++ c).
Proof.
  induction a as [|d a IH]; cbn; [reflexivity|]. now rewrite IH.
Qed.

Lemma string_length_app (a b : string) :
  String.length (a ++ b) = (String.length a + String.length b)%nat.
Proof.
  induction a as [|d a IH]; cbn; [reflexivity|]. now rewrite IH.
Qed.


Lemma startswith_app (a b : string) : Str.startswith (a ++ b) a = true.
Proof.
  unfold Str.startswith. induction a as [|c a IH]; cbn.
  - now destruct b.
  - destruct (ascii_dec c c); [exact IH|contradiction].
Qed.


Lemma list_sum_cons (x : nat) (l : list nat) :
  list_sum (x :: l) = (x + list_sum l)%nat.
Proof. reflexivity. Qed.

(** The text of a joined list is no longer than its components with one
    separator each. *)
Lemma join_length (l : list string) :
  (String.length (Str.join "/" l)
   <= list_sum (map (fun c => S (String.length c)) l))%nat.
Proof.
  induction l as [|x l IH]; [cbn; lia|].
  destruct l as [|y l]; [cbn; lia|].
  change (Str.join "/" (x :: y :: l)) with (x ++ "/" ++ Str.join "/" (y :: l)).
  rewrite !string_length_app. cbn [map] in *. rewrite !list_sum_cons in *.
  change (String.length "/") with 1%nat. lia.
Qed.

Lemma str_length (p : Path) :
  (String.length (str p)
   <= S (list_sum (map (fun c => S (String.length c)) (parts p))))%nat.
Proof.
  unfold str. pose proof (join_length (parts p)) as H.
  destruct (is_absolute p).
  - rewrite string_length_app. change (String.length "/") with 1%nat. lia.
  - destruct (parts p) as [|x l]; [cbn; lia|]. lia.
Qed.

Lemma split_weight (sep : ascii) (s : string) :
  (list_sum (map (fun c => S (String.length c)) (Str.split sep s))
   <= S (String.length s))%nat.
Proof.
  induction s as [|d s IH]; [cbn; lia|]. cbn [Str.split].
  destruct (Ascii.eqb sep d).
  - cbn [map String.length]. rewrite list_sum_cons. lia.
  - destruct (Str.split sep s) as [|x rest]; cbn [map String.length] in *;
      rewrite ?list_sum_cons in *; cbn [list_sum fold_right] in *; lia.
Qed.

Lemma filter_weight (f : string -> bool) (l : list string) :
  (list_sum (map (fun c => S (String.length c)) (filter f l))
   <= list_sum (map (fun c => S (String.length c)) l))%nat.
Proof.
  induction l as [|x l IH]; [cbn; lia|]. cbn [filter].
  destruct (f x); cbn [map]; rewrite ?list_sum_cons; lia.
Qed.

Lemma parse_weight (s : string) :
  (list_sum (map (fun c => S (String.length c)) (parts (parse s)))
   <= S (String.length s))%nat.
Proof.
  unfold parse. cbn [parts].
  pose proof (filter_weight kept (Str.split "/" s)).
  pose proof (split_weight "/" s). lia.
Qed.

Lemma truediv_weight (p : Path) (s : string) :
  (list_sum (map (fun c => S (String.length c)) (parts (p // s)))
   <= list_sum (map (fun c => S (String.length c)) (parts p))
      + S (String.length s))%nat.
Proof.
  unfold truediv. pose proof (parse_weight s) as H.
  destruct (is_absolute (parse s)); cbn [parts]; [lia|].
  rewrite map_app, list_sum_app. lia.
Qed.

(** Every component of a parsed text is a piece of it. *)
Lemma split_component_length (sep : ascii) (s : string) :
  Forall (fun c => (String.length c <= String.length s)%nat) (Str.split sep s).
Proof.
  induction s as [|d s IH]; [repeat constructor|]. cbn [Str.split].
  assert (IH' : Forall (fun c => (String.length c <= String.length (String d s))%nat)
                  (Str.split sep s)).
  { eapply Forall_impl; [|exact IH]. cbn. intros; lia. }
  destruct (Ascii.eqb sep d).
  - constructor; [cbn; lia|exact IH'].
  - destruct (Str.split sep s) as [|x rest];
      [constructor; [cbn; lia|constructor]|].
    inversion IH as [|? ? Hx Hrest]; subst. inversion IH'; subst.
    constructor; [cbn; lia|assumption].
Qed.

Lemma truediv_component_length (p : Path) (s : string) (n : nat) :
  Forall (fun c => (String.length c <= n)%nat) (parts p) ->
  (String.length s <= n)%nat ->
  Forall (fun c => (String.length c <= n)%nat) (parts (p // s)).
Proof.
  intros Hp Hs.
  assert (Hq : Forall (fun c => (String.length c <= n)%nat) (parts (parse s))).
  { unfold parse. cbn [parts]. apply Forall_forall. intros c Hin.
    apply filter_In in Hin. destruct Hin as [Hin _].
    pose proof (split_component_length "/" s) as H.
    rewrite Forall_forall in H. specialize (H c Hin). lia. }
  unfold truediv. destruct (is_absolute (parse s)); cbn [parts]; [exact Hq|].
  apply Forall_app. auto.
Qed.

(** The paths of the service for an owner id and a file name of bounded
    length are texts a system call takes. *)
Lemma partition_path_length (user_id : string) :
  (String.length (str (Main.UPLOAD_DIR // user_id)) <= String.length user_id + 10)%nat.
Proof.
  pose proof (str_length (Main.UPLOAD_DIR // user_id)) as Hs.
  pose proof (truediv_weight Main.UPLOAD_DIR user_id) as H.
  change (list_sum (map (fun c => S (String.length c)) (parts Main.UPLOAD_DIR)))
    with 8%nat in H. lia.
Qed.

Lemma file_path_length (user_id filename : string) :
  (String.length (str (Main.UPLOAD_DIR // user_id // filename))
   <= String.length user_id + String.length filename + 11)%nat.
Proof.
  pose proof (str_length (Main.UPLOAD_DIR // user_id // filename)) as Hs.
  pose proof (truediv_weight (Main.UPLOAD_DIR // user_id) filename) as Hf.
  pose proof (truediv_weight Main.UPLOAD_DIR user_id) as H.
  change (list_sum (map (fun c => S (String.length c)) (parts Main.UPLOAD_DIR)))
    with 8%nat in H. lia.
Qed.

Lemma child_path_length (p : Path) (c : string) :
  (String.length (str (child p c))
   <= S (list_sum (map (fun c => S (String.length c)) (parts p)))
      + S (String.length c))%nat.
Proof.
  pose proof (str_length (child p c)) as H. unfold child in H at 2.
  cbn [parts] in H. rewrite map_app, list_sum_app in H. cbn [map] in H.
  rewrite list_sum_cons in H. cbn [list_sum fold_right] in H. lia.
Qed.

(** A path without a NUL byte keeps none when a part of it is taken. *)
Lemma has_nul_app (a b : list string) (abs1 abs2 abs3 : bool) :
  has_nul (mkPath abs1 (a ++ b)) = false ->
  has_nul (mkPath abs2 a) = false /\ has_nul (mkPath abs3 b) = false.
Proof.
  unfold has_nul. cbn [parts]. rewrite existsb_app, orb_false_iff. tauto.
Qed.

End PathTexts.

(* ===================================================================== *)
(** ** Facts about the file system *)
(* ===================================================================== *)

Section FsFacts.

Import Pathlib.

Lemma assoc_In (c : string) (es : list (string * Fs.node)) (n : Fs.node) :
  Fs.assoc c es = Some n -> In (c, n) es.
Proof.
  induction es as [|[d m] es IH]; cbn; [discriminate|].
  destruct (String.eqb_spec c d) as [->|Hcd].
  - intros [= ->]. now left.
  - intros H. right. now apply IH.
Qed.

Lemma lookup_app (loc1 loc2 : list string) :
  forall root : Fs.node,
    Fs.lookup root (loc1 ++ loc2)
    = match Fs.lookup root loc1 with
      | Some n => Fs.lookup n loc2
      | None => None
      end.
Proof.
  induction loc1 as [|c loc1 IH]; intros root; cbn; [reflexivity|].
  destruct root as [content|es]; [reflexivity|].
  destruct (Fs.assoc c es); [apply IH|reflexivity].
Qed.

Lemma lookup_snoc (root : Fs.node) (loc : list string) (c : string)
  (es : list (string * Fs.node)) :
  Fs.lookup root loc = Some (Fs.Dir es) ->
  Fs.lookup root (loc ++ [c]) = Fs.assoc c es.
Proof.
  intros H. rewrite lookup_app, H. cbn. now destruct (Fs.assoc c es).
Qed.

(** The parent of a location that exists is a directory. *)
Lemma lookup_parent (root : Fs.node) (loc : list string)
  (es : list (string * Fs.node)) :
  Fs.lookup root loc = Some (Fs.Dir es) ->
  exists es', Fs.lookup root (removelast loc) = Some (Fs.Dir es').
Proof.
  destruct loc as [|c0 loc0]; [cbn; eauto|].
  destruct (@exists_last _ (c0 :: loc0)) as (loc' & c & ->); [discriminate|].
  - rewrite removelast_last, lookup_app.
    destruct (Fs.lookup root loc') as [[content|es']|]; cbn; try discriminate.
    eauto.
Qed.

Lemma walk_app (root : Fs.node) (comps1 comps2 : list string) :
  forall cur : list string,
    Fs.walk root cur (comps1 ++ comps2)
    = match Fs.walk root cur comps1 with
      | Returned cur' => Fs.walk root cur' comps2
      | Raised e => Raised e
      end.
Proof.
  induction comps1 as [|c comps1 IH]; intros cur; cbn; [reflexivity|].
  destruct (Fs.walk_step root cur c); [apply IH|reflexivity].
Qed.

(** What [getname] lets through, and what it raises. *)
Lemma getname_fits (p : Path) :
  has_nul p = false -> (String.length (str p) < Fs.PATH_MAX)%nat ->
  Fs.getname p = Returned tt.
Proof.
  intros Hn Hl. unfold Fs.getname. rewrite Hn.
  destruct (Nat.leb_spec Fs.PATH_MAX (String.length (str p))); [lia|reflexivity].
Qed.

Lemma getname_inv (p : Path) (u : unit) :
  Fs.getname p = Returned u ->
  has_nul p = false /\ (String.length (str p) < Fs.PATH_MAX)%nat.
Proof.
  unfold Fs.getname. destruct (has_nul p); [discriminate|].
  destruct (Nat.leb_spec Fs.PATH_MAX (String.length (str p))); [discriminate|auto].
Qed.

Lemma getname_raises (p : Path) (e : exn) :
  Fs.getname p = Raised e ->
  (e = ValueError "embedded null byte" /\ has_nul p = true) \/
  (e = OSError ENAMETOOLONG /\ has_nul p = false /\
   (Fs.PATH_MAX <= String.length (str p))%nat).
Proof.
  unfold Fs.getname. destruct (has_nul p); [intros [= <-]; auto|].
  destruct (Nat.leb_spec Fs.PATH_MAX (String.length (str p)));
    [intros [= <-]; auto|discriminate].
Qed.

(** What the walk raises. *)
Lemma walk_step_raises (root : Fs.node) (cur : list string) (c : string) (e : exn) :
  Fs.walk_step root cur c = Raised e ->
  e = FileNotFoundError \/ e = NotADirectoryError \/
  (e = OSError ENAMETOOLONG /\ (Fs.NAME_MAX < String.length c)%nat).
Proof.
  unfold Fs.walk_step.
  destruct (Fs.lookup root cur) as [[content|es]|]; try (intros [= <-]; auto).
  destruct (String.eqb c "" || String.eqb c "."); [discriminate|].
  destruct (String.eqb c ".."); [discriminate|].
  destruct (Nat.ltb_spec Fs.NAME_MAX (String.length c)); [intros [= <-]; auto|].
  destruct (Fs.assoc c es); [discriminate|intros [= <-]; auto].
Qed.

Lemma walk_raises (root : Fs.node) (comps : list string) :
  forall (cur : list string) (e : exn),
    Fs.walk root cur comps = Raised e ->
    e = FileNotFoundError \/ e = NotADirectoryError \/
    (e = OSError ENAMETOOLONG /\
     Exists (fun c => (Fs.NAME_MAX < String.length c)%nat) comps).
Proof.
  induction comps as [|c comps IH]; cbn; intros cur e; [discriminate|].
  destruct (Fs.walk_step root cur c) as [cur'|e'] eqn:E.
  - intros H. destruct (IH _ _ H) as [?|[?|[? ?]]]; auto.
  - intros [= <-]. destruct (walk_step_raises _ _ _ _ E) as [?|[?|[? ?]]]; auto.
Qed.

Lemma namei_raises (root : Fs.node) (cwd : list string) (p : Path) (e : exn) :
  Fs.namei root cwd p = Raised e ->
  e = FileNotFoundError \/ e = NotADirectoryError \/
  (e = OSError ENAMETOOLONG /\
   Exists (fun c => (Fs.NAME_MAX < String.length c)%nat) (parts p)).
Proof.
  unfold Fs.namei.
  destruct (Fs.walk root (Fs.origin cwd p) (parts p)) as [loc|e'] eqn:E.
  - destruct (Fs.lookup root loc); [discriminate|intros [= <-]; auto].
  - intros [= <-]. exact (walk_raises _ _ _ _ E).
Qed.

(** [stat], unfolded. *)
Lemma stat_inv (root : Fs.node) (cwd : list string) (p : Path) (n : Fs.node) :
  Fs.stat root cwd p = Returned n ->
  Fs.getname p = Returned tt /\
  exists loc,
    Fs.walk root (Fs.origin cwd p) (parts p) = Returned loc /\
    Fs.lookup root loc = Some n.
Proof.
  unfold Fs.stat, Fs.namei. destruct (Fs.getname p) as [[]|e]; [|discriminate].
  destruct (Fs.walk root (Fs.origin cwd p) (parts p)) as [loc|e]; [|discriminate].
  destruct (Fs.lookup root loc) as [m|] eqn:E; [|discriminate].
  intros [= ->]. eauto.
Qed.

Lemma stat_dir_inv (root : Fs.node) (cwd : list string) (p : Path)
  (es : list (string * Fs.node)) :
  Fs.stat root cwd p = Returned (Fs.Dir es) ->
  exists loc,
    Fs.walk root (Fs.origin cwd p) (parts p) = Returned loc /\
    Fs.lookup root loc = Some (Fs.Dir es).
Proof. intros H. exact (proj2 (stat_inv _ _ _ _ H)). Qed.

Lemma stat_intro (root : Fs.node) (cwd : list string) (p : Path)
  (loc : list string) (n : Fs.node) :
  Fs.getname p = Returned tt ->
  Fs.walk root (Fs.origin cwd p) (parts p) = Returned loc ->
  Fs.lookup root loc = Some n ->
  Fs.stat root cwd p = Returned n.
Proof.
  intros Hg Hw Hl. unfold Fs.stat, Fs.namei. now rewrite Hg, Hw, Hl.
Qed.

Lemma stat_raises (root : Fs.node) (cwd : list string) (p : Path) (e : exn) :
  Fs.stat root cwd p = Raised e ->
  Fs.ignore_error e = true \/ e = OSError ENAMETOOLONG.
Proof.
  unfold Fs.stat. destruct (Fs.getname p) as [[]|e'] eqn:E.
  - intros H. destruct (namei_raises _ _ _ _ H) as [->|[->|[-> _]]]; auto.
  - intros [= <-]. destruct (getname_raises _ _ E) as [[-> _]|[-> _]]; auto.
Qed.

(** A path whose components and text are short enough is answered without
    an error that [exists], [is_dir] and [is_file] would pass on. *)
Lemma stat_short (root : Fs.node) (cwd : list string) (p : Path) (e : exn) :
  Forall (fun c => (String.length c <= Fs.NAME_MAX)%nat) (parts p) ->
  (String.length (str p) < Fs.PATH_MAX)%nat ->
  Fs.stat root cwd p = Raised e -> Fs.ignore_error e = true.
Proof.
  intros Hshort Hfits. unfold Fs.stat.
  destruct (Fs.getname p) as [[]|e'] eqn:E.
  - intros H. destruct (namei_raises _ _ _ _ H) as [->|[->|[-> Hex]]]; auto.
    exfalso. apply Exists_exists in Hex. destruct Hex as (c & Hin & Hc).
    rewrite Forall_forall in Hshort. specialize (Hshort c Hin). lia.
  - intros [= <-]. destruct (getname_raises _ _ E) as [[-> _]|[_ [_ H]]]; [reflexivity|lia].
Qed.

(** The only error that [exists], [is_dir] and [is_file] pass on is that of
    a name too long. *)
Lemma exists_raises (root : Fs.node) (cwd : list string) (p : Path) (e : exn) :
  Fs.exists_ root cwd p = Raised e -> e = OSError ENAMETOOLONG.
Proof.
  unfold Fs.exists_. destruct (Fs.stat root cwd p) as [n|e'] eqn:E; [discriminate|].
  destruct (stat_raises _ _ _ _ E) as [->| ->]; [discriminate|].
  cbn. now intros [= <-].
Qed.

Lemma is_dir_raises (root : Fs.node) (cwd : list string) (p : Path) (e : exn) :
  Fs.is_dir root cwd p = Raised e -> e = OSError ENAMETOOLONG.
Proof.
  unfold Fs.is_dir. destruct (Fs.stat root cwd p) as [[c|es]|e'] eqn:E; try discriminate.
  destruct (stat_raises _ _ _ _ E) as [->| ->]; [discriminate|].
  cbn. now intros [= <-].
Qed.

Lemma is_file_raises (root : Fs.node) (cwd : list string) (p : Path) (e : exn) :
  Fs.is_file root cwd p = Raised e -> e = OSError ENAMETOOLONG.
Proof.
  unfold Fs.is_file. destruct (Fs.stat root cwd p) as [[c|es]|e'] eqn:E; try discriminate.
  destruct (stat_raises _ _ _ _ E) as [->| ->]; [discriminate|].
  cbn. now intros [= <-].
Qed.


Lemma is_file_short (root : Fs.node) (cwd : list string) (p : Path) :
  Forall (fun c => (String.length c <= Fs.NAME_MAX)%nat) (parts p) ->
  (String.length (str p) < Fs.PATH_MAX)%nat ->
  Fs.is_file root cwd p
  = Returned (match Fs.stat root cwd p with
              | Returned (Fs.File _) => true
              | _ => false
              end).
Proof.
  intros Hshort Hfits. unfold Fs.is_file.
  destruct (Fs.stat root cwd p) as [[c|es]|e] eqn:E; try reflexivity.
  now rewrite (stat_short _ _ _ _ Hshort Hfits E).
Qed.

(** The walk along plain, short names to a location that exists ends
    there. *)
Lemma walk_plain (root : Fs.node) (comps : list string) :
  Forall (fun c => plain c = true) comps ->
  Forall (fun c => (String.length c <= Fs.NAME_MAX)%nat) comps ->
  forall cur n,
    Fs.lookup root (cur ++ comps) = Some n ->
    Fs.walk root cur comps = Returned (cur ++ comps)%list.
Proof.
  induction 1 as [|c comps Hc _ IH]; intros Hshort cur n Hn; cbn.
  - now rewrite app_nil_r.
  - destruct (plain_inv c Hc) as (_ & He & Hd & Hdd).
    inversion Hshort as [|? ? Hlen Hshort']; subst.
    rewrite lookup_app in Hn. unfold Fs.walk_step.
    destruct (Fs.lookup root cur) as [[content|es]|] eqn:Ecur; try discriminate.
    cbn in Hn. rewrite He, Hd, Hdd. cbn [orb].
    destruct (Nat.ltb_spec Fs.NAME_MAX (String.length c)); [lia|].
    destruct (Fs.assoc c es) as [m|] eqn:Ec; [|discriminate].
    change (cur ++ c :: comps)%list with (cur ++ [c] ++ comps)%list.
    rewrite app_assoc. apply (IH Hshort' _ n).
    rewrite lookup_app, (lookup_snoc _ _ c _ Ecur), Ec. exact Hn.
Qed.

(** The walk along plain names, when it succeeds, ends at the names, and
    the names are short. *)
Lemma walk_plain_inv (root : Fs.node) (comps : list string) :
  Forall (fun c => plain c = true) comps ->
  forall cur res,
    Fs.walk root cur comps = Returned res ->
    res = (cur ++ comps)%list /\
    Forall (fun c => (String.length c <= Fs.NAME_MAX)%nat) comps.
Proof.
  induction 1 as [|c comps Hc _ IH]; intros cur res; cbn.
  - intros [= <-]. now rewrite app_nil_r.
  - destruct (plain_inv c Hc) as (_ & He & Hd & Hdd).
    unfold Fs.walk_step.
    destruct (Fs.lookup root cur) as [[content|es]|]; try discriminate.
    rewrite He, Hd, Hdd. cbn [orb].
    destruct (Nat.ltb_spec Fs.NAME_MAX (String.length c)); [discriminate|].
    destruct (Fs.assoc c es); [|discriminate].
    intros Hw. destruct (IH _ _ Hw) as [-> Hs]. rewrite <- app_assoc.
    split; [reflexivity|]. constructor; [lia|exact Hs].
Qed.

(** Every entry of a well-formed tree bears a valid name. *)
Lemma well_formed_entries (es : list (string * Fs.node)) :
  well_formed (Fs.Dir es) = true ->
  forall c n, In (c, n) es -> valid_name c = true /\ well_formed n = true.
Proof.
  cbn [well_formed]. rewrite forallb_forall. intros H c n Hin.
  specialize (H (c, n) Hin). cbn [fst snd] in H.
  now apply andb_true_iff in H.
Qed.

Lemma well_formed_lookup (loc : list string) :
  forall root n,
    well_formed root = true -> Fs.lookup root loc = Some n -> well_formed n = true.
Proof.
  induction loc as [|c loc IH]; intros root n Hwf; cbn.
  - now intros [= <-].
  - destruct root as [content|es]; [discriminate|].
    destruct (Fs.assoc c es) as [m|] eqn:E; [|discriminate].
    apply IH. exact (proj2 (well_formed_entries es Hwf c m (assoc_In _ _ _ E))).
Qed.

(** The names of a directory that [stat] finds on a well-formed disk. *)
Lemma stat_dir_names (root : Fs.node) (cwd : list string) (p : Path)
  (es : list (string * Fs.node)) :
  well_formed root = true ->
  Fs.stat root cwd p = Returned (Fs.Dir es) ->
  forall c n, In (c, n) es -> valid_name c = true.
Proof.
  intros Hwf Hstat c n Hin.
  destruct (stat_dir_inv _ _ _ _ Hstat) as (loc & _ & Hloc).
  exact (proj1 (well_formed_entries es (well_formed_lookup loc _ _ Hwf Hloc) c n Hin)).
Qed.



End FsFacts.

(* ===================================================================== *)
(** ** Listing *)
(* ===================================================================== *)

Section Listing.

Import Pathlib.

(** The loop of [list_user_files] over children whose [is_file] returns:
    one entry per child that is a regular file, in order. *)
Lemma listing_loop_collects (user_id : string) (w : world) (file_paths : list Path) :
  (forall fp, In fp file_paths ->
     exists b, Fs.is_file (disk w) (cwd w) fp = Returned b) ->
  forall user_files : list file_entry,
    for_fold file_paths user_files (fun file_path user_files =>
      isf <- lift (fun d c => Fs.is_file d c file_path) ;;
      if isf then
        ret (user_files ++
             [{| entry_user_id := user_id;
                 entry_filename := Main.listed_filename (name file_path);
                 entry_stored_filename := name file_path;
                 entry_url := "http://127.0.0.1:8000/files/" ++ user_id ++ "/"
                                ++ name file_path |}])%list
      else ret user_files) w
    = (Returned
         (user_files ++ map (entry_of user_id) (filter (regular w) file_paths))%list, w).
Proof.
  induction file_paths as [|fp rest IH]; intros Hall acc; cbn [for_fold filter map].
  - now rewrite app_nil_r.
  - unfold bind at 1. unfold bind at 1. unfold lift at 1. unfold regular at 1.
    destruct (Hall fp (or_introl eq_refl)) as [b ->].
    assert (Hrest : forall fp', In fp' rest ->
              exists b, Fs.is_file (disk w) (cwd w) fp' = Returned b)
      by (intros fp' Hin; apply Hall; now right).
    destruct b; cbn [ret fst snd].
    + unfold ret at 1. rewrite (IH Hrest). cbn [map]. now rewrite <- app_assoc.
    + unfold ret at 1. now rewrite (IH Hrest).
Qed.

(** The loop in general: it changes nothing; what it returns is made of the
    children that are regular files; the only error it raises is that of a
    name too long. *)
Lemma listing_loop_spec (user_id : string) (w : world) (file_paths : list Path) :
  forall user_files : list file_entry,
  exists o,
    for_fold file_paths user_files (fun file_path user_files =>
      isf <- lift (fun d c => Fs.is_file d c file_path) ;;
      if isf then
        ret (user_files ++
             [{| entry_user_id := user_id;
                 entry_filename := Main.listed_filename (name file_path);
                 entry_stored_filename := name file_path;
                 entry_url := "http://127.0.0.1:8000/files/" ++ user_id ++ "/"
                                ++ name file_path |}])%list
      else ret user_files) w
    = (o, w) /\
    match o with
    | Returned l =>
        l = (user_files ++ map (entry_of user_id) (filter (regular w) file_paths))%list
    | Raised e => e = OSError ENAMETOOLONG
    end.
Proof.
  induction file_paths as [|fp rest IH]; intros acc; cbn [for_fold filter map].
  - eexists. split; [reflexivity|]. cbn. now rewrite app_nil_r.
  - unfold bind at 1. unfold bind at 1. unfold lift at 1. unfold regular at 1.
    destruct (Fs.is_file (disk w) (cwd w) fp) as [[|]|e] eqn:E; cbn [ret fst snd].
    + unfold ret at 1.
      destruct (IH (acc ++ [entry_of user_id fp])%list) as (o & Hrun & Ho).
      exists o. split; [exact Hrun|].
      destruct o as [l|e]; [|exact Ho]. rewrite Ho. cbn [map].
      now rewrite <- app_assoc.
    + unfold ret at 1. apply IH.
    + eexists. split; [reflexivity|]. exact (is_file_raises _ _ _ _ E).
Qed.

(** [list_user_files], read from what [stat] says of the partition path. *)
Lemma Main_list_user_files_stat (user_id : string) (w : world) :
  Main.list_user_files user_id w
  = match Fs.stat (disk w) (cwd w) (Main.UPLOAD_DIR // user_id) with
    | Returned (Fs.Dir es) =>
        for_fold (map (fun e => child (Main.UPLOAD_DIR // user_id) (fst e)) es) []
          (fun file_path user_files =>
             isf <- lift (fun d c => Fs.is_file d c file_path) ;;
             if isf then
               ret (user_files ++
                    [{| entry_user_id := user_id;
                        entry_filename := Main.listed_filename (name file_path);
                        entry_stored_filename := name file_path;
                        entry_url := "http://127.0.0.1:8000/files/" ++ user_id ++ "/"
                                       ++ name file_path |}])%list
             else ret user_files) w
    | Returned (Fs.File _) => (Returned [], w)
    | Raised e => if Fs.ignore_error e then (Returned [], w) else (Raised e, w)
    end.
Proof.
  unfold Main.list_user_files.
  unfold bind at 1. unfold lift at 1. unfold Fs.exists_.
  destruct (Fs.stat (disk w) (cwd w) (Main.UPLOAD_DIR // user_id))
    as [[content|es]|e] eqn:E.
  - unfold bind at 1. unfold lift at 1. unfold Fs.is_dir. rewrite E. reflexivity.
  - unfold bind at 1. unfold lift at 1. unfold Fs.is_dir. rewrite E.
    unfold bind at 1. unfold lift at 1. unfold Fs.iterdir. rewrite E. reflexivity.
  - destruct (Fs.ignore_error e); reflexivity.
Qed.

Lemma Main_list_user_files_no_dir (user_id : string) (w : world) :
  Fs.exists_ (disk w) (cwd w) (Main.UPLOAD_DIR // user_id) = Returned false ->
  Main.list_user_files user_id w = (Returned [], w).
Proof.
  intros H. unfold Main.list_user_files, bind, lift. rewrite H. reflexivity.
Qed.


Lemma Comentado_list_user_files_same (user_id : string) (w : world) :
  Comentado.list_user_files user_id w = Main.list_user_files user_id w.
Proof. reflexivity. Qed.

Lemma Comentado_list_all_files_same (w : world) :
  Comentado.list_all_files w = Main.list_all_files w.
Proof. reflexivity. Qed.

(** For an owner id of at most [NAME_MAX] bytes the partition path is
    answered without an error. *)
Lemma partition_path_short (user_id : string) :
  (String.length user_id <= Fs.NAME_MAX)%nat ->
  Forall (fun c => (String.length c <= Fs.NAME_MAX)%nat)
         (parts (Main.UPLOAD_DIR // user_id)) /\
  (String.length (str (Main.UPLOAD_DIR // user_id)) < Fs.PATH_MAX)%nat.
Proof.
  intros Hlen. split.
  - apply truediv_component_length; [|exact Hlen].
    constructor; [cbn; unfold Fs.NAME_MAX; lia|constructor].
  - pose proof (partition_path_length user_id).
    unfold Fs.NAME_MAX, Fs.PATH_MAX in *. lia.
Qed.

End Listing.




(* ===================================================================== *)
(** ** The upload pipeline *)
(* ===================================================================== *)

Section Upload.

Import Pathlib Starlette.

(** What the calls of the upload raise: an [OSError], or the [ValueError] of
    a NUL byte. *)
Lemma parent_and_name_raises_OSError (root : Fs.node) (cwd : list string)
  (p : Path) (e : exn) :
  Fs.parent_and_name root cwd p = Raised e -> is_OSError e = true.
Proof.
  unfold Fs.parent_and_name.
  destruct (Fs.walk root (Fs.origin cwd p) (removelast (parts p))) as [cur|e'] eqn:E.
  - destruct (Fs.lookup root cur) as [[content|es]|]; intros [= <-]; reflexivity.
  - intros [= <-]. destruct (walk_raises _ _ _ _ E) as [->|[->|[-> _]]]; reflexivity.
Qed.

Lemma os_mkdir_raises (root : Fs.node) (cwd : list string) (p : Path) (e : exn) :
  Fs.os_mkdir root cwd p = Raised e ->
  is_OSError e = true \/ e = ValueError "embedded null byte".
Proof.
  unfold Fs.os_mkdir. destruct (Fs.getname p) as [[]|e'] eqn:Hg.
  - destruct (parts p); [intros [= <-]; auto|].
    destruct (Fs.parent_and_name root cwd p) as [[[cur es] nm]|e''] eqn:E'.
    + destruct (String.eqb nm ".."); [intros [= <-]; auto|].
      destruct (Fs.NAME_MAX <? String.length nm)%nat; [intros [= <-]; auto|].
      destruct (Fs.assoc nm es); [intros [= <-]; auto|discriminate].
    + intros [= <-]. left. exact (parent_and_name_raises_OSError _ _ _ _ E').
  - intros [= <-]. destruct (getname_raises _ _ Hg) as [[-> _]|[-> _]]; auto.
Qed.

Lemma mkdir_exist_ok_raises (root : Fs.node) (cwd : list string)
  (p : Path) (e : exn) :
  Fs.mkdir_exist_ok root cwd p = Raised e ->
  is_OSError e = true \/ e = ValueError "embedded null byte".
Proof.
  unfold Fs.mkdir_exist_ok.
  destruct (Fs.os_mkdir root cwd p) as [root'|e'] eqn:E; [discriminate|].
  destruct (os_mkdir_raises _ _ _ _ E) as [He'| ->].
  - destruct e'; try discriminate He'; try (intros [= <-]; auto); cbn [is_OSError];
      (destruct (Fs.is_dir root cwd p) as [[|]|e2] eqn:Ed;
       [discriminate|intros [= <-]; auto
       |intros [= <-]; left; now rewrite (is_dir_raises _ _ _ _ Ed)]).
  - cbn. intros [= <-]. auto.
Qed.

Lemma open_wb_raises (root : Fs.node) (cwd : list string) (p : Path) (e : exn) :
  Fs.open_wb root cwd p = Raised e ->
  is_OSError e = true \/ e = ValueError "embedded null byte".
Proof.
  unfold Fs.open_wb. destruct (Fs.getname p) as [[]|e'] eqn:Hg.
  - destruct (parts p); [intros [= <-]; auto|].
    destruct (Fs.parent_and_name root cwd p) as [[[cur es] nm]|e''] eqn:E'.
    + destruct (String.eqb nm ".."); [intros [= <-]; auto|].
      destruct (Fs.NAME_MAX <? String.length nm)%nat; [intros [= <-]; auto|].
      destruct (Fs.assoc nm es) as [[content|es']|]; try discriminate.
      intros [= <-]; auto.
    + intros [= <-]. left. exact (parent_and_name_raises_OSError _ _ _ _ E').
  - intros [= <-]. destruct (getname_raises _ _ Hg) as [[-> _]|[-> _]]; auto.
Qed.

Lemma status_of_OSError {A : Type} (e : exn) :
  is_OSError e = true -> status_of (@Raised A e) = 500%Z.
Proof. destruct e; cbn; congruence. Qed.

(** [main.py]'s [upload_file] returns the result built from the generated
    id, or raises the 400 of an empty [user_id], or raises the error of a
    file-system call. *)
Lemma Main_upload_file_outcome (urandom16 : N) (file : UploadFile)
  (user_id : string) (w : world) :
  match fst (Main.upload_file urandom16 file user_id w) with
  | Returned res =>
      user_id <> "" /\
      res = {| res_file_id := Uuid.str (Uuid.uuid4 urandom16);
               res_filename := filename file;
               res_user_id := user_id;
               res_url := "http://127.0.0.1:8000/files/" ++ user_id ++ "/"
                            ++ Uuid.str (Uuid.uuid4 urandom16) ++ "_"
                            ++ fmt (filename file) |}
  | Raised e =>
      (e = HTTPException 400 "user_id is required" /\ user_id = "") \/
      is_OSError e = true \/ e = ValueError "embedded null byte"
  end.
Proof.
  unfold Main.upload_file.
  destruct (String.eqb_spec user_id "") as [->|Hne]; [cbn; auto|].
  unfold bind at 1. unfold on_disk at 1.
  destruct (Fs.mkdir_exist_ok (disk w) (cwd w) (Main.UPLOAD_DIR // user_id))
    as [d|e] eqn:Emk.
  2:{ cbn [fst]. right. exact (mkdir_exist_ok_raises _ _ _ _ Emk). }
  unfold bind at 1. unfold lift at 1.
  match goal with |- context [Fs.open_wb ?a ?b ?c] =>
    destruct (Fs.open_wb a b c) as [[loc d']|e] eqn:Eop end.
  2:{ cbn [fst]. right. exact (open_wb_raises _ _ _ _ Eop). }
  unfold bind at 1. unfold modify at 1.
  unfold bind at 1. unfold copyfileobj, modify at 1.
  unfold bind at 1.
  match goal with |- context [Main.broadcast ?m ?x] =>
    destruct (Main_broadcast_spec m x) as (Hb & _);
    destruct (Main.broadcast m x) as [o w'] end.
  cbn in Hb. subst o. cbn. split; [exact Hne|reflexivity].
Qed.

Lemma Main_upload_file_status (urandom16 : N) (file : UploadFile)
  (user_id : string) (w : world) :
  In (status_of (fst (Main.upload_file urandom16 file user_id w)))
     [200; 400; 500]%Z.
Proof.
  pose proof (Main_upload_file_outcome urandom16 file user_id w) as H.
  destruct (fst (Main.upload_file urandom16 file user_id w)) as [r|e]; cbn; auto.
  destruct H as [[-> _]|[H| ->]]; [cbn; auto| |cbn; auto].
  destruct e; cbn in H; try discriminate; cbn; auto.
Qed.

(** The size [main_comentado.py] measures is the length of the payload,
    wherever the cursor was, and the cursor is back at the start after. *)
Lemma measured_size (f : SpooledFile) :
  tell (seek f 0 2) = Z.of_nat (List.length (data f)) /\
  seek (seek f 0 2) 0 0 = mkSpooled (data f) 0.
Proof.
  unfold tell, seek; cbn. split; [lia|reflexivity].
Qed.

(** The four ways through [main_comentado.py]'s [upload_file]. *)
Lemma Comentado_upload_file_cases (urandom16 : N) (file : UploadFile)
  (user_id : string) (w : world) :
  Comentado.upload_file urandom16 file user_id w =
    if String.eqb user_id ""
    then (Raised (HTTPException 400 "user_id is required"), w)
    else if negb (Str.mem (Comentado.file_ext file) Comentado.ALLOWED_EXTENSIONS)
    then (Raised (HTTPException 400 Comentado.disallowed_type_detail), w)
    else if (Z.of_nat (List.length (data (Starlette.file file)))
               >? Comentado.MAX_FILE_SIZE)%Z
    then (Raised (HTTPException 413 Comentado.too_large_detail), w)
    else Main.upload_file urandom16
           (mkUpload (filename file) (mkSpooled (data (Starlette.file file)) 0))
           user_id w.
Proof.
  unfold Comentado.upload_file, Main.upload_file.
  destruct (String.eqb user_id ""); [reflexivity|].
  destruct (negb (Str.mem (Comentado.file_ext file) Comentado.ALLOWED_EXTENSIONS));
    [reflexivity|].
  destruct (measured_size (Starlette.file file)) as [-> ->].
  destruct (Z.of_nat (List.length (data (Starlette.file file)))
              >? Comentado.MAX_FILE_SIZE)%Z; reflexivity.
Qed.

End Upload.

Section UploadChecks.

Import Pathlib Starlette.

(** [main_comentado.py]: an extension outside the allow-list is answered
    with 400 before anything is touched. *)
Lemma Comentado_upload_file_rejects_disallowed_type (urandom16 : N)
  (file : UploadFile) (user_id : string) (w : world) :
  Str.mem (Comentado.file_ext file) Comentado.ALLOWED_EXTENSIONS = false ->
  snd (Comentado.upload_file urandom16 file user_id w) = w /\
  status_of (fst (Comentado.upload_file urandom16 file user_id w)) = 400%Z /\
  (user_id <> "" ->
   fst (Comentado.upload_file urandom16 file user_id w)
   = Raised (HTTPException 400 Comentado.disallowed_type_detail)).
Proof.
  intros H. rewrite Comentado_upload_file_cases, H. cbn [negb].
  destruct (String.eqb_spec user_id ""); cbn; intuition congruence.
Qed.

(** [main_comentado.py]: a payload over the ceiling is answered with 400 or
    413 before anything is touched, and with 413 once the identity and
    extension checks have passed. *)
Lemma Comentado_upload_file_rejects_oversize (urandom16 : N)
  (file : UploadFile) (user_id : string) (w : world) :
  (Z.of_nat (List.length (data (Starlette.file file))) > Comentado.MAX_FILE_SIZE)%Z ->
  snd (Comentado.upload_file urandom16 file user_id w) = w /\
  In (status_of (fst (Comentado.upload_file urandom16 file user_id w)))
     [400; 413]%Z /\
  (user_id <> "" ->
   Str.mem (Comentado.file_ext file) Comentado.ALLOWED_EXTENSIONS = true ->
   fst (Comentado.upload_file urandom16 file user_id w)
   = Raised (HTTPException 413 Comentado.too_large_detail)).
Proof.
  intros H. rewrite Comentado_upload_file_cases.
  destruct (String.eqb_spec user_id ""); [cbn; intuition congruence|].
  destruct (Str.mem (Comentado.file_ext file) Comentado.ALLOWED_EXTENSIONS);
    cbn [negb]; [|cbn; intuition congruence].
  destruct (Z.gtb_spec (Z.of_nat (List.length (data (Starlette.file file))))
              Comentado.MAX_FILE_SIZE); [|lia].
  cbn. intuition congruence.
Qed.

(** [main_comentado.py]: a payload within the ceiling is never answered
    with 413. *)
Lemma Comentado_upload_file_accepts_size (urandom16 : N)
  (file : UploadFile) (user_id : string) (w : world) :
  (Z.of_nat (List.length (data (Starlette.file file))) <= Comentado.MAX_FILE_SIZE)%Z ->
  status_of (fst (Comentado.upload_file urandom16 file user_id w)) <> 413%Z.
Proof.
  intros H. rewrite Comentado_upload_file_cases.
  destruct (String.eqb user_id ""); [cbn; lia|].
  destruct (Str.mem (Comentado.file_ext file) Comentado.ALLOWED_EXTENSIONS);
    cbn [negb]; [|cbn; lia].
  destruct (Z.gtb_spec (Z.of_nat (List.length (data (Starlette.file file))))
              Comentado.MAX_FILE_SIZE); [lia|].
  match goal with |- context [Main.upload_file ?a ?b ?c ?d] =>
    pose proof (Main_upload_file_status a b c d) as Hs end.
  cbn in Hs. lia.
Qed.


Lemma file_ext_without_extension (file : UploadFile) :
  has_no_extension file = true -> Comentado.file_ext file = "".
Proof.
  unfold has_no_extension, Comentado.file_ext.
  destruct (filename file) as [s|]; cbn [truthy fmt]; [|reflexivity].
  intros H. destruct (String.eqb s ""); cbn [negb]; [reflexivity|].
  rewrite suffix_without_dot; [reflexivity|].
  now destruct (Str.contains "." (name (parse s))).
Qed.

End UploadChecks.

(* ===================================================================== *)
(** ** Who changes the registry *)
(* ===================================================================== *)

Section RegistryFrame.

Import Pathlib Starlette.

(** [connect] only appends. *)
Lemma Main_connect_appends (websocket : WebSocket) (w : world) :
  active_connections (snd (Main.connect websocket w)) = active_connections w \/
  active_connections (snd (Main.connect websocket w))
  = (active_connections w ++ [websocket])%list.
Proof.
  unfold Main.connect, bind, accept, modify, send. cbn.
  destruct (client_state (sockets w websocket)); cbn; rewrite ?Nat.eqb_refl; cbn;
    destruct (application_state (sockets w websocket)); cbn; auto.
Qed.

Lemma Main_upload_file_keeps_registry (urandom16 : N) (file : UploadFile)
  (user_id : string) (w : world) :
  active_connections (snd (Main.upload_file urandom16 file user_id w))
  = active_connections w.
Proof.
  unfold Main.upload_file.
  destruct (String.eqb user_id ""); [reflexivity|].
  unfold bind at 1. unfold on_disk at 1.
  destruct (Fs.mkdir_exist_ok (disk w) (cwd w) (Main.UPLOAD_DIR // user_id))
    as [d|e]; [|reflexivity].
  unfold bind at 1. unfold lift at 1.
  match goal with |- context [Fs.open_wb ?a ?b ?c] =>
    destruct (Fs.open_wb a b c) as [[loc d']|e] end; [|reflexivity].
  unfold bind at 1. unfold modify at 1.
  unfold bind at 1. unfold copyfileobj, modify at 1.
  unfold bind at 1.
  match goal with |- context [Main.broadcast ?m ?x] =>
    destruct (Main_broadcast_spec m x) as (Hb & Hreg & _);
    destruct (Main.broadcast m x) as [o w'] end.
  cbn in Hb, Hreg. subst o. cbn. exact Hreg.
Qed.

Lemma Comentado_upload_file_keeps_registry (urandom16 : N) (file : UploadFile)
  (user_id : string) (w : world) :
  active_connections (snd (Comentado.upload_file urandom16 file user_id w))
  = active_connections w.
Proof.
  rewrite Comentado_upload_file_cases.
  destruct (String.eqb user_id ""); [reflexivity|].
  destruct (negb (Str.mem (Comentado.file_ext file) Comentado.ALLOWED_EXTENSIONS));
    [reflexivity|].
  destruct (Z.of_nat (List.length (data (Starlette.file file)))
              >? Comentado.MAX_FILE_SIZE)%Z; [reflexivity|].
  apply Main_upload_file_keeps_registry.
Qed.

(** A loop whose body leaves the state alone leaves the state alone. *)
Lemma for_fold_keeps_state {W A B : Type} (body : A -> B -> M W B) :
  (forall x acc w, snd (body x acc w) = w) ->
  forall (l : list A) (acc : B) (w : W), snd (for_fold l acc body w) = w.
Proof.
  intros Hbody. induction l as [|x l IH]; intros acc w; cbn; [reflexivity|].
  unfold bind. pose proof (Hbody x acc w) as Hx.
  destruct (body x acc w) as [[acc'|e] w']; cbn in Hx; subst w'; [apply IH|reflexivity].
Qed.

Lemma listing_loop_reads_only (user_id : string) (file_paths : list Path) :
  forall (acc : list file_entry) (w : world),
    snd (for_fold file_paths acc (fun file_path user_files =>
           isf <- lift (fun d c => Fs.is_file d c file_path) ;;
           if isf then
             ret (user_files ++
                  [{| entry_user_id := user_id;
                      entry_filename := Main.listed_filename (name file_path);
                      entry_stored_filename := name file_path;
                      entry_url := "http://127.0.0.1:8000/files/" ++ user_id ++ "/"
                                     ++ name file_path |}])%list
           else ret user_files) w) = w.
Proof.
  intros acc w. destruct (listing_loop_spec user_id w file_paths acc) as (o & -> & _).
  reflexivity.
Qed.

Lemma Main_list_user_files_reads_only (user_id : string) (w : world) :
  snd (Main.list_user_files user_id w) = w.
Proof.
  rewrite Main_list_user_files_stat.
  destruct (Fs.stat (disk w) (cwd w) (Main.UPLOAD_DIR // user_id)) as [[c|es]|e];
    [reflexivity|apply listing_loop_reads_only|].
  now destruct (Fs.ignore_error e).
Qed.

Lemma Main_list_all_files_reads_only (w : world) :
  snd (Main.list_all_files w) = w.
Proof.
  unfold Main.list_all_files.
  unfold bind at 1. unfold lift at 1.
  destruct (Fs.exists_ (disk w) (cwd w) Main.UPLOAD_DIR) as [[|]|e]; [|reflexivity..].
  unfold bind at 1. unfold lift at 1.
  destruct (Fs.iterdir (disk w) (cwd w) Main.UPLOAD_DIR); [|reflexivity].
  apply for_fold_keeps_state. intros user_dir acc w0.
  unfold bind at 1. unfold lift at 1.
  destruct (Fs.is_dir (disk w0) (cwd w0) user_dir) as [[|]|e]; [|reflexivity..].
  unfold bind at 1. unfold lift at 1.
  destruct (Fs.iterdir (disk w0) (cwd w0) user_dir); [|reflexivity].
  apply listing_loop_reads_only.
Qed.

Lemma Main_get_file_reads_only (user_id filename : string) (w : world) :
  snd (Main.get_file user_id filename w) = w.
Proof.
  unfold Main.get_file, bind, lift.
  now destruct (Fs.exists_ (disk w) (cwd w) (Main.UPLOAD_DIR // user_id // filename))
    as [[|]|e].
Qed.

Lemma Comentado_get_file_reads_only (user_id filename : string) (w : world) :
  snd (Comentado.get_file user_id filename w) = w.
Proof.
  unfold Comentado.get_file, bind, lift.
  destruct (resolve (cwd w) (Comentado.UPLOAD_DIR // user_id // filename));
    [|reflexivity].
  destruct (resolve (cwd w) Comentado.UPLOAD_DIR); [|reflexivity].
  destruct (Str.startswith _ _); [|reflexivity]. cbn [negb].
  now destruct (Fs.exists_ _ _ _) as [[|]|e].
Qed.

End RegistryFrame.

(** C6.  [broadcast] never changes the registry: for every state and every
    message, [active_connections] is the same list after the call as before,
    also when deliveries fail; this holds for the [broadcast] of both files.
    No other operation removes a connection either: [connect] only appends,
    [upload_file] (which broadcasts) leaves the registry as it is, and the
    listings and [get_file] change nothing at all.  What removes is
    [disconnect]. *)
Theorem broadcast_keeps_registry (message : string) (w : world) :
  (active_connections (snd (Main.broadcast message w)) = active_connections w /\
   active_connections (snd (Comentado.broadcast message w)) = active_connections w) /\
  (forall websocket,
     (active_connections (snd (Main.connect websocket w)) = active_connections w \/
      active_connections (snd (Main.connect websocket w))
      = (active_connections w ++ [websocket])%list) /\
     (active_connections (snd (Comentado.connect websocket w)) = active_connections w \/
      active_connections (snd (Comentado.connect websocket w))
      = (active_connections w ++ [websocket])%list)) /\
  (forall urandom16 file user_id,
     active_connections (snd (Main.upload_file urandom16 file user_id w))
     = active_connections w /\
     active_connections (snd (Comentado.upload_file urandom16 file user_id w))
     = active_connections w) /\
  (forall user_id filename,
     snd (Main.list_all_files w) = w /\
     snd (Comentado.list_all_files w) = w /\
     snd (Main.list_user_files user_id w) = w /\
     snd (Comentado.list_user_files user_id w) = w /\
     snd (Main.get_file user_id filename w) = w /\
     snd (Comentado.get_file user_id filename w) = w).
Proof.
  split; [|split; [|split]].
  - change (Comentado.broadcast message w) with (Main.broadcast message w).
    destruct (Main_broadcast_spec message w) as (_ & H & _). auto.
  - intros websocket.
    change (Comentado.connect websocket w) with (Main.connect websocket w).
    split; apply Main_connect_appends.
  - intros urandom16 file user_id.
    split; [apply Main_upload_file_keeps_registry
           |apply Comentado_upload_file_keeps_registry].
  - intros user_id filename.
    change (Comentado.list_all_files w) with (Main.list_all_files w).
    change (Comentado.list_user_files user_id w) with (Main.list_user_files user_id w).
    repeat split;
      auto using Main_list_all_files_reads_only, Main_list_user_files_reads_only,
        Main_get_file_reads_only, Comentado_get_file_reads_only.
Qed.

(* ===================================================================== *)
(** ** Removing a connection *)
(* ===================================================================== *)

(** A second [disconnect] of the same connection fails its caller: the first
    call removes listener 1, the second finds it absent and raises. *)
Lemma second_disconnect_raises_ValueError :
  fst (Main.disconnect 1 demo_world) = Returned tt /\
  ~ In 1%nat (active_connections (snd (Main.disconnect 1 demo_world))) /\
  fst (Main.disconnect 1 (snd (Main.disconnect 1 demo_world)))
  = Raised (ValueError "list.remove(x): x not in list").
Proof.
  repeat split; cbn; intuition discriminate.
Qed.

(** C5 (amended).  For every registry state and every connection that is not
    currently registered, [disconnect] leaves the state unchanged and raises
    [ValueError] to its caller, in both files: removal is not idempotent. *)
Theorem disconnect_of_absent_connection_raises
  (websocket : WebSocket) (w : world) :
  ~ In websocket (active_connections w) ->
  Main.disconnect websocket w
  = (Raised (ValueError "list.remove(x): x not in list"), w) /\
  Comentado.disconnect websocket w
  = (Raised (ValueError "list.remove(x): x not in list"), w).
Proof.
  intros H. unfold Main.disconnect, Comentado.disconnect.
  rewrite (list_remove_absent _ _ H). split; reflexivity.
Qed.

Lemma disconnect_of_absent_connection_raises_witness :
  ~ In 7%nat (active_connections demo_world) /\
  Main.disconnect 7 demo_world
  = (Raised (ValueError "list.remove(x): x not in list"), demo_world).
Proof.
  assert (H : ~ In 7%nat (active_connections demo_world))
    by (cbn; intuition discriminate).
  split; [exact H|].
  exact (proj1 (disconnect_of_absent_connection_raises 7 demo_world H)).
Defined.

(** [disconnect] of a registered connection returns and drops its first
    occurrence only. *)
Lemma disconnect_of_registered_connection (websocket : WebSocket) (w : world) :
  In websocket (active_connections w) ->
  exists before after,
    active_connections w = (before ++ websocket :: after)%list /\
    ~ In websocket before /\
    Main.disconnect websocket w
    = (Returned tt, set_active_connections (before ++ after)%list w).
Proof.
  intros H. destruct (list_remove_present _ _ H) as (b & a & E & Hb & Hr).
  exists b, a. unfold Main.disconnect. rewrite Hr. auto.
Qed.

(* ===================================================================== *)
(** ** The extension check *)
(* ===================================================================== *)

(** C3.  [main.py]'s [upload_file] has no extension check: the upload of
    [setup.exe], whose extension is outside the allow-list of
    [main_comentado.py], is answered with 200, the partition [bob] is created
    and the two bytes are stored; [main_comentado.py] answers the same upload
    with 400 and leaves the state as it was. *)
Theorem Main_upload_file_stores_disallowed_type :
  Str.mem (Comentado.file_ext exe_upload) Comentado.ALLOWED_EXTENSIONS = false /\
  Fs.lookup (disk demo_world) ["srv"; "uploads"; "bob"] = None /\
  status_of (fst (Main.upload_file 5 exe_upload "bob" demo_world)) = 200%Z /\
  Fs.lookup (disk (snd (Main.upload_file 5 exe_upload "bob" demo_world)))
    ["srv"; "uploads"; "bob"; "00000000-0000-4000-8000-000000000005_setup.exe"]
  = Some (Fs.File [x4d; x5a]) /\
  Comentado.upload_file 5 exe_upload "bob" demo_world
  = (Raised (HTTPException 400 Comentado.disallowed_type_detail), demo_world).
Proof.
  repeat split; vm_compute; reflexivity.
Qed.

(** C10.  An upload whose file name has no dot in its final component (a
    missing or empty file name included) has the empty string as extension,
    the empty string is not in the allow-list, and [main_comentado.py]'s
    [upload_file] answers it with 400 and touches nothing; with a [user_id]
    present the 400 is the disallowed-type one.  Only the last extension
    counts: [a.exe.txt] has extension [.txt] and is stored, [a.txt.exe] has
    extension [.exe] and is rejected. *)
Theorem upload_without_extension_is_rejected
  (urandom16 : N) (file : Starlette.UploadFile) (user_id : string) (w : world) :
  has_no_extension file = true ->
  (Comentado.file_ext file = "" /\
   Str.mem "" Comentado.ALLOWED_EXTENSIONS = false /\
   snd (Comentado.upload_file urandom16 file user_id w) = w /\
   status_of (fst (Comentado.upload_file urandom16 file user_id w)) = 400%Z /\
   (user_id <> "" ->
    fst (Comentado.upload_file urandom16 file user_id w)
    = Raised (HTTPException 400 Comentado.disallowed_type_detail))) /\
  (Comentado.file_ext double_ext_upload = ".txt" /\
   status_of (fst (Comentado.upload_file 5 double_ext_upload "alice" demo_world))
   = 200%Z) /\
  (Comentado.file_ext hidden_exe_upload = ".exe" /\
   fst (Comentado.upload_file 5 hidden_exe_upload "alice" demo_world)
   = Raised (HTTPException 400 Comentado.disallowed_type_detail)).
Proof.
  intros H. pose proof (file_ext_without_extension file H) as Hext.
  split; [|split; split; vm_compute; reflexivity].
  split; [exact Hext|]. split; [reflexivity|].
  apply Comentado_upload_file_rejects_disallowed_type.
  rewrite Hext. reflexivity.
Qed.

Lemma upload_without_extension_is_rejected_witness :
  has_no_extension plain_upload = true /\
  fst (Comentado.upload_file 5 plain_upload "alice" demo_world)
  = Raised (HTTPException 400 Comentado.disallowed_type_detail).
Proof.
  assert (H : has_no_extension plain_upload = true) by reflexivity.
  split; [exact H|].
  destruct (upload_without_extension_is_rejected 5 plain_upload "alice" demo_world H)
    as ((_ & _ & _ & _ & Hr) & _).
  apply Hr. discriminate.
Defined.

(* ===================================================================== *)
(** ** The size check *)
(* ===================================================================== *)

Lemma payload_over_ceiling_length :
  Z.of_nat (List.length payload_over_ceiling) = 10485761%Z.
Proof. unfold payload_over_ceiling. rewrite repeat_length. lia. Qed.

Lemma payload_at_ceiling_length :
  Z.of_nat (List.length payload_at_ceiling) = 10485760%Z.
Proof. unfold payload_at_ceiling. rewrite repeat_length. lia. Qed.

(** An upload over the ceiling that also has a disallowed extension is
    answered with 400, not with 413: the extension check comes first. *)
Lemma oversize_upload_of_disallowed_type_is_answered_400 :
  (Z.of_nat (List.length (Starlette.data (Starlette.file oversize_exe_upload)))
     > Comentado.MAX_FILE_SIZE)%Z /\
  fst (Comentado.upload_file 5 oversize_exe_upload "bob" demo_world)
  = Raised (HTTPException 400 Comentado.disallowed_type_detail) /\
  status_of (fst (Comentado.upload_file 5 oversize_exe_upload "bob" demo_world))
  <> 413%Z.
Proof.
  assert (Hext : Str.mem (Comentado.file_ext oversize_exe_upload)
                   Comentado.ALLOWED_EXTENSIONS = false) by (lazy; reflexivity).
  destruct (Comentado_upload_file_rejects_disallowed_type
              5 oversize_exe_upload "bob" demo_world Hext) as (_ & Hs & Hr).
  split; [|split].
  - change (Starlette.data (Starlette.file oversize_exe_upload))
      with payload_over_ceiling.
    rewrite payload_over_ceiling_length. unfold Comentado.MAX_FILE_SIZE. lia.
  - apply Hr. discriminate.
  - rewrite Hs. lia.
Qed.

(** C4 (amended).  In [main_comentado.py], the size compared with the
    ceiling is the payload's length, measured by seek-to-end, tell,
    seek-to-start.  Every upload with a [user_id] and an allowed extension
    whose payload is longer than 10*1024*1024 bytes is answered with 413 and
    nothing is persisted; every upload over the ceiling is answered with 400
    or 413 and nothing is persisted; a payload of exactly 10*1024*1024 bytes
    is never answered with 413. *)
Theorem oversize_upload_is_rejected_after_identity_and_type_checks
  (urandom16 : N) (file : Starlette.UploadFile) (user_id : string) (w : world) :
  (Starlette.tell (Starlette.seek (Starlette.file file) 0 2)
   = Z.of_nat (List.length (Starlette.data (Starlette.file file))) /\
   Starlette.position (Starlette.seek (Starlette.seek (Starlette.file file) 0 2) 0 0)
   = 0%Z) /\
  ((Z.of_nat (List.length (Starlette.data (Starlette.file file)))
      > 10 * 1024 * 1024)%Z ->
   (user_id <> "" ->
    Str.mem (Comentado.file_ext file) Comentado.ALLOWED_EXTENSIONS = true ->
    Comentado.upload_file urandom16 file user_id w
    = (Raised (HTTPException 413 Comentado.too_large_detail), w)) /\
   snd (Comentado.upload_file urandom16 file user_id w) = w /\
   In (status_of (fst (Comentado.upload_file urandom16 file user_id w)))
      [400; 413]%Z) /\
  (Z.of_nat (List.length (Starlette.data (Starlette.file file)))
   = (10 * 1024 * 1024)%Z ->
   status_of (fst (Comentado.upload_file urandom16 file user_id w)) <> 413%Z).
Proof.
  split; [|split].
  - destruct (measured_size (Starlette.file file)) as [H1 H2].
    rewrite H1, H2. auto.
  - intros H.
    destruct (Comentado_upload_file_rejects_oversize urandom16 file user_id w H)
      as (Hw & Hs & Hr).
    repeat split; auto. intros Hu He.
    rewrite (surjective_pairing (Comentado.upload_file urandom16 file user_id w)).
    rewrite Hw, (Hr Hu He). reflexivity.
  - intros H. apply Comentado_upload_file_accepts_size.
    unfold Comentado.MAX_FILE_SIZE. lia.
Qed.

Lemma oversize_upload_is_rejected_after_identity_and_type_checks_witness :
  ((Z.of_nat (List.length (Starlette.data (Starlette.file oversize_pdf_upload)))
      > 10 * 1024 * 1024)%Z /\
   Comentado.upload_file 5 oversize_pdf_upload "alice" demo_world
   = (Raised (HTTPException 413 Comentado.too_large_detail), demo_world)) /\
  (Z.of_nat (List.length (Starlette.data (Starlette.file ceiling_pdf_upload)))
   = (10 * 1024 * 1024)%Z /\
   status_of (fst (Comentado.upload_file 5 ceiling_pdf_upload "alice" demo_world))
   <> 413%Z).
Proof.
  assert (Hover : (Z.of_nat (List.length
                     (Starlette.data (Starlette.file oversize_pdf_upload)))
                   > 10 * 1024 * 1024)%Z).
  { change (Starlette.data (Starlette.file oversize_pdf_upload))
      with payload_over_ceiling.
    rewrite payload_over_ceiling_length. lia. }
  assert (Hat : Z.of_nat (List.length
                   (Starlette.data (Starlette.file ceiling_pdf_upload)))
                = (10 * 1024 * 1024)%Z).
  { change (Starlette.data (Starlette.file ceiling_pdf_upload))
      with payload_at_ceiling.
    rewrite payload_at_ceiling_length. lia. }
  split; split.
  - exact Hover.
  - destruct (oversize_upload_is_rejected_after_identity_and_type_checks
                5 oversize_pdf_upload "alice" demo_world) as (_ & H & _).
    destruct (H Hover) as (Hr & _). apply Hr; [discriminate|lazy; reflexivity].
  - exact Hat.
  - destruct (oversize_upload_is_rejected_after_identity_and_type_checks
                5 ceiling_pdf_upload "alice" demo_world) as (_ & _ & H).
    exact (H Hat).
Defined.

(* ===================================================================== *)
(** ** Download and the storage root *)
(* ===================================================================== *)

(** [main_comentado.py]: a canonical path whose text does not start with the
    text of the canonical root is answered with 403, and nothing is read
    (a path with a NUL byte has no canonical form: [resolve] raises). *)
Lemma Comentado_get_file_rejects_foreign_text (user_id filename : string) (w : world) :
  Pathlib.has_nul (Comentado.UPLOAD_DIR // user_id // filename) = false ->
  Str.startswith
    (Pathlib.str (Pathlib.realpath (cwd w) (Comentado.UPLOAD_DIR // user_id // filename)))
    (Pathlib.str (Pathlib.realpath (cwd w) Comentado.UPLOAD_DIR)) = false ->
  Comentado.get_file user_id filename w
  = (Raised (HTTPException 403 "Acceso denegado"), w).
Proof.
  intros Hn H. unfold Comentado.get_file, bind, lift, Pathlib.resolve.
  rewrite Hn. change (Pathlib.has_nul Comentado.UPLOAD_DIR) with false. cbn iota.
  now rewrite H.
Qed.

(** C1.  Download requests whose canonical path is outside the canonical
    root, and which are served all the same.  In [main_comentado.py] the
    containment check compares texts: [/srv/uploads.bak] starts with
    [/srv/uploads], so [get_file("..", "uploads.bak")] returns a
    [FileResponse] that sends the archive next to the root.  In [main.py]
    there is no check: [get_file("..", "secret.txt")] returns a
    [FileResponse] that sends [/srv/secret.txt]. *)
Theorem get_file_serves_files_outside_the_root :
  (within_root (cwd demo_world) Comentado.UPLOAD_DIR
     (Comentado.UPLOAD_DIR // ".." // "uploads.bak") = false /\
   fst (Comentado.get_file ".." "uploads.bak" demo_world)
   = Returned (Starlette.FileResponse (Pathlib.mkPath true ["srv"; "uploads.bak"])) /\
   Starlette.body demo_world
     (Starlette.FileResponse (Pathlib.mkPath true ["srv"; "uploads.bak"]))
   = Returned [x50; x4b]) /\
  (within_root (cwd demo_world) Main.UPLOAD_DIR
     (Main.UPLOAD_DIR // ".." // "secret.txt") = false /\
   fst (Main.get_file ".." "secret.txt" demo_world)
   = Returned (Starlette.FileResponse
                 (Pathlib.mkPath false ["uploads"; ".."; "secret.txt"])) /\
   Starlette.body demo_world
     (Starlette.FileResponse (Pathlib.mkPath false ["uploads"; ".."; "secret.txt"]))
   = Returned [x6b; x65; x79]).
Proof.
  repeat split; vm_compute; reflexivity.
Qed.

(* ===================================================================== *)
(** ** The two files side by side *)
(* ===================================================================== *)

Section SideBySide.

Import Pathlib Starlette.



Lemma no_nul_names (l : list string) (abs : bool) :
  Forall (fun c => valid_name c = true) l -> has_nul (mkPath abs l) = false.
Proof.
  unfold has_nul. cbn [parts]. induction 1 as [|c l Hc _ IH]; [reflexivity|].
  cbn [existsb]. destruct (valid_name_inv c Hc) as (_ & _ & ->). exact IH.
Qed.




(** [main.py]'s [get_file], read from what [stat] says of the path. *)
Lemma Main_get_file_stat (user_id filename : string) (w : world) :
  Main.get_file user_id filename w
  = (match Fs.stat (disk w) (cwd w) (Main.UPLOAD_DIR // user_id // filename) with
     | Returned _ => Returned (FileResponse (Main.UPLOAD_DIR // user_id // filename))
     | Raised e => if Fs.ignore_error e
                   then Raised (HTTPException 404 "File not found")
                   else Raised e
     end, w).
Proof.
  unfold Main.get_file, bind, lift, Fs.exists_.
  destruct (Fs.stat (disk w) (cwd w) (Main.UPLOAD_DIR // user_id // filename))
    as [n|e]; [reflexivity|].
  now destruct (Fs.ignore_error e).
Qed.




End SideBySide.





(* ===================================================================== *)
(** ** What the calls of an upload do to the disk *)
(* ===================================================================== *)

Section DiskEffects.

Import Pathlib Starlette.

Lemma assoc_set_entry_same (c : string) (v : Fs.node) (es : list (string * Fs.node)) :
  Fs.assoc c (Fs.set_entry c v es) = Some v.
Proof.
  induction es as [|[d n] es IH]; cbn.
  - now rewrite String.eqb_refl.
  - destruct (String.eqb c d) eqn:E; cbn; now rewrite E.
Qed.

Lemma assoc_set_entry_other (c c' : string) (v : Fs.node)
  (es : list (string * Fs.node)) :
  c' <> c -> Fs.assoc c' (Fs.set_entry c v es) = Fs.assoc c' es.
Proof.
  intros Hne. induction es as [|[d n] es IH]; cbn.
  - destruct (String.eqb_spec c' c); [contradiction|reflexivity].
  - destruct (String.eqb_spec c d) as [->|Hcd]; cbn.
    + destruct (String.eqb_spec c' d); [contradiction|reflexivity].
    + destruct (String.eqb c' d); [reflexivity|exact IH].
Qed.

Lemma In_set_entry (c : string) (v : Fs.node) (es : list (string * Fs.node)) :
  In (c, v) (Fs.set_entry c v es).
Proof.
  induction es as [|[d n] es IH]; cbn; [now left|].
  destruct (String.eqb_spec c d) as [->|Hne]; [now left|now right].
Qed.

(** After [put] of an entry the parent directory lists it. *)
Lemma lookup_put_parent (nm : string) (v : Fs.node) (cur : list string) :
  forall (root : Fs.node) (es : list (string * Fs.node)),
    Fs.lookup root cur = Some (Fs.Dir es) ->
    Fs.lookup (Fs.put root (cur ++ [nm]) v) cur
    = Some (Fs.Dir (Fs.set_entry nm v es)).
Proof.
  induction cur as [|c cur IH]; intros root es H.
  - cbn in H. injection H as ->. cbn. now destruct (Fs.assoc nm es).
  - cbn in H. destruct root as [content|es0]; [discriminate|].
    destruct (Fs.assoc c es0) as [n|] eqn:Ec; [|discriminate].
    cbn [app Fs.put]. rewrite Ec. cbn [Fs.lookup].
    rewrite assoc_set_entry_same. now apply IH.
Qed.

Lemma lookup_put_same (nm : string) (v : Fs.node) (cur : list string)
  (root : Fs.node) (es : list (string * Fs.node)) :
  Fs.lookup root cur = Some (Fs.Dir es) ->
  Fs.lookup (Fs.put root (cur ++ [nm]) v) (cur ++ [nm]) = Some v.
Proof.
  intros H.
  rewrite (lookup_snoc _ _ nm _ (lookup_put_parent nm v cur root es H)).
  apply assoc_set_entry_same.
Qed.

Lemma is_prefix_of_inv (a : list string) :
  forall b, is_prefix_of a b = true -> exists rest, b = (a ++ rest)%list.
Proof.
  induction a as [|x a IH]; intros b H; cbn in H.
  - exists b. reflexivity.
  - destruct b as [|y b]; [discriminate|].
    apply andb_true_iff in H. destruct H as [Hxy Hab].
    apply String.eqb_eq in Hxy. subst y.
    destruct (IH b Hab) as (rest & ->). exists rest. reflexivity.
Qed.

(** [put] at a location changes no regular file outside that location. *)
Lemma lookup_put_other (v : Fs.node) (content : list byte) (loc : list string) :
  forall (root : Fs.node) (loc' : list string),
    is_prefix_of loc loc' = false ->
    Fs.lookup root loc' = Some (Fs.File content) ->
    Fs.lookup (Fs.put root loc v) loc' = Some (Fs.File content).
Proof.
  induction loc as [|c rest IH]; intros root loc' Hpre Hfile; [discriminate|].
  cbn [Fs.put]. destruct root as [c0|es]; [exact Hfile|].
  destruct loc' as [|c' rest']; [discriminate|].
  cbn in Hpre. cbn [Fs.lookup] in Hfile.
  destruct (Fs.assoc c es) as [n|] eqn:Ec.
  - cbn [Fs.lookup].
    destruct (String.eqb_spec c c') as [<-|Hne].
    + rewrite assoc_set_entry_same. rewrite Ec in Hfile. cbn in Hpre.
      now apply IH.
    + rewrite assoc_set_entry_other by congruence. exact Hfile.
  - destruct rest as [|c1 rest1]; [|exact Hfile].
    cbn [Fs.lookup].
    destruct (String.eqb_spec c c') as [<-|Hne].
    + rewrite Ec in Hfile. discriminate.
    + rewrite assoc_set_entry_other by congruence. exact Hfile.
Qed.

(** Adding or replacing an entry that is not a directory keeps every other
    regular file. *)
Lemma put_entry_keeps_files (root : Fs.node) (cur : list string) (nm : string)
  (v : Fs.node) (es : list (string * Fs.node)) (loc' : list string)
  (content : list byte) :
  Fs.lookup root cur = Some (Fs.Dir es) ->
  (forall es', Fs.assoc nm es <> Some (Fs.Dir es')) ->
  loc' <> (cur ++ [nm])%list ->
  Fs.lookup root loc' = Some (Fs.File content) ->
  Fs.lookup (Fs.put root (cur ++ [nm]) v) loc' = Some (Fs.File content).
Proof.
  intros Hcur Hnodir Hne Hfile. apply lookup_put_other; [|exact Hfile].
  destruct (is_prefix_of (cur ++ [nm]) loc') eqn:E; [|reflexivity].
  exfalso. destruct (is_prefix_of_inv _ _ E) as (rest & ->).
  destruct rest as [|r rest]; [now rewrite app_nil_r in Hne|].
  rewrite lookup_app, (lookup_snoc _ _ nm _ Hcur) in Hfile.
  destruct (Fs.assoc nm es) as [[c0|es']|] eqn:Enm; try discriminate.
  exact (Hnodir es' eq_refl).
Qed.

(** The calls that write, unfolded at a success. *)
Lemma parent_and_name_inv (root : Fs.node) (cwd : list string) (p : Path)
  (cur : list string) (es : list (string * Fs.node)) (nm : string) :
  Fs.parent_and_name root cwd p = Returned (cur, es, nm) ->
  Fs.walk root (Fs.origin cwd p) (removelast (parts p)) = Returned cur /\
  Fs.lookup root cur = Some (Fs.Dir es) /\ nm = name p.
Proof.
  unfold Fs.parent_and_name, name.
  destruct (Fs.walk root (Fs.origin cwd p) (removelast (parts p))) as [cur'|e];
    [|discriminate].
  destruct (Fs.lookup root cur') as [[c0|es']|] eqn:E; try discriminate.
  intros [= <- <- <-]. auto.
Qed.

Lemma os_mkdir_inv (root : Fs.node) (cwd : list string) (p : Path) (d : Fs.node) :
  Fs.os_mkdir root cwd p = Returned d ->
  exists cur es,
    Fs.getname p = Returned tt /\ parts p <> [] /\
    Fs.walk root (Fs.origin cwd p) (removelast (parts p)) = Returned cur /\
    Fs.lookup root cur = Some (Fs.Dir es) /\
    String.eqb (name p) ".." = false /\
    (String.length (name p) <= Fs.NAME_MAX)%nat /\
    Fs.assoc (name p) es = None /\
    d = Fs.put root (cur ++ [name p]) (Fs.Dir []).
Proof.
  unfold Fs.os_mkdir. destruct (Fs.getname p) as [[]|e]; [|discriminate].
  destruct (parts p) eqn:Ep; [discriminate|].
  destruct (Fs.parent_and_name root cwd p) as [[[cur es] nm]|e] eqn:Epn;
    [|discriminate].
  destruct (parent_and_name_inv _ _ _ _ _ _ Epn) as (Hwalk & Hcur & ->).
  destruct (String.eqb (name p) "..") eqn:Hdd; [discriminate|].
  destruct (Nat.ltb_spec Fs.NAME_MAX (String.length (name p))); [discriminate|].
  destruct (Fs.assoc (name p) es) eqn:Enm; [discriminate|].
  intros [= <-]. exists cur, es. rewrite Ep in Hwalk.
  repeat split; auto; discriminate.
Qed.

Lemma mkdir_exist_ok_inv (root : Fs.node) (cwd : list string) (p : Path)
  (d : Fs.node) :
  Fs.mkdir_exist_ok root cwd p = Returned d ->
  Fs.os_mkdir root cwd p = Returned d \/
  (d = root /\ Fs.is_dir root cwd p = Returned true).
Proof.
  unfold Fs.mkdir_exist_ok.
  destruct (Fs.os_mkdir root cwd p) as [root'|e]; [intros [= <-]; auto|].
  destruct e; try discriminate; cbn [is_OSError];
    (destruct (Fs.is_dir root cwd p) as [[|]|e'];
     [intros [= <-]; auto|discriminate|discriminate]).
Qed.

Lemma open_wb_inv (root : Fs.node) (cwd : list string) (p : Path)
  (loc : list string) (d2 : Fs.node) :
  Fs.open_wb root cwd p = Returned (loc, d2) ->
  exists cur es,
    Fs.getname p = Returned tt /\ parts p <> [] /\
    Fs.walk root (Fs.origin cwd p) (removelast (parts p)) = Returned cur /\
    Fs.lookup root cur = Some (Fs.Dir es) /\
    String.eqb (name p) ".." = false /\
    (String.length (name p) <= Fs.NAME_MAX)%nat /\
    (forall es', Fs.assoc (name p) es <> Some (Fs.Dir es')) /\
    loc = (cur ++ [name p])%list /\
    d2 = Fs.put root (cur ++ [name p]) (Fs.File []).
Proof.
  unfold Fs.open_wb. destruct (Fs.getname p) as [[]|e]; [|discriminate].
  destruct (parts p) eqn:Ep; [discriminate|].
  destruct (Fs.parent_and_name root cwd p) as [[[cur es] nm]|e] eqn:Epn;
    [|discriminate].
  destruct (parent_and_name_inv _ _ _ _ _ _ Epn) as (Hwalk & Hcur & ->).
  destruct (String.eqb (name p) "..") eqn:Hdd; [discriminate|].
  destruct (Nat.ltb_spec Fs.NAME_MAX (String.length (name p))) as [|Hlen];
    [discriminate|].
  intros Hret. exists cur, es. rewrite Ep in Hwalk.
  destruct (Fs.assoc (name p) es) as [[c0|es0]|]; try discriminate;
    injection Hret as <- <-; repeat split; auto; discriminate.
Qed.

(** [mkdir(exist_ok=True)] keeps every regular file. *)
Lemma mkdir_exist_ok_keeps_files (root : Fs.node) (cwd : list string) (p : Path)
  (d1 : Fs.node) (loc' : list string) (content : list byte) :
  Fs.mkdir_exist_ok root cwd p = Returned d1 ->
  Fs.lookup root loc' = Some (Fs.File content) ->
  Fs.lookup d1 loc' = Some (Fs.File content).
Proof.
  intros Hmk Hfile.
  destruct (mkdir_exist_ok_inv _ _ _ _ Hmk) as [Hos|[-> _]]; [|exact Hfile].
  destruct (os_mkdir_inv _ _ _ _ Hos)
    as (cur & es & _ & _ & _ & Hcur & _ & _ & Enm & ->).
  apply (put_entry_keeps_files root cur (name p) _ es); auto.
  - intros es'. congruence.
  - intros ->. rewrite (lookup_snoc _ _ (name p) _ Hcur), Enm in Hfile. discriminate.
Qed.

(** Writing under a valid name keeps the tree well-formed. *)
Lemma set_entry_well_formed (c : string) (v : Fs.node) (es : list (string * Fs.node)) :
  valid_name c = true \/ Fs.assoc c es <> None ->
  well_formed v = true ->
  well_formed (Fs.Dir es) = true ->
  well_formed (Fs.Dir (Fs.set_entry c v es)) = true.
Proof.
  intros Hc Hv. cbn [well_formed].
  induction es as [|[d n] es IH]; cbn [Fs.set_entry forallb fst snd Fs.assoc] in *.
  - intros _. destruct Hc as [->|Hc]; [now rewrite Hv|congruence].
  - intros H. apply andb_true_iff in H. destruct H as [Hd Hes].
    apply andb_true_iff in Hd. destruct Hd as [Hd Hn].
    destruct (String.eqb c d) eqn:E; cbn [forallb fst snd].
    + now rewrite Hd, Hv, Hes.
    + rewrite Hd, Hn. cbn [andb]. apply IH; [|exact Hes].
      destruct Hc as [Hc|Hc]; auto.
Qed.

Lemma put_well_formed (v : Fs.node) :
  well_formed v = true ->
  forall loc root,
    well_formed root = true ->
    valid_name (last loc "") = true ->
    well_formed (Fs.put root loc v) = true.
Proof.
  intros Hv. induction loc as [|c loc IH]; intros root Hroot Hlast; [exact Hv|].
  cbn [Fs.put]. destruct root as [content|es]; [exact Hroot|].
  destruct (Fs.assoc c es) as [n|] eqn:Ec.
  - apply set_entry_well_formed; [right; congruence| |exact Hroot].
    pose proof (proj2 (well_formed_entries es Hroot c n (assoc_In _ _ _ Ec))) as Hn.
    destruct loc as [|c1 loc1]; [exact Hv|]. apply IH; [exact Hn|exact Hlast].
  - destruct loc as [|c1 loc1]; [|exact Hroot].
    apply set_entry_well_formed; [left; exact Hlast|exact Hv|exact Hroot].
Qed.

(** The components a text is parsed into hold no [/] and are neither empty
    nor [.]. *)
Lemma split_no_separator (sep : ascii) (s : string) :
  Forall (fun c => Str.contains sep c = false) (Str.split sep s).
Proof.
  induction s as [|d s IH]; [repeat constructor|]. cbn [Str.split].
  destruct (Ascii.eqb sep d) eqn:E; [constructor; [reflexivity|exact IH]|].
  destruct (Str.split sep s) as [|x rest].
  - constructor; [cbn; now rewrite E|constructor].
  - inversion IH as [|? ? Hx Hrest]; subst.
    constructor; [cbn; now rewrite E|exact Hrest].
Qed.

Lemma truediv_components (p : Path) (s : string) :
  Forall (fun c => Str.contains "/" c = false /\ String.eqb c "" = false /\
                   String.eqb c "." = false) (parts p) ->
  Forall (fun c => Str.contains "/" c = false /\ String.eqb c "" = false /\
                   String.eqb c "." = false) (parts (p // s)).
Proof.
  intros Hp.
  assert (Hq : Forall (fun c => Str.contains "/" c = false /\ String.eqb c "" = false /\
                                String.eqb c "." = false) (parts (parse s))).
  { unfold parse. cbn [parts]. apply Forall_forall. intros c Hin.
    apply filter_In in Hin. destruct Hin as [Hin Hk].
    pose proof (split_no_separator "/" s) as H. rewrite Forall_forall in H.
    unfold kept in Hk. apply andb_true_iff in Hk.
    rewrite !negb_true_iff in Hk. destruct Hk as [H1 H2]. auto. }
  unfold truediv. destruct (is_absolute (parse s)); cbn [parts]; [exact Hq|].
  apply Forall_app. auto.
Qed.

Lemma upload_dir_components :
  Forall (fun c => Str.contains "/" c = false /\ String.eqb c "" = false /\
                   String.eqb c "." = false) (parts Main.UPLOAD_DIR).
Proof. repeat constructor. Qed.

(** The name a successful [mkdir] or [open] writes under is a valid one. *)
Lemma written_name_valid (p : Path) :
  Forall (fun c => Str.contains "/" c = false /\ String.eqb c "" = false /\
                   String.eqb c "." = false) (parts p) ->
  Fs.getname p = Returned tt -> parts p <> [] ->
  String.eqb (name p) ".." = false ->
  (String.length (name p) <= Fs.NAME_MAX)%nat ->
  valid_name (name p) = true.
Proof.
  intros Hclean Hg Hne Hdd Hlen.
  destruct (getname_inv _ _ Hg) as [Hnul _].
  assert (Hin : In (name p) (parts p)).
  { unfold name. destruct (@exists_last _ (parts p) Hne) as (l & c & ->).
    rewrite last_last. apply in_or_app. right. now left. }
  rewrite Forall_forall in Hclean. destruct (Hclean _ Hin) as (H1 & H2 & H3).
  unfold valid_name, plain. rewrite H1, H2, H3, Hdd. cbn [negb andb].
  apply andb_true_iff. split; [now apply Nat.leb_le|].
  apply negb_true_iff. unfold has_nul in Hnul.
  destruct (Str.contains Str.NUL (name p)) eqn:E; [|reflexivity].
  assert (existsb (Str.contains Str.NUL) (parts p) = true)
    by (apply existsb_exists; eauto).
  congruence.
Qed.

Lemma mkdir_exist_ok_well_formed (root : Fs.node) (cwd : list string) (p : Path)
  (d1 : Fs.node) :
  Forall (fun c => Str.contains "/" c = false /\ String.eqb c "" = false /\
                   String.eqb c "." = false) (parts p) ->
  well_formed root = true ->
  Fs.mkdir_exist_ok root cwd p = Returned d1 ->
  well_formed d1 = true.
Proof.
  intros Hclean Hwf Hmk.
  destruct (mkdir_exist_ok_inv _ _ _ _ Hmk) as [Hos|[-> _]]; [|exact Hwf].
  destruct (os_mkdir_inv _ _ _ _ Hos)
    as (cur & es & Hg & Hne & _ & _ & Hdd & Hlen & _ & ->).
  apply put_well_formed; [reflexivity|exact Hwf|].
  rewrite last_last. now apply written_name_valid.
Qed.

Lemma open_wb_well_formed (root : Fs.node) (cwd : list string) (p : Path)
  (loc : list string) (d2 : Fs.node) :
  Forall (fun c => Str.contains "/" c = false /\ String.eqb c "" = false /\
                   String.eqb c "." = false) (parts p) ->
  well_formed root = true ->
  Fs.open_wb root cwd p = Returned (loc, d2) ->
  well_formed d2 = true /\ valid_name (last loc "") = true.
Proof.
  intros Hclean Hwf Hop.
  destruct (open_wb_inv _ _ _ _ _ Hop)
    as (cur & es & Hg & Hne & _ & _ & Hdd & Hlen & _ & -> & ->).
  pose proof (written_name_valid p Hclean Hg Hne Hdd Hlen) as Hvalid.
  rewrite last_last. split; [|exact Hvalid].
  apply put_well_formed; [reflexivity|exact Hwf|]. now rewrite last_last.
Qed.

Lemma append_bytes_well_formed (root : Fs.node) (loc : list string)
  (data : list byte) :
  well_formed root = true -> valid_name (last loc "") = true ->
  well_formed (Fs.append_bytes root loc data) = true.
Proof.
  intros Hwf Hlast. unfold Fs.append_bytes.
  destruct (Fs.lookup root loc) as [[old|es]|]; try exact Hwf.
  now apply put_well_formed.
Qed.

(** The disk [main.py]'s [upload_file] leaves, step by step. *)
Lemma Main_upload_file_disk (urandom16 : N) (file : UploadFile)
  (user_id : string) (w : world) :
  disk (snd (Main.upload_file urandom16 file user_id w))
  = if String.eqb user_id "" then disk w
    else match Fs.mkdir_exist_ok (disk w) (cwd w) (Main.UPLOAD_DIR // user_id) with
         | Raised _ => disk w
         | Returned d1 =>
             match Fs.open_wb d1 (cwd w)
                     (Main.UPLOAD_DIR // user_id
                        // (Uuid.str (Uuid.uuid4 urandom16) ++ "_"
                              ++ fmt (filename file))) with
             | Raised _ => d1
             | Returned (loc, d2) =>
                 Fs.append_bytes d2 loc (remaining (Starlette.file file))
             end
         end.
Proof.
  remember (Main.upload_file urandom16 file user_id w) as r eqn:Er.
  unfold Main.upload_file in Er.
  destruct (String.eqb user_id ""); [subst r; reflexivity|].
  unfold bind at 1 in Er. unfold on_disk at 1 in Er.
  destruct (Fs.mkdir_exist_ok (disk w) (cwd w) (Main.UPLOAD_DIR // user_id))
    as [d1|e]; [|subst r; reflexivity].
  unfold bind at 1 in Er. unfold lift at 1 in Er. cbn [disk cwd set_disk] in Er.
  destruct (Fs.open_wb d1 (cwd w)
              (Main.UPLOAD_DIR // user_id
                 // (Uuid.str (Uuid.uuid4 urandom16) ++ "_" ++ fmt (filename file))))
    as [[loc d2]|e]; [|subst r; reflexivity].
  unfold bind at 1 in Er. unfold modify at 1 in Er.
  unfold bind at 1 in Er. unfold copyfileobj, modify at 1 in Er.
  unfold bind at 1 in Er.
  match type of Er with context [Main.broadcast ?m ?x] =>
    destruct (Main_broadcast_spec m x) as (Hb & _ & Hd & _);
    destruct (Main.broadcast m x) as [o w'] end.
  cbn in Hb, Hd. subst o r. cbn. exact Hd.
Qed.

(** [upload_file] of [main.py] keeps the disk well-formed, whatever its
    outcome. *)
Lemma Main_upload_file_well_formed (urandom16 : N) (file : UploadFile)
  (user_id : string) (w : world) :
  well_formed (disk w) = true ->
  well_formed (disk (snd (Main.upload_file urandom16 file user_id w))) = true.
Proof.
  intros Hwf. rewrite Main_upload_file_disk.
  destruct (String.eqb user_id ""); [exact Hwf|].
  destruct (Fs.mkdir_exist_ok (disk w) (cwd w) (Main.UPLOAD_DIR // user_id))
    as [d1|e] eqn:Emk; [|exact Hwf].
  assert (Hwf1 : well_formed d1 = true).
  { apply (mkdir_exist_ok_well_formed _ _ _ _
             (truediv_components _ _ upload_dir_components) Hwf Emk). }
  match goal with |- context [Fs.open_wb ?a ?b ?c] =>
    destruct (Fs.open_wb a b c) as [[loc d2]|e] eqn:Eop end; [|exact Hwf1].
  destruct (open_wb_well_formed _ _ _ _ _
              (truediv_components _ _ (truediv_components _ _ upload_dir_components))
              Hwf1 Eop) as [Hwf2 Hlast].
  now apply append_bytes_well_formed.
Qed.

(** What a successful [upload_file] of [main.py] has done to the disk. *)
Lemma Main_upload_file_success_inv (urandom16 : N) (file : UploadFile)
  (user_id : string) (w : world) (res : upload_result) :
  fst (Main.upload_file urandom16 file user_id w) = Returned res ->
  exists d1 loc d2,
    Fs.mkdir_exist_ok (disk w) (cwd w) (Main.UPLOAD_DIR // user_id) = Returned d1 /\
    Fs.open_wb d1 (cwd w)
      (Main.UPLOAD_DIR // user_id
         // (Uuid.str (Uuid.uuid4 urandom16) ++ "_" ++ fmt (filename file)))
    = Returned (loc, d2) /\
    disk (snd (Main.upload_file urandom16 file user_id w))
    = Fs.append_bytes d2 loc (remaining (Starlette.file file)) /\
    cwd (snd (Main.upload_file urandom16 file user_id w)) = cwd w.
Proof.
  remember (Main.upload_file urandom16 file user_id w) as r eqn:Er.
  unfold Main.upload_file in Er.
  destruct (String.eqb user_id ""); [subst r; discriminate|].
  unfold bind at 1 in Er. unfold on_disk at 1 in Er.
  destruct (Fs.mkdir_exist_ok (disk w) (cwd w) (Main.UPLOAD_DIR // user_id))
    as [d1|e] eqn:Emk; [|subst r; discriminate].
  unfold bind at 1 in Er. unfold lift at 1 in Er. cbn [disk cwd set_disk] in Er.
  destruct (Fs.open_wb d1 (cwd w)
              (Main.UPLOAD_DIR // user_id
                 // (Uuid.str (Uuid.uuid4 urandom16) ++ "_" ++ fmt (filename file))))
    as [[loc d2]|e] eqn:Eop; [|subst r; discriminate].
  intros _. exists d1, loc, d2. split; [reflexivity|]. split; [exact Eop|].
  unfold bind at 1 in Er. unfold modify at 1 in Er.
  unfold bind at 1 in Er. unfold copyfileobj, modify at 1 in Er.
  unfold bind at 1 in Er.
  match type of Er with context [Main.broadcast ?m ?x] =>
    destruct (Main_broadcast_spec m x) as (Hb & _ & Hd & Hc & _);
    destruct (Main.broadcast m x) as [o w'] end.
  cbn in Hb, Hd, Hc. subst o r. cbn. rewrite Hd, Hc. auto.
Qed.

(** The composed name of an upload whose original name holds no [/] is a
    single path component. *)
Lemma stored_name_plain (urandom16 : N) (original : string) :
  Str.contains "/" original = false ->
  plain (Uuid.str (Uuid.uuid4 urandom16) ++ "_" ++ original) = true.
Proof.
  intros Hslash.
  set (safe := Uuid.str (Uuid.uuid4 urandom16) ++ "_" ++ original).
  assert (Hunder : Str.contains "_" safe = true).
  { unfold safe. rewrite !contains_app. cbn. apply orb_true_r. }
  assert (Hs : Str.contains "/" safe = false).
  { unfold safe. rewrite !contains_app, Hslash. now rewrite uuid_str_no_slash. }
  unfold plain. rewrite Hs. cbn [negb andb].
  destruct (String.eqb_spec safe "") as [E|_]; [rewrite E in Hunder; discriminate|].
  destruct (String.eqb_spec safe ".") as [E|_]; [rewrite E in Hunder; discriminate|].
  destruct (String.eqb_spec safe "..") as [E|_]; [rewrite E in Hunder; discriminate|].
  reflexivity.
Qed.

(** After a successful upload of a file whose name holds no [/], for an
    owner whose id is a single path component: both names are valid, the
    partition directory lists the stored name, and the entry holds the bytes
    of the upload from its cursor on. *)
Lemma Main_upload_file_stored (urandom16 : N) (file : UploadFile)
  (original user_id : string) (w : world) (res : upload_result) :
  filename file = Some original ->
  Str.contains "/" original = false ->
  plain user_id = true ->
  fst (Main.upload_file urandom16 file user_id w) = Returned res ->
  valid_name user_id = true /\
  valid_name (Uuid.str (Uuid.uuid4 urandom16) ++ "_" ++ original) = true /\
  cwd (snd (Main.upload_file urandom16 file user_id w)) = cwd w /\
  exists es,
    Fs.lookup (disk (snd (Main.upload_file urandom16 file user_id w)))
              (cwd w ++ ["uploads"; user_id]) = Some (Fs.Dir es) /\
    Fs.assoc (Uuid.str (Uuid.uuid4 urandom16) ++ "_" ++ original) es
    = Some (Fs.File (remaining (Starlette.file file))).
Proof.
  intros Hname Hslash Hu Hres.
  set (safe := Uuid.str (Uuid.uuid4 urandom16) ++ "_" ++ original).
  pose proof (stored_name_plain urandom16 original Hslash) as Hsafe.
  fold safe in Hsafe.
  assert (Hpath : Main.UPLOAD_DIR // user_id // safe
                  = mkPath false ["uploads"; user_id; safe]).
  { unfold truediv. rewrite (parse_plain _ Hu), (parse_plain _ Hsafe). reflexivity. }
  assert (Hplain : Forall (fun c => plain c = true) ["uploads"; user_id])
    by (repeat constructor; assumption).
  destruct (Main_upload_file_success_inv _ _ _ _ _ Hres)
    as (d1 & loc & d2 & _ & Hopen & Hdisk & Hcwd).
  rewrite Hname in Hopen. cbn [fmt] in Hopen. fold safe in Hopen.
  rewrite Hpath in Hopen.
  destruct (open_wb_inv _ _ _ _ _ Hopen)
    as (cur & es & Hg & _ & Hwalk & Hcur & _ & Hlen & _ & -> & ->).
  cbn [parts removelast Fs.origin is_absolute] in Hwalk.
  change (name (mkPath false ["uploads"; user_id; safe])) with safe in *.
  destruct (walk_plain_inv d1 _ Hplain _ _ Hwalk) as [-> Hshort].
  destruct (getname_inv _ _ Hg) as [Hnul _].
  unfold has_nul in Hnul. cbn [parts existsb] in Hnul.
  apply orb_false_iff in Hnul. destruct Hnul as [_ Hnul].
  apply orb_false_iff in Hnul. destruct Hnul as [Hnu Hnul].
  apply orb_false_iff in Hnul. destruct Hnul as [Hns _].
  assert (Hulen : (String.length user_id <= Fs.NAME_MAX)%nat).
  { inversion Hshort as [|? ? _ Hrest]; subst. now inversion Hrest. }
  split; [unfold valid_name; rewrite Hu, Hnu; cbn [andb negb];
          rewrite andb_true_r; now apply Nat.leb_le|].
  split; [unfold valid_name; rewrite Hsafe, Hns; cbn [andb negb];
          rewrite andb_true_r; now apply Nat.leb_le|].
  split; [exact Hcwd|].
  pose proof (lookup_put_parent safe (Fs.File []) _ d1 es Hcur) as Hparent2.
  pose proof (lookup_put_same safe (Fs.File []) _ d1 es Hcur) as Hfile2.
  unfold Fs.append_bytes in Hdisk. rewrite Hfile2 in Hdisk. cbn [app] in Hdisk.
  pose proof (lookup_put_parent safe (Fs.File (remaining (Starlette.file file)))
                _ _ _ Hparent2) as Hparent3.
  rewrite <- Hdisk in Hparent3.
  eexists. split; [exact Hparent3|]. apply assoc_set_entry_same.
Qed.

(** After such an upload the path [uploads/user_id/<id>_<original>] leads to
    a regular file that holds the bytes of the upload from its cursor on,
    and [uploads/user_id] to the directory that lists it. *)
Lemma Main_upload_file_stores (urandom16 : N) (file : UploadFile)
  (original user_id : string) (w : world) (res : upload_result) :
  filename file = Some original ->
  Str.contains "/" original = false ->
  plain user_id = true ->
  fst (Main.upload_file urandom16 file user_id w) = Returned res ->
  Fs.stat (disk (snd (Main.upload_file urandom16 file user_id w)))
          (cwd (snd (Main.upload_file urandom16 file user_id w)))
          (mkPath false ["uploads"; user_id;
                         Uuid.str (Uuid.uuid4 urandom16) ++ "_" ++ original])
  = Returned (Fs.File (remaining (Starlette.file file))) /\
  exists es,
    Fs.stat (disk (snd (Main.upload_file urandom16 file user_id w)))
            (cwd (snd (Main.upload_file urandom16 file user_id w)))
            (mkPath false ["uploads"; user_id])
    = Returned (Fs.Dir es) /\
    Fs.assoc (Uuid.str (Uuid.uuid4 urandom16) ++ "_" ++ original) es
    = Some (Fs.File (remaining (Starlette.file file))).
Proof.
  intros Hname Hslash Hu Hres.
  destruct (Main_upload_file_stored urandom16 file original user_id w res
              Hname Hslash Hu Hres) as (Hvu & Hvs & Hcwd & es & Hdir & Hentry).
  set (safe := Uuid.str (Uuid.uuid4 urandom16) ++ "_" ++ original) in *.
  set (w' := snd (Main.upload_file urandom16 file user_id w)) in *.
  destruct (valid_name_inv _ Hvu) as (_ & Hulen & Hunul).
  destruct (valid_name_inv _ Hvs) as (Hsplain & Hslen & Hsnul).
  assert (Hplain2 : Forall (fun c => plain c = true) ["uploads"; user_id])
    by (repeat constructor; assumption).
  assert (Hshort2 : Forall (fun c => (String.length c <= Fs.NAME_MAX)%nat)
                      ["uploads"; user_id]).
  { constructor; [cbn; unfold Fs.NAME_MAX; lia|].
    constructor; [exact Hulen|constructor]. }
  assert (Hplain3 : Forall (fun c => plain c = true) ["uploads"; user_id; safe])
    by (repeat constructor; assumption).
  assert (Hshort3 : Forall (fun c => (String.length c <= Fs.NAME_MAX)%nat)
                      ["uploads"; user_id; safe]).
  { constructor; [cbn; unfold Fs.NAME_MAX; lia|].
    constructor; [exact Hulen|]. constructor; [exact Hslen|constructor]. }
  assert (Hfile : Fs.lookup (disk w') (cwd w ++ ["uploads"; user_id; safe])
                  = Some (Fs.File (remaining (Starlette.file file)))).
  { change (cwd w ++ ["uploads"; user_id; safe])%list
      with (cwd w ++ ["uploads"; user_id] ++ [safe])%list.
    rewrite app_assoc, (lookup_snoc _ _ safe _ Hdir). exact Hentry. }
  split.
  - apply (stat_intro _ _ _ (cwd w ++ ["uploads"; user_id; safe])).
    + apply getname_fits.
      * unfold has_nul. cbn [parts existsb]. now rewrite Hunul, Hsnul.
      * unfold str. cbn [is_absolute parts Str.join].
        rewrite !string_length_app. cbn [String.length].
        unfold Fs.NAME_MAX, Fs.PATH_MAX in *. lia.
    + unfold Fs.origin. cbn [is_absolute parts]. rewrite Hcwd.
      exact (walk_plain _ _ Hplain3 Hshort3 _ _ Hfile).
    + exact Hfile.
  - exists es. split; [|exact Hentry].
    apply (stat_intro _ _ _ (cwd w ++ ["uploads"; user_id])).
    + apply getname_fits.
      * unfold has_nul. cbn [parts existsb]. now rewrite Hunul.
      * unfold str. cbn [is_absolute parts Str.join].
        rewrite !string_length_app. cbn [String.length].
        unfold Fs.NAME_MAX, Fs.PATH_MAX in *. lia.
    + unfold Fs.origin. cbn [is_absolute parts]. rewrite Hcwd.
      exact (walk_plain _ _ Hplain2 Hshort2 _ _ Hdir).
    + exact Hdir.
Qed.

End DiskEffects.

(* ===================================================================== *)
(** ** From upload to listing *)
(* ===================================================================== *)

Section UploadThenList.

Import Pathlib Starlette.

(** On a well-formed disk every child of a partition is answered by
    [is_file] without an error. *)
Lemma partition_children_return (user_id : string) (w : world)
  (es : list (string * Fs.node)) :
  (String.length user_id <= Fs.NAME_MAX)%nat ->
  well_formed (disk w) = true ->
  Fs.stat (disk w) (cwd w) (Main.UPLOAD_DIR // user_id) = Returned (Fs.Dir es) ->
  forall fp,
    In fp (map (fun e => child (Main.UPLOAD_DIR // user_id) (fst e)) es) ->
    exists b, Fs.is_file (disk w) (cwd w) fp = Returned b.
Proof.
  intros Hlen Hwf Hstat fp Hin.
  apply in_map_iff in Hin. destruct Hin as ([c n] & <- & Hin). cbn [fst].
  destruct (valid_name_inv c (stat_dir_names _ _ _ _ Hwf Hstat c n Hin))
    as (_ & Hclen & _).
  destruct (partition_path_short user_id Hlen) as [Hshort _].
  rewrite is_file_short; [eauto| |].
  - unfold child. cbn [parts]. apply Forall_app. split; [exact Hshort|].
    constructor; [exact Hclen|constructor].
  - pose proof (child_path_length (Main.UPLOAD_DIR // user_id) c) as H1.
    pose proof (truediv_weight Main.UPLOAD_DIR user_id) as H2.
    change (list_sum (map (fun c => S (String.length c)) (parts Main.UPLOAD_DIR)))
      with 8%nat in H2.
    unfold Fs.NAME_MAX, Fs.PATH_MAX in *. lia.
Qed.

(** After a successful upload of a file whose name holds no [/], for an
    owner whose id is a single path component, the partition is a directory
    and the entry of the new file is among those of its regular files. *)
Lemma uploaded_entry_in_partition (urandom16 : N) (file : UploadFile)
  (original user_id : string) (w : world) (res : upload_result) :
  filename file = Some original ->
  Str.contains "/" original = false ->
  plain user_id = true ->
  fst (Main.upload_file urandom16 file user_id w) = Returned res ->
  valid_name user_id = true /\
  exists es,
    Fs.stat (disk (snd (Main.upload_file urandom16 file user_id w)))
            (cwd (snd (Main.upload_file urandom16 file user_id w)))
            (Main.UPLOAD_DIR // user_id) = Returned (Fs.Dir es) /\
    In {| entry_user_id := user_id;
          entry_filename := original;
          entry_stored_filename := res_file_id res ++ "_" ++ original;
          entry_url := "http://127.0.0.1:8000/files/" ++ user_id ++ "/"
                         ++ res_file_id res ++ "_" ++ original |}
       (map (entry_of user_id)
          (filter (regular (snd (Main.upload_file urandom16 file user_id w)))
             (map (fun e => child (Main.UPLOAD_DIR // user_id) (fst e)) es))).
Proof.
  intros Hname Hslash Hu Hres.
  set (file_id := Uuid.str (Uuid.uuid4 urandom16)).
  set (safe := file_id ++ "_" ++ original).
  assert (Hid : res_file_id res = file_id).
  { pose proof (Main_upload_file_outcome urandom16 file user_id w) as H.
    rewrite Hres in H. destruct H as [_ ->]. reflexivity. }
  destruct (Main_upload_file_stored urandom16 file original user_id w res
              Hname Hslash Hu Hres) as (Hvu & Hvs & _).
  destruct (Main_upload_file_stores urandom16 file original user_id w res
              Hname Hslash Hu Hres) as (Hfile & es & Hdir & Hentry).
  fold file_id safe in Hvs, Hfile, Hentry.
  set (w' := snd (Main.upload_file urandom16 file user_id w)) in *.
  assert (Hpath : Main.UPLOAD_DIR // user_id = mkPath false ["uploads"; user_id]).
  { unfold truediv. rewrite (parse_plain _ Hu). reflexivity. }
  rewrite <- Hpath in Hdir.
  split; [exact Hvu|]. exists es. split; [exact Hdir|].
  apply in_map_iff. exists (child (Main.UPLOAD_DIR // user_id) safe). split.
  - unfold entry_of, name, child. cbn [parts]. rewrite last_last, Hid.
    unfold safe at 1.
    rewrite (listed_filename_of_stored_name file_id original
               (uuid_str_no_underscore _)).
    reflexivity.
  - apply filter_In. split.
    + apply in_map_iff. exists (safe, Fs.File (remaining (Starlette.file file))).
      split; [reflexivity|exact (assoc_In _ _ _ Hentry)].
    + unfold regular, Fs.is_file. rewrite Hpath.
      change (child (mkPath false ["uploads"; user_id]) safe)
        with (mkPath false ["uploads"; user_id; safe]).
      now rewrite Hfile.
Qed.

(** After such an upload, whatever the owner's listing returns holds the
    file under its original name and its stored name. *)
Lemma upload_then_listed (urandom16 : N) (file : UploadFile)
  (original user_id : string) (w : world) (res : upload_result) :
  filename file = Some original ->
  Str.contains "/" original = false ->
  plain user_id = true ->
  fst (Main.upload_file urandom16 file user_id w) = Returned res ->
  forall entries,
    fst (Main.list_user_files user_id (snd (Main.upload_file urandom16 file user_id w)))
    = Returned entries ->
    In {| entry_user_id := user_id;
          entry_filename := original;
          entry_stored_filename := res_file_id res ++ "_" ++ original;
          entry_url := "http://127.0.0.1:8000/files/" ++ user_id ++ "/"
                         ++ res_file_id res ++ "_" ++ original |} entries.
Proof.
  intros Hname Hslash Hu Hres entries.
  destruct (uploaded_entry_in_partition urandom16 file original user_id w res
              Hname Hslash Hu Hres) as (_ & es & Hdir & Hin).
  rewrite Main_list_user_files_stat, Hdir.
  match goal with |- fst (for_fold ?l ?acc ?body ?x) = _ -> _ =>
    destruct (listing_loop_spec user_id x l acc) as (o & -> & Ho) end.
  cbn [fst]. intros ->. subst entries. exact Hin.
Qed.

(** On a well-formed disk the listing after such an upload returns. *)
Lemma upload_then_list_user_files (urandom16 : N) (file : UploadFile)
  (original user_id : string) (w : world) (res : upload_result) :
  filename file = Some original ->
  Str.contains "/" original = false ->
  plain user_id = true ->
  well_formed (disk w) = true ->
  fst (Main.upload_file urandom16 file user_id w) = Returned res ->
  exists entries,
    fst (Main.list_user_files user_id (snd (Main.upload_file urandom16 file user_id w)))
    = Returned entries /\
    In {| entry_user_id := user_id;
          entry_filename := original;
          entry_stored_filename := res_file_id res ++ "_" ++ original;
          entry_url := "http://127.0.0.1:8000/files/" ++ user_id ++ "/"
                         ++ res_file_id res ++ "_" ++ original |} entries.
Proof.
  intros Hname Hslash Hu Hwf Hres.
  destruct (uploaded_entry_in_partition urandom16 file original user_id w res
              Hname Hslash Hu Hres) as (Hvu & es & Hdir & Hin).
  pose proof (Main_upload_file_well_formed urandom16 file user_id w Hwf) as Hwf'.
  destruct (valid_name_inv _ Hvu) as (_ & Hulen & _).
  rewrite Main_list_user_files_stat, Hdir.
  rewrite (listing_loop_collects user_id _ _
             (partition_children_return user_id _ es Hulen Hwf' Hdir)).
  cbn [fst app]. eexists. split; [reflexivity|exact Hin].
Qed.

End UploadThenList.

(* ===================================================================== *)
(** ** Stored names *)
(* ===================================================================== *)

(** A file name that ends with a slash does not come back: [upload_file]
    reports the name [b.txt/] and a URL that ends in [_b.txt/], pathlib drops
    the trailing slash when the path is built, the file is stored as
    [..._b.txt], and the listing shows [b.txt]. *)
Lemma name_with_slash_is_not_recovered :
  Starlette.filename slash_upload = Some "b.txt/" /\
  fst (Main.upload_file 5 slash_upload "alice" demo_world)
  = Returned {| res_file_id := "00000000-0000-4000-8000-000000000005";
                res_filename := Some "b.txt/";
                res_user_id := "alice";
                res_url := "http://127.0.0.1:8000/files/alice/00000000-0000-4000-8000-000000000005_b.txt/" |} /\
  Pathlib.name (Main.UPLOAD_DIR // "alice"
                  // ("00000000-0000-4000-8000-000000000005" ++ "_" ++ "b.txt/"))
  = "00000000-0000-4000-8000-000000000005_b.txt" /\
  fst (Main.list_user_files "alice"
         (snd (Main.upload_file 5 slash_upload "alice" demo_world)))
  = Returned
      [ {| entry_user_id := "alice";
           entry_filename := "report.pdf";
           entry_stored_filename := "7c1e_report.pdf";
           entry_url := "http://127.0.0.1:8000/files/alice/7c1e_report.pdf" |};
        {| entry_user_id := "alice";
           entry_filename := "b.txt";
           entry_stored_filename := "00000000-0000-4000-8000-000000000005_b.txt";
           entry_url := "http://127.0.0.1:8000/files/alice/00000000-0000-4000-8000-000000000005_b.txt" |} ].
Proof.
  split; [reflexivity|]. split; [vm_compute; reflexivity|].
  split; vm_compute; reflexivity.
Qed.

(** C8 (amended).  For every original file name and every id [uuid4]
    generates: the id holds no underscore; the name [upload_file] composes
    and reports in its URL is the id, an underscore and the original name;
    the expression both listings apply to a stored name gives back exactly
    the original name from it.  When the original name holds no [/], the
    composed name is the name of the path the file is written to, and after
    a successful upload (for an owner whose id is a single path component)
    whatever [list_user_files] returns shows the file under its original
    name and that stored name; it does return on a disk whose entries bear
    valid names, as the entries of every disk do. *)
Theorem stored_name_round_trip (urandom16 : N) (original : string) :
  let file_id := Uuid.str (Uuid.uuid4 urandom16) in
  let stored_name := file_id ++ "_" ++ original in
  Str.contains "_" file_id = false /\
  Main.listed_filename stored_name = original /\
  Comentado.listed_filename stored_name = original /\
  (forall file user_id w res,
     Starlette.filename file = Some original ->
     fst (Main.upload_file urandom16 file user_id w) = Returned res ->
     res_file_id res = file_id /\
     res_url res = "http://127.0.0.1:8000/files/" ++ user_id ++ "/" ++ stored_name) /\
  (forall user_id,
     Str.contains "/" original = false ->
     Pathlib.name (Main.UPLOAD_DIR // user_id // stored_name) = stored_name) /\
  (forall file user_id w res,
     Starlette.filename file = Some original ->
     Str.contains "/" original = false ->
     plain user_id = true ->
     fst (Main.upload_file urandom16 file user_id w) = Returned res ->
     (forall entries,
        fst (Main.list_user_files user_id
               (snd (Main.upload_file urandom16 file user_id w)))
        = Returned entries ->
        In {| entry_user_id := user_id;
              entry_filename := original;
              entry_stored_filename := stored_name;
              entry_url := "http://127.0.0.1:8000/files/" ++ user_id ++ "/"
                             ++ stored_name |} entries) /\
     (well_formed (disk w) = true ->
      exists entries,
        fst (Main.list_user_files user_id
               (snd (Main.upload_file urandom16 file user_id w)))
        = Returned entries /\
        In {| entry_user_id := user_id;
              entry_filename := original;
              entry_stored_filename := stored_name;
              entry_url := "http://127.0.0.1:8000/files/" ++ user_id ++ "/"
                             ++ stored_name |} entries)).
Proof.
  intros file_id stored_name.
  pose proof (uuid_str_no_underscore (Uuid.uuid4 urandom16)) as Hid.
  assert (Hres : forall file user_id w res,
            Starlette.filename file = Some original ->
            fst (Main.upload_file urandom16 file user_id w) = Returned res ->
            res_file_id res = file_id /\
            res_url res
            = "http://127.0.0.1:8000/files/" ++ user_id ++ "/" ++ stored_name).
  { intros file user_id w res Hname Hres.
    pose proof (Main_upload_file_outcome urandom16 file user_id w) as H.
    rewrite Hres, Hname in H. destruct H as [_ ->]. cbn. auto. }
  split; [exact Hid|].
  split; [exact (listed_filename_of_stored_name file_id original Hid)|].
  split; [exact (listed_filename_of_stored_name file_id original Hid)|].
  split; [exact Hres|]. split.
  - intros user_id Hslash.
    assert (Hin : Str.contains "_" stored_name = true).
    { unfold stored_name. rewrite !contains_app. cbn. apply orb_true_r. }
    apply name_of_joined_component.
    + unfold stored_name. rewrite !contains_app, Hslash.
      unfold file_id. now rewrite uuid_str_no_slash.
    + intros E. rewrite E in Hin. discriminate.
    + intros E. rewrite E in Hin. discriminate.
  - intros file user_id w res Hname Hslash Hu Hok.
    destruct (Hres file user_id w res Hname Hok) as [Hfid _].
    split.
    + intros entries Hlist.
      pose proof (upload_then_listed urandom16 file original user_id w res
                    Hname Hslash Hu Hok entries Hlist) as Hin.
      rewrite Hfid in Hin. exact Hin.
    + intros Hwf.
      destruct (upload_then_list_user_files urandom16 file original user_id w res
                  Hname Hslash Hu Hwf Hok) as (entries & Hlist & Hin).
      rewrite Hfid in Hin. exists entries. auto.
Qed.

Lemma stored_name_round_trip_witness :
  Starlette.filename pdf_upload = Some "notes.pdf" /\
  Str.contains "/" "notes.pdf" = false /\
  plain "alice" = true /\
  well_formed (disk demo_world) = true /\
  fst (Main.upload_file 5 pdf_upload "alice" demo_world)
  = Returned {| res_file_id := "00000000-0000-4000-8000-000000000005";
                res_filename := Some "notes.pdf";
                res_user_id := "alice";
                res_url := "http://127.0.0.1:8000/files/alice/00000000-0000-4000-8000-000000000005_notes.pdf" |} /\
  Main.listed_filename "00000000-0000-4000-8000-000000000005_notes.pdf" = "notes.pdf" /\
  Pathlib.name (Main.UPLOAD_DIR // "alice"
                  // "00000000-0000-4000-8000-000000000005_notes.pdf")
  = "00000000-0000-4000-8000-000000000005_notes.pdf" /\
  exists entries,
    fst (Main.list_user_files "alice"
           (snd (Main.upload_file 5 pdf_upload "alice" demo_world)))
    = Returned entries /\
    In {| entry_user_id := "alice";
          entry_filename := "notes.pdf";
          entry_stored_filename := "00000000-0000-4000-8000-000000000005_notes.pdf";
          entry_url := "http://127.0.0.1:8000/files/alice/00000000-0000-4000-8000-000000000005_notes.pdf" |}
       entries.
Proof.
  assert (Hname : Starlette.filename pdf_upload = Some "notes.pdf") by reflexivity.
  assert (Hslash : Str.contains "/" "notes.pdf" = false) by reflexivity.
  assert (Hu : plain "alice" = true) by reflexivity.
  assert (Hwf : well_formed (disk demo_world) = true) by reflexivity.
  assert (Hres : fst (Main.upload_file 5 pdf_upload "alice" demo_world)
    = Returned {| res_file_id := "00000000-0000-4000-8000-000000000005";
                  res_filename := Some "notes.pdf";
                  res_user_id := "alice";
                  res_url := "http://127.0.0.1:8000/files/alice/00000000-0000-4000-8000-000000000005_notes.pdf" |})
    by (vm_compute; reflexivity).
  destruct (stored_name_round_trip 5 "notes.pdf")
    as (_ & Hlist & _ & _ & Hpath & Hshow).
  exact (conj Hname (conj Hslash (conj Hu (conj Hwf (conj Hres (conj Hlist
           (conj (Hpath "alice" Hslash)
                 (proj2 (Hshow pdf_upload "alice" demo_world _ Hname Hslash Hu
                           Hres) Hwf)))))))).
Defined.

(** After the upload of [notes.pdf] for alice, her listing shows the file
    under its original name next to the one she had. *)
Lemma upload_then_list_example :
  fst (Main.list_user_files "alice"
         (snd (Main.upload_file 5 pdf_upload "alice" demo_world)))
  = Returned
      [ {| entry_user_id := "alice";
           entry_filename := "report.pdf";
           entry_stored_filename := "7c1e_report.pdf";
           entry_url := "http://127.0.0.1:8000/files/alice/7c1e_report.pdf" |};
        {| entry_user_id := "alice";
           entry_filename := "notes.pdf";
           entry_stored_filename := "00000000-0000-4000-8000-000000000005_notes.pdf";
           entry_url := "http://127.0.0.1:8000/files/alice/00000000-0000-4000-8000-000000000005_notes.pdf" |} ].
Proof. vm_compute. reflexivity. Qed.


(* ===================================================================== *)
(** ** Notification and persistence *)
(* ===================================================================== *)

Section Notification.

Import Pathlib Starlette.

(** The sends [main.py]'s [upload_file] makes: the registry times the event
    when it returns, none when it raises. *)
Lemma Main_upload_file_sends (urandom16 : N) (file : UploadFile)
  (user_id : string) (w : world) :
  send_log (snd (Main.upload_file urandom16 file user_id w))
  = match fst (Main.upload_file urandom16 file user_id w) with
    | Returned _ =>
        (send_log w ++ map (fun c => (c, new_file_event)) (active_connections w))%list
    | Raised _ => send_log w
    end.
Proof.
  remember (Main.upload_file urandom16 file user_id w) as r eqn:Er.
  unfold Main.upload_file in Er.
  destruct (String.eqb user_id ""); [subst r; reflexivity|].
  unfold bind at 1 in Er. unfold on_disk at 1 in Er.
  destruct (Fs.mkdir_exist_ok (disk w) (cwd w) (Main.UPLOAD_DIR // user_id))
    as [d1|e]; [|subst r; reflexivity].
  unfold bind at 1 in Er. unfold lift at 1 in Er. cbn [disk cwd set_disk] in Er.
  destruct (Fs.open_wb d1 (cwd w)
              (Main.UPLOAD_DIR // user_id
                 // (Uuid.str (Uuid.uuid4 urandom16) ++ "_" ++ fmt (filename file))))
    as [[loc d2]|e]; [|subst r; reflexivity].
  unfold bind at 1 in Er. unfold modify at 1 in Er.
  unfold bind at 1 in Er. unfold copyfileobj, modify at 1 in Er.
  unfold bind at 1 in Er.
  match type of Er with context [Main.broadcast ?m ?x] =>
    destruct (Main_broadcast_spec m x) as (Hb & _ & _ & _ & Hl);
    destruct (Main.broadcast m x) as [o w'] end.
  cbn in Hb, Hl. subst o r. cbn. exact Hl.
Qed.

End Notification.

(** X1.  [upload_file] notifies the listeners exactly when it succeeds: when
    it returns, it has called [send_text] once for every registered
    connection, in registration order, with the [new_file] event; when it
    raises (a rejected upload or a file-system error), it has called
    [send_text] for nobody.  Holds for both files. *)
Theorem upload_file_notifies_exactly_on_success
  (urandom16 : N) (file : Starlette.UploadFile) (user_id : string) (w : world) :
  send_log (snd (Main.upload_file urandom16 file user_id w))
  = match fst (Main.upload_file urandom16 file user_id w) with
    | Returned _ =>
        (send_log w ++ map (fun c => (c, new_file_event)) (active_connections w))%list
    | Raised _ => send_log w
    end /\
  send_log (snd (Comentado.upload_file urandom16 file user_id w))
  = match fst (Comentado.upload_file urandom16 file user_id w) with
    | Returned _ =>
        (send_log w ++ map (fun c => (c, new_file_event)) (active_connections w))%list
    | Raised _ => send_log w
    end.
Proof.
  split; [apply Main_upload_file_sends|].
  rewrite Comentado_upload_file_cases.
  destruct (String.eqb user_id ""); [reflexivity|].
  destruct (negb (Str.mem (Comentado.file_ext file) Comentado.ALLOWED_EXTENSIONS));
    [reflexivity|].
  destruct (Z.of_nat (List.length (Starlette.data (Starlette.file file)))
              >? Comentado.MAX_FILE_SIZE)%Z; [reflexivity|].
  apply Main_upload_file_sends.
Qed.

Section Persistence.

Import Pathlib Starlette.


(** After a successful upload, [main.py]'s [get_file] for the owner and the
    stored name sends the stored bytes. *)
Lemma Main_download_after_upload (urandom16 : N) (file : UploadFile)
  (original user_id : string) (w : world) (res : upload_result) :
  filename file = Some original ->
  Str.contains "/" original = false ->
  plain user_id = true ->
  fst (Main.upload_file urandom16 file user_id w) = Returned res ->
  served (snd (Main.upload_file urandom16 file user_id w))
    (fst (Main.get_file user_id (Uuid.str (Uuid.uuid4 urandom16) ++ "_" ++ original)
            (snd (Main.upload_file urandom16 file user_id w))))
  = Returned (remaining (Starlette.file file)).
Proof.
  intros Hname Hslash Hu Hres.
  destruct (Main_upload_file_stores urandom16 file original user_id w res
              Hname Hslash Hu Hres) as (Hstat & _).
  pose proof (stored_name_plain urandom16 original Hslash) as Hsafe.
  assert (Hpath : Main.UPLOAD_DIR // user_id
                    // (Uuid.str (Uuid.uuid4 urandom16) ++ "_" ++ original)
                  = mkPath false
                      ["uploads"; user_id;
                       Uuid.str (Uuid.uuid4 urandom16) ++ "_" ++ original]).
  { unfold truediv. rewrite (parse_plain _ Hu), (parse_plain _ Hsafe).
    reflexivity. }
  rewrite Main_get_file_stat, Hpath, Hstat. cbn [fst served body].
  now rewrite Hstat.
Qed.


End Persistence.

(** X2.  Upload then download in [main.py]: after a successful upload of a
    file whose name holds no [/], for an owner whose id is a single path
    component, the URL in the answer ends in [user_id/<id>_<name>], and
    [get_file] for that owner and that stored name sends exactly the bytes of
    the upload (from the cursor of the stream on). *)
Theorem Main_upload_then_download
  (urandom16 : N) (file : Starlette.UploadFile) (original user_id : string)
  (w : world) (res : upload_result) :
  Starlette.filename file = Some original ->
  Str.contains "/" original = false ->
  plain user_id = true ->
  fst (Main.upload_file urandom16 file user_id w) = Returned res ->
  res_url res
  = "http://127.0.0.1:8000/files/" ++ user_id ++ "/" ++ res_file_id res ++ "_" ++ original /\
  served (snd (Main.upload_file urandom16 file user_id w))
    (fst (Main.get_file user_id (res_file_id res ++ "_" ++ original)
            (snd (Main.upload_file urandom16 file user_id w))))
  = Returned (Starlette.remaining (Starlette.file file)).
Proof.
  intros Hname Hslash Hu Hres.
  pose proof (Main_upload_file_outcome urandom16 file user_id w) as Hout.
  rewrite Hres in Hout. destruct Hout as [_ Hr].
  rewrite Hr, Hname. cbn [res_url res_file_id fmt]. split; [reflexivity|].
  exact (Main_download_after_upload urandom16 file original user_id w res
           Hname Hslash Hu Hres).
Qed.

Lemma Main_upload_then_download_witness :
  Starlette.filename pdf_upload = Some "notes.pdf" /\
  served (snd (Main.upload_file 5 pdf_upload "alice" demo_world))
    (fst (Main.get_file "alice" ("00000000-0000-4000-8000-000000000005" ++ "_" ++ "notes.pdf")
            (snd (Main.upload_file 5 pdf_upload "alice" demo_world))))
  = Returned [x25; x50].
Proof.
  assert (Hname : Starlette.filename pdf_upload = Some "notes.pdf") by reflexivity.
  assert (Hslash : Str.contains "/" "notes.pdf" = false) by reflexivity.
  assert (Hu : plain "alice" = true) by reflexivity.
  assert (Hres : fst (Main.upload_file 5 pdf_upload "alice" demo_world)
    = Returned {| res_file_id := "00000000-0000-4000-8000-000000000005";
                  res_filename := Some "notes.pdf";
                  res_user_id := "alice";
                  res_url := "http://127.0.0.1:8000/files/alice/00000000-0000-4000-8000-000000000005_notes.pdf" |})
    by (vm_compute; reflexivity).
  exact (conj Hname
           (proj2 (Main_upload_then_download 5 pdf_upload "notes.pdf" "alice"
                     demo_world _ Hname Hslash Hu Hres))).
Defined.




(* ===================================================================== *)
(** ** What an upload leaves alone *)
(* ===================================================================== *)

Section NoClobber.

Import Pathlib Starlette.

Lemma Main_upload_file_keeps_other_files (urandom16 : N) (file : UploadFile)
  (user_id : string) (w : world) (loc' : list string) (content : list byte) :
  Fs.lookup (disk w) loc' = Some (Fs.File content) ->
  last loc' ""
  <> name (Main.UPLOAD_DIR // user_id
             // (Uuid.str (Uuid.uuid4 urandom16) ++ "_" ++ fmt (filename file))) ->
  Fs.lookup (disk (snd (Main.upload_file urandom16 file user_id w))) loc'
  = Some (Fs.File content).
Proof.
  intros Hfile Hname. rewrite Main_upload_file_disk.
  destruct (String.eqb user_id ""); [exact Hfile|].
  destruct (Fs.mkdir_exist_ok (disk w) (cwd w) (Main.UPLOAD_DIR // user_id))
    as [d1|e] eqn:Emk; [|exact Hfile].
  pose proof (mkdir_exist_ok_keeps_files _ _ _ _ _ _ Emk Hfile) as Hfile1.
  match goal with |- context [Fs.open_wb ?a ?b ?c] =>
    set (fp := c) in *; destruct (Fs.open_wb a b fp) as [[loc d2]|e] eqn:Eop end;
    [|exact Hfile1].
  destruct (open_wb_inv _ _ _ _ _ Eop)
    as (cur & es & _ & _ & _ & Hcur & _ & _ & Hnodir & -> & ->).
  assert (Hne : loc' <> (cur ++ [name fp])%list).
  { intros ->. apply Hname. now rewrite last_last. }
  pose proof (put_entry_keeps_files d1 cur (name fp) (Fs.File []) es loc' content
                Hcur Hnodir Hne Hfile1) as Hfile2.
  unfold Fs.append_bytes.
  rewrite (lookup_put_same (name fp) (Fs.File []) cur d1 es Hcur).
  apply (put_entry_keeps_files _ cur (name fp) _ _ loc' content
           (lookup_put_parent (name fp) (Fs.File []) cur d1 es Hcur)); auto.
  intros es'. rewrite assoc_set_entry_same. discriminate.
Qed.

End NoClobber.

(** X4.  An upload never alters or removes a stored file of another name:
    whatever the outcome of [upload_file] (returned or raised), every regular
    file that was on the disk before the call, and whose name is not the name
    of the path the upload writes to ([<id>_<filename>] for a file name
    without [/]), is on the disk after it with the same bytes.  Holds for
    both files. *)
Theorem upload_file_keeps_other_files
  (urandom16 : N) (file : Starlette.UploadFile) (user_id : string) (w : world)
  (loc' : list string) (content : list byte) :
  Fs.lookup (disk w) loc' = Some (Fs.File content) ->
  last loc' ""
  <> Pathlib.name
       (Main.UPLOAD_DIR // user_id
          // (Uuid.str (Uuid.uuid4 urandom16) ++ "_" ++ fmt (Starlette.filename file))) ->
  Fs.lookup (disk (snd (Main.upload_file urandom16 file user_id w))) loc'
  = Some (Fs.File content) /\
  Fs.lookup (disk (snd (Comentado.upload_file urandom16 file user_id w))) loc'
  = Some (Fs.File content).
Proof.
  intros Hfile Hname.
  split; [now apply Main_upload_file_keeps_other_files|].
  rewrite Comentado_upload_file_cases.
  destruct (String.eqb user_id ""); [exact Hfile|].
  destruct (negb (Str.mem (Comentado.file_ext file) Comentado.ALLOWED_EXTENSIONS));
    [exact Hfile|].
  destruct (Z.of_nat (List.length (Starlette.data (Starlette.file file)))
              >? Comentado.MAX_FILE_SIZE)%Z; [exact Hfile|].
  now apply Main_upload_file_keeps_other_files.
Qed.

Lemma upload_file_keeps_other_files_witness :
  Fs.lookup (disk demo_world) ["srv"; "uploads"; "alice"; "7c1e_report.pdf"]
  = Some (Fs.File [x25; x50; x44; x46]) /\
  Fs.lookup (disk (snd (Main.upload_file 5 pdf_upload "alice" demo_world)))
    ["srv"; "uploads"; "alice"; "7c1e_report.pdf"]
  = Some (Fs.File [x25; x50; x44; x46]).
Proof.
  assert (Hfile : Fs.lookup (disk demo_world)
                    ["srv"; "uploads"; "alice"; "7c1e_report.pdf"]
                  = Some (Fs.File [x25; x50; x44; x46])) by reflexivity.
  assert (Hname : last ["srv"; "uploads"; "alice"; "7c1e_report.pdf"] ""
                  <> Pathlib.name
                       (Main.UPLOAD_DIR // "alice"
                          // (Uuid.str (Uuid.uuid4 5) ++ "_"
                                ++ fmt (Starlette.filename pdf_upload))))
    by (vm_compute; discriminate).
  exact (conj Hfile
           (proj1 (upload_file_keeps_other_files 5 pdf_upload "alice" demo_world
                     _ _ Hfile Hname))).
Defined.


(* ===================================================================== *)
(** ** What the listings hold *)
(* ===================================================================== *)

Section ListingContents.

Import Pathlib Starlette.

Lemma name_child (p : Path) (nm : string) : name (child p nm) = nm.
Proof. unfold name, child. cbn [parts]. apply last_last. Qed.

Lemma truediv_plain (p : Path) (nm : string) :
  plain nm = true -> p // nm = child p nm.
Proof. intros H. unfold truediv. now rewrite (parse_plain _ H). Qed.

Lemma is_dir_short (root : Fs.node) (cwd : list string) (p : Path) :
  Forall (fun c => (String.length c <= Fs.NAME_MAX)%nat) (parts p) ->
  (String.length (str p) < Fs.PATH_MAX)%nat ->
  Fs.is_dir root cwd p
  = Returned (match Fs.stat root cwd p with
              | Returned (Fs.Dir _) => true
              | _ => false
              end).
Proof.
  intros Hshort Hfits. unfold Fs.is_dir.
  destruct (Fs.stat root cwd p) as [[c|es]|e] eqn:E; try reflexivity.
  now rewrite (stat_short _ _ _ _ Hshort Hfits E).
Qed.

(** [list_user_files] changes nothing. *)
Lemma Main_list_user_files_state (user_id : string) (w : world) :
  snd (Main.list_user_files user_id w) = w.
Proof.
  rewrite Main_list_user_files_stat.
  destruct (Fs.stat (disk w) (cwd w) (Main.UPLOAD_DIR // user_id)) as [[c|es]|e];
    [reflexivity| |now destruct (Fs.ignore_error e)].
  match goal with |- snd (for_fold ?l ?acc ?body w) = w =>
    destruct (listing_loop_spec user_id w l acc) as (o & -> & _) end.
  reflexivity.
Qed.

(** The only error [list_user_files] raises is that of a name too long. *)
Lemma Main_list_user_files_raises (user_id : string) (w : world) (e : exn) :
  fst (Main.list_user_files user_id w) = Raised e -> e = OSError ENAMETOOLONG.
Proof.
  rewrite Main_list_user_files_stat.
  destruct (Fs.stat (disk w) (cwd w) (Main.UPLOAD_DIR // user_id))
    as [[c|es]|e'] eqn:E; [discriminate| |].
  - match goal with |- fst (for_fold ?l ?acc ?body w) = _ -> _ =>
      destruct (listing_loop_spec user_id w l acc) as (o & -> & Ho) end.
    cbn [fst]. intros ->. exact Ho.
  - destruct (stat_raises _ _ _ _ E) as [->| ->]; [discriminate|].
    cbn. now intros [= <-].
Qed.

(** What every entry of [list_user_files] looks like. *)
Lemma Main_list_user_files_entries (user_id : string) (w : world)
  (entries : list file_entry) :
  fst (Main.list_user_files user_id w) = Returned entries ->
  forall e, In e entries ->
    entry_user_id e = user_id /\
    entry_filename e = Main.listed_filename (entry_stored_filename e) /\
    entry_url e = "http://127.0.0.1:8000/files/" ++ user_id ++ "/"
                    ++ entry_stored_filename e /\
    Fs.is_file (disk w) (cwd w)
      (child (Main.UPLOAD_DIR // user_id) (entry_stored_filename e)) = Returned true.
Proof.
  rewrite Main_list_user_files_stat.
  destruct (Fs.stat (disk w) (cwd w) (Main.UPLOAD_DIR // user_id))
    as [[c|es]|e'] eqn:E.
  - intros [= <-] e [].
  - match goal with |- fst (for_fold ?l ?acc ?body w) = _ -> _ =>
      destruct (listing_loop_spec user_id w l acc) as (o & -> & Ho) end.
    cbn [fst]. intros -> e He. subst entries. cbn [app] in He.
    apply in_map_iff in He. destruct He as (fp & <- & Hfp).
    apply filter_In in Hfp. destruct Hfp as [Hin Hreg].
    apply in_map_iff in Hin. destruct Hin as ([nm n] & <- & _).
    cbn [fst] in *. unfold entry_of.
    cbn [entry_user_id entry_filename entry_stored_filename entry_url].
    rewrite name_child. repeat split.
    unfold regular in Hreg.
    destruct (Fs.is_file (disk w) (cwd w) (child (Main.UPLOAD_DIR // user_id) nm))
      as [[|]|]; congruence.
  - destruct (Fs.ignore_error e'); [intros [= <-] e []|discriminate].
Qed.

(** For an owner id of at most [NAME_MAX] bytes, on a well-formed disk,
    [list_user_files] returns. *)
Lemma Main_list_user_files_returns (user_id : string) (w : world) :
  (String.length user_id <= Fs.NAME_MAX)%nat ->
  well_formed (disk w) = true ->
  exists entries, Main.list_user_files user_id w = (Returned entries, w).
Proof.
  intros Hlen Hwf. destruct (partition_path_short user_id Hlen) as [Hshort Hfits].
  rewrite Main_list_user_files_stat.
  destruct (Fs.stat (disk w) (cwd w) (Main.UPLOAD_DIR // user_id))
    as [[c|es]|e'] eqn:E; [eauto| |].
  - rewrite (listing_loop_collects user_id w _
               (partition_children_return user_id w es Hlen Hwf E)). eauto.
  - rewrite (stat_short _ _ _ _ Hshort Hfits E). eauto.
Qed.

(** The outer loop of [list_all_files] over the entries of the root. *)
Lemma list_all_files_loop (w : world) (es : list (string * Fs.node)) :
  well_formed (disk w) = true ->
  (forall nm n, In (nm, n) es -> valid_name nm = true) ->
  forall all_files : list file_entry,
    for_fold (map (fun e => child Main.UPLOAD_DIR (fst e)) es) all_files
      (fun user_dir all_files =>
         isd <- lift (fun d c => Fs.is_dir d c user_dir) ;;
         if isd then
           let user_id := name user_dir in
           file_paths <- lift (fun d c => Fs.iterdir d c user_dir) ;;
           for_fold file_paths all_files (fun file_path all_files =>
             isf <- lift (fun d c => Fs.is_file d c file_path) ;;
             if isf then
               ret (all_files ++
                    [{| entry_user_id := user_id;
                        entry_filename := Main.listed_filename (name file_path);
                        entry_stored_filename := name file_path;
                        entry_url := "http://127.0.0.1:8000/files/" ++ user_id ++ "/"
                                       ++ name file_path |}])%list
             else ret all_files)
         else ret all_files) w
    = (Returned
         (all_files ++
          flat_map (fun e =>
                      match fst (Main.list_user_files (fst e) w) with
                      | Returned l => l
                      | Raised _ => []
                      end) es)%list, w).
Proof.
  intros Hwf.
  induction es as [|[nm n] es IH]; intros Hvalid acc; cbn [map for_fold flat_map fst].
  - now rewrite app_nil_r.
  - assert (Hnm : valid_name nm = true) by (apply (Hvalid nm n); now left).
    assert (Hrest : forall nm' n', In (nm', n') es -> valid_name nm' = true)
      by (intros nm' n' H; apply (Hvalid nm' n'); now right).
    destruct (valid_name_inv nm Hnm) as (Hplain & Hlen & _).
    destruct (partition_path_short nm Hlen) as [Hshort Hfits].
    rewrite Main_list_user_files_stat.
    rewrite <- (truediv_plain Main.UPLOAD_DIR nm Hplain).
    unfold bind at 1. unfold bind at 1. unfold lift at 1.
    rewrite (is_dir_short _ _ _ Hshort Hfits).
    destruct (Fs.stat (disk w) (cwd w) (Main.UPLOAD_DIR // nm))
      as [[content|es']|err] eqn:E.
    + unfold ret at 1. rewrite (IH Hrest). now rewrite app_nil_l.
    + cbn zeta. unfold bind at 1. unfold lift at 1. unfold Fs.iterdir at 1. rewrite E.
      assert (Hname : name (Main.UPLOAD_DIR // nm) = nm)
        by (rewrite (truediv_plain _ _ Hplain); apply name_child).
      rewrite Hname.
      rewrite !(listing_loop_collects nm w _
                  (partition_children_return nm w es' Hlen Hwf E)).
      rewrite (IH Hrest). cbn [fst app]. now rewrite <- app_assoc.
    + rewrite (stat_short _ _ _ _ Hshort Hfits E).
      unfold ret at 1. rewrite (IH Hrest). now rewrite app_nil_l.
Qed.

(** With [uploads] a regular file, [list_user_files] for an owner id that
    is a single path component. *)
Lemma Main_list_user_files_under_file (user_id : string) (w : world)
  (content : list byte) :
  Fs.stat (disk w) (cwd w) Main.UPLOAD_DIR = Returned (Fs.File content) ->
  plain user_id = true ->
  Main.list_user_files user_id w
  = if negb (Str.contains Str.NUL user_id)
       && (Fs.PATH_MAX <=? 8 + String.length user_id)%nat
    then (Raised (OSError ENAMETOOLONG), w)
    else (Returned [], w).
Proof.
  intros Hstat Hu. rewrite Main_list_user_files_stat, (truediv_plain _ _ Hu).
  destruct (stat_inv _ _ _ _ Hstat) as (_ & loc & Hwalk & Hloc).
  change (child Main.UPLOAD_DIR user_id) with (mkPath false ["uploads"; user_id]).
  change (parts Main.UPLOAD_DIR) with ["uploads"] in Hwalk.
  change (Fs.origin (cwd w) Main.UPLOAD_DIR) with (cwd w) in Hwalk.
  unfold Fs.stat, Fs.getname, has_nul. cbn [parts existsb].
  change (Str.contains Str.NUL "uploads") with false. cbn [orb].
  rewrite orb_false_r.
  destruct (Str.contains Str.NUL user_id); [reflexivity|]. cbn [negb andb].
  change (String.length (str (mkPath false ["uploads"; user_id])))
    with (8 + String.length user_id)%nat.
  destruct (Fs.PATH_MAX <=? 8 + String.length user_id)%nat; [reflexivity|].
  unfold Fs.namei, Fs.origin. cbn [is_absolute parts].
  change ["uploads"; user_id] with (["uploads"] ++ [user_id])%list.
  rewrite walk_app, Hwalk. cbn [Fs.walk]. unfold Fs.walk_step. now rewrite Hloc.
Qed.

End ListingContents.

(** X5.  On the disk of the model (directories and regular files under the
    name limits of the kernel; no permissions, no links), [list_user_files]
    changes nothing, for any [user_id] and any disk, and the only exception
    it raises is the [OSError] of a name too long.
    Every entry it returns carries the requested [user_id], names a regular
    file of the directory [uploads/user_id] as [stored_filename], shows as
    [filename] what follows the first underscore of that name, and has the
    URL [.../files/user_id/stored_filename].  For a [user_id] of at most 255
    bytes, on a disk whose entries bear valid names, it returns.  Holds for
    both files, which are the same function. *)
Theorem list_user_files_returns_well_formed_entries (user_id : string) (w : world) :
  (snd (Main.list_user_files user_id w) = w /\
   Comentado.list_user_files user_id w = Main.list_user_files user_id w) /\
  (forall e,
     fst (Main.list_user_files user_id w) = Raised e -> e = OSError ENAMETOOLONG) /\
  (forall entries,
     fst (Main.list_user_files user_id w) = Returned entries ->
     forall e, In e entries ->
       entry_user_id e = user_id /\
       entry_filename e = Main.listed_filename (entry_stored_filename e) /\
       entry_url e = "http://127.0.0.1:8000/files/" ++ user_id ++ "/"
                       ++ entry_stored_filename e /\
       Fs.is_file (disk w) (cwd w)
         (Pathlib.child (Main.UPLOAD_DIR // user_id) (entry_stored_filename e))
       = Returned true) /\
  ((String.length user_id <= Fs.NAME_MAX)%nat ->
   well_formed (disk w) = true ->
   exists entries, Main.list_user_files user_id w = (Returned entries, w)).
Proof.
  split; [split; [apply Main_list_user_files_state|reflexivity]|].
  split; [apply Main_list_user_files_raises|].
  split; [apply Main_list_user_files_entries|apply Main_list_user_files_returns].
Qed.

Lemma list_user_files_returns_well_formed_entries_witness :
  (String.length "alice" <= Fs.NAME_MAX)%nat /\
  well_formed (disk demo_world) = true /\
  exists entries, Main.list_user_files "alice" demo_world = (Returned entries, demo_world).
Proof.
  assert (Hlen : (String.length "alice" <= Fs.NAME_MAX)%nat)
    by (unfold Fs.NAME_MAX; cbn; lia).
  assert (Hwf : well_formed (disk demo_world) = true) by reflexivity.
  exact (conj Hlen (conj Hwf
           (proj2 (proj2 (proj2 (list_user_files_returns_well_formed_entries
                                   "alice" demo_world))) Hlen Hwf))).
Defined.



(** X7.  [list_all_files] is the listings of the partitions, one after the
    other: on a disk whose entries bear valid names (as every disk's do),
    when [uploads] is a directory, it returns, in directory order, the
    entries [list_user_files] returns for each entry name (none for an entry
    that is not a directory).  When [uploads] does not exist it returns the
    empty list; when [uploads] is a regular file it raises
    [NotADirectoryError], since its guard tests [exists()] only, whereas
    [list_user_files] (which also tests [is_dir()]) returns the empty list
    for every owner name that is a single path component, unless the text
    [uploads/<name>] reaches 4096 bytes without a NUL byte, which is the
    [OSError] of a name too long.  Holds for both files. *)
Theorem list_all_files_concatenates_partitions (w : world) :
  (forall es,
     well_formed (disk w) = true ->
     Fs.stat (disk w) (cwd w) Main.UPLOAD_DIR = Returned (Fs.Dir es) ->
     Main.list_all_files w
     = (Returned
          (flat_map (fun e =>
                       match fst (Main.list_user_files (fst e) w) with
                       | Returned l => l
                       | Raised _ => []
                       end) es), w) /\
     Comentado.list_all_files w = Main.list_all_files w) /\
  (Fs.exists_ (disk w) (cwd w) Main.UPLOAD_DIR = Returned false ->
   Main.list_all_files w = (Returned [], w) /\
   Comentado.list_all_files w = (Returned [], w)) /\
  (forall content,
     Fs.stat (disk w) (cwd w) Main.UPLOAD_DIR = Returned (Fs.File content) ->
     Main.list_all_files w = (Raised NotADirectoryError, w) /\
     Comentado.list_all_files w = (Raised NotADirectoryError, w) /\
     forall user_id,
       plain user_id = true ->
       Main.list_user_files user_id w
       = if negb (Str.contains Str.NUL user_id)
            && (Fs.PATH_MAX <=? 8 + String.length user_id)%nat
         then (Raised (OSError ENAMETOOLONG), w)
         else (Returned [], w)).
Proof.
  change (Comentado.list_all_files w) with (Main.list_all_files w).
  split; [|split].
  - intros es Hwf Hstat. split; [|reflexivity].
    unfold Main.list_all_files.
    unfold bind at 1. unfold lift at 1. unfold Fs.exists_. rewrite Hstat.
    unfold bind at 1. unfold lift at 1. unfold Fs.iterdir. rewrite Hstat.
    rewrite (list_all_files_loop w es Hwf (stat_dir_names _ _ _ _ Hwf Hstat)).
    reflexivity.
  - intros H. unfold Main.list_all_files, bind, lift. rewrite H. auto.
  - intros content Hstat. split; [|split].
    + unfold Main.list_all_files.
      unfold bind at 1. unfold lift at 1. unfold Fs.exists_. rewrite Hstat.
      unfold bind at 1. unfold lift at 1. unfold Fs.iterdir. now rewrite Hstat.
    + unfold Main.list_all_files.
      unfold bind at 1. unfold lift at 1. unfold Fs.exists_. rewrite Hstat.
      unfold bind at 1. unfold lift at 1. unfold Fs.iterdir. now rewrite Hstat.
    + intros user_id Hu. exact (Main_list_user_files_under_file user_id w content Hstat Hu).
Qed.

Lemma list_all_files_concatenates_partitions_witness :
  well_formed (disk demo_world) = true /\
  Fs.stat (disk demo_world) (cwd demo_world) Main.UPLOAD_DIR
  = Returned (Fs.Dir [("alice", Fs.Dir [("7c1e_report.pdf", Fs.File [x25; x50; x44; x46])]);
                      ("carol", Fs.Dir [])]) /\
  Main.list_all_files demo_world
  = (Returned
       (flat_map (fun e =>
                    match fst (Main.list_user_files (fst e) demo_world) with
                    | Returned l => l
                    | Raised _ => []
                    end)
          [("alice", Fs.Dir [("7c1e_report.pdf", Fs.File [x25; x50; x44; x46])]);
           ("carol", Fs.Dir [])]), demo_world).
Proof.
  assert (Hwf : well_formed (disk demo_world) = true) by reflexivity.
  assert (Hstat : Fs.stat (disk demo_world) (cwd demo_world) Main.UPLOAD_DIR
    = Returned (Fs.Dir [("alice", Fs.Dir [("7c1e_report.pdf", Fs.File [x25; x50; x44; x46])]);
                        ("carol", Fs.Dir [])])) by reflexivity.
  exact (conj Hwf (conj Hstat
           (proj1 (proj1 (list_all_files_concatenates_partitions demo_world)
                     _ Hwf Hstat)))).
Defined.

(* ===================================================================== *)
(** ** The life of a listener *)
(* ===================================================================== *)

Section Lifecycle.

Import Starlette.

Lemma list_remove_snoc (x : WebSocket) (l : list WebSocket) :
  ~ In x l -> list_remove x (l ++ [x]) = Some l.
Proof.
  induction l as [|y l IH]; cbn; intros H.
  - now rewrite Nat.eqb_refl.
  - destruct (Nat.eqb_spec x y) as [->|Hne]; [tauto|].
    rewrite IH; tauto.
Qed.

(** [connect] on a socket whose handshake is pending. *)
Lemma Main_connect_fresh (ws : WebSocket) (w : world) :
  client_state (sockets w ws) = CONNECTING ->
  application_state (sockets w ws) = CONNECTING ->
  Main.connect ws w
  = (Returned tt,
     set_active_connections (active_connections w ++ [ws])%list
       (set_socket ws (accepted (sockets w ws))
          (set_socket ws
             (mkSocket CONNECTED (application_state (sockets w ws))
                (peer_reachable (sockets w ws)) (delivered (sockets w ws))) w))).
Proof.
  intros Hc Ha. unfold Main.connect, accept, bind, modify, send. cbv beta zeta.
  rewrite Hc. cbn [fst snd sockets set_socket]. rewrite Nat.eqb_refl.
  cbn [application_state client_state peer_reachable delivered]. now rewrite Ha.
Qed.

(** Text frames keep the loop going and change nothing. *)
Lemma receive_loop_texts (ws : WebSocket) (w : world) (texts : list string)
  (rest : list frame) :
  client_state (sockets w ws) = CONNECTED ->
  application_state (sockets w ws) = CONNECTED ->
  Main.receive_loop ws (map Text texts ++ rest) w = Main.receive_loop ws rest w.
Proof.
  intros Hc Ha. induction texts as [|t texts IH]; [reflexivity|].
  cbn [map app Main.receive_loop]. unfold bind at 1. unfold receive_text at 1.
  rewrite Ha, Hc. exact IH.
Qed.

(** A close frame ends the loop with [WebSocketDisconnect]; the frames after
    it are not read. *)
Lemma receive_loop_close (ws : WebSocket) (w : world) (code : Z) (rest : list frame) :
  client_state (sockets w ws) = CONNECTED ->
  application_state (sockets w ws) = CONNECTED ->
  Main.receive_loop ws (Close code :: rest) w
  = (Raised (WebSocketDisconnect code),
     set_socket ws (closed_by_client (sockets w ws)) w).
Proof.
  intros Hc Ha. cbn [Main.receive_loop]. unfold bind, receive_text, closed_by_client.
  now rewrite Ha, Hc.
Qed.

(** The endpoint while the client only sends text: the listener is
    registered and the handler waits. *)
Lemma Main_websocket_endpoint_waiting (ws : WebSocket) (w : world)
  (texts : list string) :
  client_state (sockets w ws) = CONNECTING ->
  application_state (sockets w ws) = CONNECTING ->
  exists w',
    Main.websocket_endpoint ws (map Text texts) w = (Returned Suspended, w') /\
    active_connections w' = (active_connections w ++ [ws])%list /\
    sockets w' ws = accepted (sockets w ws) /\
    (forall c, c <> ws -> sockets w' c = sockets w c) /\
    disk w' = disk w.
Proof.
  intros Hc Ha. unfold Main.websocket_endpoint. unfold bind at 1.
  rewrite (Main_connect_fresh ws w Hc Ha). unfold try_except.
  rewrite <- (app_nil_r (map Text texts)), receive_loop_texts;
    [|cbn; now rewrite Nat.eqb_refl..].
  eexists. split; [reflexivity|]. cbn. rewrite Nat.eqb_refl.
  repeat split. intros c Hne.
  destruct (Nat.eqb_spec c ws) as [->|_]; [contradiction|reflexivity].
Qed.

(** The endpoint when the client closes: the listener is removed again. *)
Lemma Main_websocket_endpoint_closed (ws : WebSocket) (w : world)
  (texts : list string) (code : Z) (rest : list frame) :
  client_state (sockets w ws) = CONNECTING ->
  application_state (sockets w ws) = CONNECTING ->
  ~ In ws (active_connections w) ->
  exists w',
    Main.websocket_endpoint ws (map Text texts ++ Close code :: rest) w
    = (Returned Finished, w') /\
    active_connections w' = active_connections w /\
    sockets w' ws = closed_by_client (sockets w ws) /\
    (forall c, c <> ws -> sockets w' c = sockets w c) /\
    disk w' = disk w.
Proof.
  intros Hc Ha Hnew. unfold Main.websocket_endpoint. unfold bind at 1.
  rewrite (Main_connect_fresh ws w Hc Ha). unfold try_except.
  rewrite receive_loop_texts by (cbn; now rewrite Nat.eqb_refl).
  rewrite receive_loop_close by (cbn; now rewrite Nat.eqb_refl).
  cbn [is_WebSocketDisconnect]. unfold bind, Main.disconnect.
  cbn [active_connections set_socket set_active_connections].
  rewrite (list_remove_snoc ws _ Hnew).
  eexists. split; [reflexivity|]. cbn. rewrite !Nat.eqb_refl.
  repeat split. intros c Hne.
  destruct (Nat.eqb_spec c ws) as [->|_]; [contradiction|reflexivity].
Qed.

End Lifecycle.

(** X8.  The life of a listener in [websocket_endpoint]: for a socket whose
    handshake is pending (client and application side both connecting) and
    that is not registered yet, while the client sends only text frames the
    socket is accepted (both sides connected), registered at the end of
    [active_connections], and the handler waits; as soon as the client sends
    a close frame the handler removes the socket, returns, and
    [active_connections] is the list it was before the connection (frames
    after the close are never read); the close marks the client side of the
    socket disconnected and leaves the application side connected.  No other
    socket changes.  Holds for both files. *)
Theorem websocket_endpoint_registers_while_open
  (ws : WebSocket) (w : world) (texts : list string) (code : Z)
  (rest : list Starlette.frame) :
  client_state (sockets w ws) = CONNECTING ->
  application_state (sockets w ws) = CONNECTING ->
  ~ In ws (active_connections w) ->
  (fst (Main.websocket_endpoint ws (map Starlette.Text texts) w) = Returned Suspended /\
   active_connections (snd (Main.websocket_endpoint ws (map Starlette.Text texts) w))
   = (active_connections w ++ [ws])%list /\
   client_state
     (sockets (snd (Main.websocket_endpoint ws (map Starlette.Text texts) w)) ws)
   = CONNECTED /\
   application_state
     (sockets (snd (Main.websocket_endpoint ws (map Starlette.Text texts) w)) ws)
   = CONNECTED /\
   (forall c, c <> ws ->
      sockets (snd (Main.websocket_endpoint ws (map Starlette.Text texts) w)) c
      = sockets w c)) /\
  (fst (Main.websocket_endpoint ws
          (map Starlette.Text texts ++ Starlette.Close code :: rest) w)
   = Returned Finished /\
   active_connections
     (snd (Main.websocket_endpoint ws
             (map Starlette.Text texts ++ Starlette.Close code :: rest) w))
   = active_connections w /\
   client_state
     (sockets (snd (Main.websocket_endpoint ws
                      (map Starlette.Text texts ++ Starlette.Close code :: rest) w)) ws)
   = DISCONNECTED /\
   application_state
     (sockets (snd (Main.websocket_endpoint ws
                      (map Starlette.Text texts ++ Starlette.Close code :: rest) w)) ws)
   = CONNECTED /\
   (forall c, c <> ws ->
      sockets (snd (Main.websocket_endpoint ws
                      (map Starlette.Text texts ++ Starlette.Close code :: rest) w)) c
      = sockets w c)) /\
  (forall frames,
     Comentado.websocket_endpoint ws frames w = Main.websocket_endpoint ws frames w).
Proof.
  intros Hc Ha Hnew. split; [|split].
  - destruct (Main_websocket_endpoint_waiting ws w texts Hc Ha)
      as (w' & -> & Hreg & Hs & Hothers & _).
    cbn [fst snd]. rewrite Hs. auto.
  - destruct (Main_websocket_endpoint_closed ws w texts code rest Hc Ha Hnew)
      as (w' & -> & Hreg & Hs & Hothers & _).
    cbn [fst snd]. rewrite Hs. auto.
  - reflexivity.
Qed.

Lemma websocket_endpoint_registers_while_open_witness :
  client_state (sockets demo_world 4) = CONNECTING /\
  application_state (sockets demo_world 4) = CONNECTING /\
  ~ In 4%nat (active_connections demo_world) /\
  active_connections
    (snd (Main.websocket_endpoint 4 (map Starlette.Text ["ping"; "ping"]) demo_world))
  = [1; 2; 3; 4]%nat /\
  active_connections
    (snd (Main.websocket_endpoint 4
            (map Starlette.Text ["ping"] ++ Starlette.Close 1000 :: []) demo_world))
  = [1; 2; 3]%nat.
Proof.
  assert (Hc : client_state (sockets demo_world 4) = CONNECTING) by reflexivity.
  assert (Ha : application_state (sockets demo_world 4) = CONNECTING) by reflexivity.
  assert (Hnew : ~ In 4%nat (active_connections demo_world))
    by (cbn; intuition discriminate).
  exact (conj Hc (conj Ha (conj Hnew
           (conj (proj1 (proj2 (proj1
                    (websocket_endpoint_registers_while_open 4 demo_world
                       ["ping"; "ping"] 1000 [] Hc Ha Hnew))))
                 (proj1 (proj2 (proj1 (proj2
                    (websocket_endpoint_registers_while_open 4 demo_world
                       ["ping"] 1000 [] Hc Ha Hnew))))))))).
Defined.
(** X9.  Who receives a broadcast: over a registry without repetition,
    [broadcast] appends the message exactly once to what has been delivered
    to every registered connection that is connected with a reachable peer,
    and delivers nothing to any other socket (not registered, closed, or
    unreachable).  Holds for both files. *)
Theorem broadcast_delivers_once_to_each_open_listener
  (message : string) (w : world) (c : WebSocket) :
  NoDup (active_connections w) ->
  delivered (sockets (snd (Main.broadcast message w)) c)
  = (if existsb (Nat.eqb c) (active_connections w) && deliverable (sockets w c)
     then (delivered (sockets w c) ++ [message])%list
     else delivered (sockets w c)) /\
  delivered (sockets (snd (Comentado.broadcast message w)) c)
  = (if existsb (Nat.eqb c) (active_connections w) && deliverable (sockets w c)
     then (delivered (sockets w c) ++ [message])%list
     else delivered (sockets w c)).
Proof.
  intros H.
  change (Comentado.broadcast message w) with (Main.broadcast message w).
  split; exact (Main_broadcast_delivers_once message w c H).
Qed.

Lemma broadcast_delivers_once_to_each_open_listener_witness :
  NoDup (active_connections demo_world) /\
  delivered (sockets (snd (Main.broadcast "hello" demo_world)) 1) = ["hello"] /\
  delivered (sockets (snd (Main.broadcast "hello" demo_world)) 2) = [] /\
  delivered (sockets (snd (Main.broadcast "hello" demo_world)) 4) = [].
Proof.
  assert (H : NoDup (active_connections demo_world)).
  { cbn. repeat constructor; cbn; intuition discriminate. }
  exact (conj H
           (conj (proj1 (broadcast_delivers_once_to_each_open_listener "hello" demo_world 1 H))
           (conj (proj1 (broadcast_delivers_once_to_each_open_listener "hello" demo_world 2 H))
                 (proj1 (broadcast_delivers_once_to_each_open_listener "hello" demo_world 4 H))))).
Defined.

(** X10.  [disconnect] of a registered connection returns normally, removes
    its first occurrence and nothing else, and keeps the order of the others;
    when the registry has no repetition the connection is no longer
    registered afterwards, and every other connection is registered after
    exactly when it was before.  Holds for both files. *)
Theorem disconnect_removes_one_registered_connection
  (websocket : WebSocket) (w : world) :
  In websocket (active_connections w) ->
  exists before after,
    active_connections w = (before ++ websocket :: after)%list /\
    ~ In websocket before /\
    Main.disconnect websocket w
    = (Returned tt, set_active_connections (before ++ after)%list w) /\
    Comentado.disconnect websocket w
    = (Returned tt, set_active_connections (before ++ after)%list w) /\
    (NoDup (active_connections w) -> ~ In websocket (before ++ after)%list) /\
    (forall c, c <> websocket ->
       (In c (active_connections w) <-> In c (before ++ after)%list)).
Proof.
  intros H.
  destruct (disconnect_of_registered_connection websocket w H)
    as (before & after & E & Hb & Hrun).
  exists before, after. split; [exact E|]. split; [exact Hb|].
  split; [exact Hrun|]. split; [exact Hrun|]. split.
  - intros Hnd. rewrite E in Hnd. apply NoDup_remove_2 in Hnd. exact Hnd.
  - intros c Hc. rewrite E, !in_app_iff. cbn. intuition congruence.
Qed.

Lemma disconnect_removes_one_registered_connection_witness :
  In 2%nat (active_connections demo_world) /\
  exists before after,
    active_connections demo_world = (before ++ 2%nat :: after)%list /\
    Main.disconnect 2 demo_world
    = (Returned tt, set_active_connections (before ++ after)%list demo_world) /\
    ~ In 2%nat (before ++ after)%list.
Proof.
  assert (H : In 2%nat (active_connections demo_world)) by (cbn; auto).
  assert (Hnd : NoDup (active_connections demo_world)).
  { cbn. repeat constructor; cbn; intuition discriminate. }
  split; [exact H|].
  destruct (disconnect_removes_one_registered_connection 2 demo_world H)
    as (before & after & E & _ & Hrun & _ & Hgone & _).
  exists before, after. exact (conj E (conj Hrun (Hgone Hnd))).
Defined.

(* ===================================================================== *)
(** ** Paths inside the root *)
(* ===================================================================== *)

Section InsideRoot.

Import Pathlib Starlette.

Lemma join_app (sep : string) (a b : list string) :
  a <> [] -> b <> [] ->
  Str.join sep (a ++ b) = Str.join sep a ++ sep ++ Str.join sep b.
Proof.
  intros Ha Hb. induction a as [|x a IH]; [congruence|].
  destruct a as [|y a].
  - cbn [app]. destruct b as [|z b]; [congruence|]. reflexivity.
  - change (Str.join sep ((x :: y :: a) ++ b))
      with (x ++ sep ++ Str.join sep ((y :: a) ++ b)).
    rewrite IH by discriminate.
    change (Str.join sep (x :: y :: a)) with (x ++ sep ++ Str.join sep (y :: a)).
    now rewrite !string_app_assoc.
Qed.

Lemma startswith_refl (a : string) : Str.startswith a a = true.
Proof.
  unfold Str.startswith. induction a as [|c a IH]; cbn; [reflexivity|].
  destruct (ascii_dec c c); [exact IH|contradiction].
Qed.

(** Below the root by components implies below the root by text. *)
Lemma text_prefix_of_component_prefix (root_parts path_parts : list string) :
  root_parts <> [] ->
  is_prefix_of root_parts path_parts = true ->
  Str.startswith (str (mkPath true path_parts)) (str (mkPath true root_parts)) = true.
Proof.
  intros Hne H. destruct (is_prefix_of_inv _ _ H) as (rest & ->).
  unfold str. cbn [is_absolute parts].
  destruct rest as [|r rest].
  - rewrite app_nil_r. apply startswith_refl.
  - rewrite join_app by (auto; discriminate).
    rewrite <- (string_app_assoc "/" (Str.join "/" root_parts)).
    apply startswith_app.
Qed.

Lemma resolved_root_not_empty (cwd : list string) :
  parts (realpath cwd Comentado.UPLOAD_DIR) <> [].
Proof.
  unfold realpath. cbn [is_absolute parts].
  change (parts Comentado.UPLOAD_DIR) with ["uploads"].
  change (is_absolute Comentado.UPLOAD_DIR) with false. cbn iota.
  unfold normalize. rewrite fold_left_app. cbn [fold_left].
  unfold normalize_step at 1. cbn [String.eqb Ascii.eqb Bool.eqb orb].
  apply not_eq_sym, app_cons_not_nil.
Qed.

(** [main_comentado.py]: a request whose canonical path is inside the
    canonical root passes the containment check. *)
Lemma Comentado_get_file_inside_root (user_id filename : string) (w : world) :
  within_root (cwd w) Comentado.UPLOAD_DIR
    (Comentado.UPLOAD_DIR // user_id // filename) = true ->
  Comentado.get_file user_id filename w
  = (if has_nul (Comentado.UPLOAD_DIR // user_id // filename)
     then Raised (ValueError "embedded null byte")
     else
       match Fs.exists_ (disk w) (cwd w)
               (realpath (cwd w) (Comentado.UPLOAD_DIR // user_id // filename)) with
       | Returned true =>
           Returned (FileResponse
                       (realpath (cwd w) (Comentado.UPLOAD_DIR // user_id // filename)))
       | Returned false => Raised (HTTPException 404 "File not found")
       | Raised e => Raised e
       end, w).
Proof.
  unfold within_root. intros H.
  pose proof (text_prefix_of_component_prefix _ _
                (resolved_root_not_empty (cwd w)) H) as Htext.
  unfold Comentado.get_file.
  unfold bind at 1. unfold lift at 1. unfold resolve at 1.
  destruct (has_nul (Comentado.UPLOAD_DIR // user_id // filename)); [reflexivity|].
  unfold bind at 1. unfold lift at 1. unfold resolve at 1.
  change (has_nul Comentado.UPLOAD_DIR) with false. cbn iota.
  change (realpath (cwd w) Comentado.UPLOAD_DIR)
    with (mkPath true (parts (realpath (cwd w) Comentado.UPLOAD_DIR))).
  change (realpath (cwd w) (Comentado.UPLOAD_DIR // user_id // filename))
    with (mkPath true
            (parts (realpath (cwd w) (Comentado.UPLOAD_DIR // user_id // filename)))).
  rewrite Htext. cbn [negb]. unfold bind, lift.
  now destruct (Fs.exists_ _ _ _) as [[|]|].
Qed.

End InsideRoot.

(** X11.  The containment check of [main_comentado.py] never turns away a
    path inside the root: for every [user_id] and [filename] whose canonical
    path (as [resolve] computes it on a disk without symbolic links; the
    tree has none) has the components of the canonical root as a prefix,
    [get_file] does not answer 403.  It raises the [ValueError] of
    [resolve] when a name holds a NUL byte; otherwise it answers 404 when
    the canonical path leads to nothing, returns the [FileResponse] for the
    canonical path when it leads to something, and passes on the [OSError]
    of [exists()] (a name too long).  So a 403 always means that the
    canonical path is outside the root. *)
Theorem Comentado_get_file_accepts_paths_inside_root
  (user_id filename : string) (w : world) :
  (within_root (cwd w) Comentado.UPLOAD_DIR
     (Comentado.UPLOAD_DIR // user_id // filename) = true ->
   Comentado.get_file user_id filename w
   = (if Pathlib.has_nul (Comentado.UPLOAD_DIR // user_id // filename)
      then Raised (ValueError "embedded null byte")
      else
        match Fs.exists_ (disk w) (cwd w)
                (Pathlib.realpath (cwd w)
                   (Comentado.UPLOAD_DIR // user_id // filename)) with
        | Returned true =>
            Returned (Starlette.FileResponse
                        (Pathlib.realpath (cwd w)
                           (Comentado.UPLOAD_DIR // user_id // filename)))
        | Returned false => Raised (HTTPException 404 "File not found")
        | Raised e => Raised e
        end, w) /\
   (forall e, fst (Comentado.get_file user_id filename w) = Raised e ->
      e = ValueError "embedded null byte" \/
      e = HTTPException 404 "File not found" \/
      e = OSError ENAMETOOLONG)) /\
  (status_of (fst (Comentado.get_file user_id filename w)) = 403%Z ->
   within_root (cwd w) Comentado.UPLOAD_DIR
     (Comentado.UPLOAD_DIR // user_id // filename) = false).
Proof.
  split.
  - intros H. split; [exact (Comentado_get_file_inside_root user_id filename w H)|].
    rewrite (Comentado_get_file_inside_root user_id filename w H). cbn [fst].
    intros e.
    destruct (Pathlib.has_nul _); [intros [= <-]; auto|].
    destruct (Fs.exists_ _ _ _) as [[|]|e'] eqn:E; [discriminate| |].
    + intros [= <-]. auto.
    + intros [= <-]. right. right. exact (exists_raises _ _ _ _ E).
  - intros H403.
    destruct (within_root (cwd w) Comentado.UPLOAD_DIR
                (Comentado.UPLOAD_DIR // user_id // filename)) eqn:E; [|reflexivity].
    rewrite (Comentado_get_file_inside_root user_id filename w E) in H403.
    cbn [fst] in H403.
    destruct (Pathlib.has_nul _); [discriminate|].
    destruct (Fs.exists_ _ _ _) as [[|]|e'] eqn:E'; try discriminate.
    rewrite (exists_raises _ _ _ _ E') in H403. discriminate.
Qed.

Lemma Comentado_get_file_accepts_paths_inside_root_witness :
  within_root (cwd demo_world) Comentado.UPLOAD_DIR
    (Comentado.UPLOAD_DIR // "alice" // "../carol/x.txt") = true /\
  Comentado.get_file "alice" "../carol/x.txt" demo_world
  = (Raised (HTTPException 404 "File not found"), demo_world).
Proof.
  assert (H : within_root (cwd demo_world) Comentado.UPLOAD_DIR
                (Comentado.UPLOAD_DIR // "alice" // "../carol/x.txt") = true)
    by reflexivity.
  exact (conj H
           (proj1 (proj1 (Comentado_get_file_accepts_paths_inside_root
                            "alice" "../carol/x.txt" demo_world) H))).
Defined.

(* ===================================================================== *)
(** ** Letter case and the extension check *)
(* ===================================================================== *)

Section LetterCase.

Import Pathlib Starlette.

Ltac by_cases_on_char c :=
  destruct c as [[] [] [] [] [] [] [] []]; reflexivity.

Lemma lower_char_slash (c : ascii) :
  Ascii.eqb "/" (Str.lower_char c) = Ascii.eqb "/" c.
Proof. by_cases_on_char c. Qed.

Lemma lower_char_dot (c : ascii) :
  Ascii.eqb "." (Str.lower_char c) = Ascii.eqb "." c.
Proof. by_cases_on_char c. Qed.

Lemma lower_char_dot_left (c : ascii) :
  Ascii.eqb (Str.lower_char c) "." = Ascii.eqb c ".".
Proof. by_cases_on_char c. Qed.

Lemma lower_char_idem (c : ascii) :
  Str.lower_char (Str.lower_char c) = Str.lower_char c.
Proof. by_cases_on_char c. Qed.

Lemma lower_idem (s : string) : Str.lower (Str.lower s) = Str.lower s.
Proof.
  induction s as [|c s IH]; cbn; [reflexivity|].
  now rewrite lower_char_idem, IH.
Qed.

Lemma lower_length (s : string) : String.length (Str.lower s) = String.length s.
Proof. induction s as [|c s IH]; cbn; [reflexivity|]. now rewrite IH. Qed.

Lemma lower_eqb_empty (s : string) : String.eqb (Str.lower s) "" = String.eqb s "".
Proof. now destruct s. Qed.

Lemma lower_eqb_dot (s : string) : String.eqb (Str.lower s) "." = String.eqb s ".".
Proof.
  destruct s as [|c s]; [reflexivity|]. cbn [Str.lower String.eqb].
  now rewrite lower_char_dot_left, lower_eqb_empty.
Qed.

Lemma split_lower (s : string) :
  Str.split "/" (Str.lower s) = map Str.lower (Str.split "/" s).
Proof.
  induction s as [|c s IH]; [reflexivity|].
  cbn [Str.lower Str.split]. rewrite lower_char_slash, IH.
  destruct (Ascii.eqb "/" c); [reflexivity|].
  now destruct (Str.split "/" s).
Qed.

Lemma kept_lower (x : string) : kept (Str.lower x) = kept x.
Proof. unfold kept. now rewrite lower_eqb_empty, lower_eqb_dot. Qed.

Lemma filter_kept_lower (l : list string) :
  filter kept (map Str.lower l) = map Str.lower (filter kept l).
Proof.
  induction l as [|x l IH]; [reflexivity|]. cbn [map filter].
  rewrite kept_lower, IH. now destruct (kept x).
Qed.

Lemma last_map_lower (l : list string) :
  last (map Str.lower l) "" = Str.lower (last l "").
Proof.
  induction l as [|x l IH]; [reflexivity|].
  destruct l as [|y l]; [reflexivity|]. exact IH.
Qed.

Lemma name_parse_lower (s : string) :
  name (parse (Str.lower s)) = Str.lower (name (parse s)).
Proof.
  unfold name, parse. cbn [parts].
  now rewrite split_lower, filter_kept_lower, last_map_lower.
Qed.

Lemma rfind_from_lower (s : string) :
  forall i found,
    Str.rfind_from "." (Str.lower s) i found = Str.rfind_from "." s i found.
Proof.
  induction s as [|c s IH]; intros i found; [reflexivity|].
  cbn [Str.lower Str.rfind_from]. now rewrite lower_char_dot, IH.
Qed.

Lemma drop_lower (s : string) :
  forall i, Str.drop i (Str.lower s) = Str.lower (Str.drop i s).
Proof.
  induction s as [|c s IH]; intros [|i]; try reflexivity. cbn. apply IH.
Qed.

(** The suffix of the lower-case name is the lower-case suffix. *)
Lemma suffix_parse_lower (s : string) :
  suffix (parse (Str.lower s)) = Str.lower (suffix (parse s)).
Proof.
  unfold suffix. rewrite name_parse_lower. unfold Str.rfind.
  rewrite rfind_from_lower, lower_length, drop_lower.
  now destruct ((0 <? Str.rfind_from "." (name (parse s)) 0 (-1))
                && (Str.rfind_from "." (name (parse s)) 0 (-1)
                    <? Z.of_nat (String.length (name (parse s))) - 1))%Z.
Qed.

Lemma file_ext_lower (s : string) (f1 f2 : SpooledFile) :
  Comentado.file_ext (mkUpload (Some (Str.lower s)) f1)
  = Comentado.file_ext (mkUpload (Some s) f2).
Proof.
  unfold Comentado.file_ext. cbn [filename truthy fmt].
  rewrite lower_eqb_empty, suffix_parse_lower, lower_idem. reflexivity.
Qed.

End LetterCase.

(** X12.  The extension check of [main_comentado.py] does not look at the
    case of the ASCII letters or at the payload: a file name and its lower-case form have the same
    extension for the check, so one is admitted by the allow-list exactly
    when the other is; and the extension the check computes is in lower
    case. *)
Theorem extension_check_ignores_letter_case
  (s : string) (f1 f2 : Starlette.SpooledFile) :
  Comentado.file_ext (Starlette.mkUpload (Some (Str.lower s)) f1)
  = Comentado.file_ext (Starlette.mkUpload (Some s) f2) /\
  Str.mem (Comentado.file_ext (Starlette.mkUpload (Some (Str.lower s)) f1))
          Comentado.ALLOWED_EXTENSIONS
  = Str.mem (Comentado.file_ext (Starlette.mkUpload (Some s) f2))
            Comentado.ALLOWED_EXTENSIONS /\
  Str.lower (Comentado.file_ext (Starlette.mkUpload (Some s) f2))
  = Comentado.file_ext (Starlette.mkUpload (Some s) f2).
Proof.
  pose proof (file_ext_lower s f1 f2) as H.
  split; [exact H|]. split; [now rewrite H|].
  unfold Comentado.file_ext. cbn [Starlette.filename truthy fmt].
  destruct (negb (String.eqb s "")); [apply lower_idem|reflexivity].
Qed.

(* ===================================================================== *)
(** ** Uploads that succeed *)
(* ===================================================================== *)

Section Success.

Import Pathlib Starlette.

Lemma substring_length (s : string) :
  forall i m, (i + m <= String.length s)%nat ->
  String.length (String.substring i m s) = m.
Proof.
  induction s as [|c s IH]; intros [|i] [|m] H; cbn in H |- *; try lia.
  - rewrite (IH 0%nat m); [reflexivity|cbn; lia].
  - apply IH. lia.
  - apply IH. lia.
Qed.

Lemma hex_from_length (k : nat) :
  forall (n : N) (acc : string),
    String.length (Uuid.hex_from k n acc) = (k + String.length acc)%nat.
Proof.
  induction k as [|k IH]; intros n acc; cbn [Uuid.hex_from]; [reflexivity|].
  rewrite IH. cbn [String.length]. lia.
Qed.

(** The text of a UUID has 36 characters. *)
Lemma uuid_str_length (int : N) : String.length (Uuid.str int) = 36%nat.
Proof.
  assert (H : String.length (Uuid.hex32 int) = 32%nat)
    by (unfold Uuid.hex32; now rewrite hex_from_length).
  unfold Uuid.str, Str.slice. cbv zeta.
  rewrite !string_length_app, !substring_length by (rewrite H; cbn; lia).
  reflexivity.
Qed.

Lemma uuid_str_no_nul (int : N) : Str.contains Str.NUL (Uuid.str int) = false.
Proof. apply uuid_str_lacks. repeat constructor. Qed.

(** The name a file is stored under is a valid name when the file name is
    short enough and holds neither [/] nor a NUL byte. *)
Lemma stored_name_valid (urandom16 : N) (original : string) :
  Str.contains "/" original = false ->
  Str.contains Str.NUL original = false ->
  (String.length original <= 218)%nat ->
  valid_name (Uuid.str (Uuid.uuid4 urandom16) ++ "_" ++ original) = true.
Proof.
  intros Hslash Hnul Hlen. unfold valid_name.
  rewrite (stored_name_plain urandom16 original Hslash).
  rewrite !contains_app, uuid_str_no_nul, Hnul.
  rewrite !string_length_app, uuid_str_length.
  cbn [andb orb negb Str.contains String.length Ascii.eqb Bool.eqb Str.NUL].
  rewrite andb_true_r. apply Nat.leb_le. unfold Fs.NAME_MAX. lia.
Qed.

(** The answer of [main.py]'s [upload_file], step by step. *)
Lemma Main_upload_file_answer (urandom16 : N) (file : UploadFile)
  (user_id : string) (w : world) :
  fst (Main.upload_file urandom16 file user_id w)
  = if String.eqb user_id "" then Raised (HTTPException 400 "user_id is required")
    else match Fs.mkdir_exist_ok (disk w) (cwd w) (Main.UPLOAD_DIR // user_id) with
         | Raised e => Raised e
         | Returned d1 =>
             match Fs.open_wb d1 (cwd w)
                     (Main.UPLOAD_DIR // user_id
                        // (Uuid.str (Uuid.uuid4 urandom16) ++ "_"
                              ++ fmt (filename file))) with
             | Raised e => Raised e
             | Returned _ =>
                 Returned
                   {| res_file_id := Uuid.str (Uuid.uuid4 urandom16);
                      res_filename := filename file;
                      res_user_id := user_id;
                      res_url := "http://127.0.0.1:8000/files/" ++ user_id ++ "/"
                                   ++ Uuid.str (Uuid.uuid4 urandom16) ++ "_"
                                   ++ fmt (filename file) |}
             end
         end.
Proof.
  remember (Main.upload_file urandom16 file user_id w) as r eqn:Er.
  unfold Main.upload_file in Er.
  destruct (String.eqb user_id ""); [subst r; reflexivity|].
  unfold bind at 1 in Er. unfold on_disk at 1 in Er.
  destruct (Fs.mkdir_exist_ok (disk w) (cwd w) (Main.UPLOAD_DIR // user_id))
    as [d1|e]; [|subst r; reflexivity].
  unfold bind at 1 in Er. unfold lift at 1 in Er. cbn [disk cwd set_disk] in Er.
  destruct (Fs.open_wb d1 (cwd w)
              (Main.UPLOAD_DIR // user_id
                 // (Uuid.str (Uuid.uuid4 urandom16) ++ "_" ++ fmt (filename file))))
    as [[loc d2]|e]; [|subst r; reflexivity].
  unfold bind at 1 in Er. unfold modify at 1 in Er.
  unfold bind at 1 in Er. unfold copyfileobj, modify at 1 in Er.
  unfold bind at 1 in Er.
  match type of Er with context [Main.broadcast ?m ?x] =>
    destruct (Main_broadcast_spec m x) as (Hb & _);
    destruct (Main.broadcast m x) as [o w'] end.
  cbn in Hb. subst o r. reflexivity.
Qed.

(** With [uploads] in place and an owner id that is a valid name, the
    partition directory is there after [mkdir(exist_ok=True)], with the
    entries it had (none when it is new). *)
Lemma mkdir_partition (w : world) (user_id stored : string) :
  valid_name user_id = true ->
  partition_ready w user_id stored ->
  exists d1 es1,
    Fs.mkdir_exist_ok (disk w) (cwd w) (Main.UPLOAD_DIR // user_id) = Returned d1 /\
    Fs.lookup d1 (cwd w ++ ["uploads"; user_id]) = Some (Fs.Dir es1) /\
    forall es'', Fs.assoc stored es1 <> Some (Fs.Dir es'').
Proof.
  intros Hv (es & Hstat & Hpart).
  destruct (valid_name_inv _ Hv) as (Hu & Hlen & Hnul).
  destruct (stat_inv _ _ _ _ Hstat) as (_ & loc & Hwalk & Hloc).
  assert (Hup : Forall (fun c => plain c = true) ["uploads"]) by (repeat constructor).
  change (parts Main.UPLOAD_DIR) with ["uploads"] in Hwalk.
  change (Fs.origin (cwd w) Main.UPLOAD_DIR) with (cwd w) in Hwalk.
  destruct (walk_plain_inv _ _ Hup _ _ Hwalk) as [-> _].
  destruct (partition_path_short user_id Hlen) as [Hshort Hfits].
  assert (Hdir : Main.UPLOAD_DIR // user_id = mkPath false ["uploads"; user_id]).
  { unfold truediv. rewrite (parse_plain _ Hu). reflexivity. }
  rewrite Hdir in *.
  assert (Hg : Fs.getname (mkPath false ["uploads"; user_id]) = Returned tt).
  { apply getname_fits; [|exact Hfits].
    apply no_nul_names.
    constructor; [reflexivity|constructor; [exact Hv|constructor]]. }
  destruct (plain_inv _ Hu) as (_ & _ & _ & Hdd).
  assert (Hfit : (Fs.NAME_MAX <? String.length user_id)%nat = false)
    by (apply Nat.ltb_ge; exact Hlen).
  unfold Fs.mkdir_exist_ok, Fs.os_mkdir, Fs.parent_and_name. rewrite Hg.
  cbn [parts removelast last Fs.origin is_absolute]. rewrite Hwalk, Hloc, Hdd, Hfit.
  destruct (Fs.assoc user_id es) as [[content|es']|] eqn:Eu; [contradiction| |].
  - (* the partition exists *)
    assert (Hpartdir : Fs.lookup (disk w) (cwd w ++ ["uploads"; user_id])
                       = Some (Fs.Dir es')).
    { change (cwd w ++ ["uploads"; user_id])%list
        with (cwd w ++ ["uploads"] ++ [user_id])%list.
      rewrite app_assoc, (lookup_snoc _ _ user_id _ Hloc). exact Eu. }
    assert (Hplain : Forall (fun c => plain c = true) ["uploads"; user_id])
      by (repeat constructor; assumption).
    cbn [is_OSError]. unfold Fs.is_dir, Fs.stat, Fs.namei, Fs.origin. rewrite Hg.
    cbn [is_absolute parts].
    rewrite (walk_plain _ _ Hplain Hshort _ _ Hpartdir), Hpartdir.
    exists (disk w), es'. auto.
  - (* the partition is created *)
    eexists. exists []. split; [reflexivity|]. split.
    + change (cwd w ++ ["uploads"; user_id])%list
        with (cwd w ++ ["uploads"] ++ [user_id])%list.
      rewrite app_assoc. apply (lookup_put_same user_id (Fs.Dir []) _ _ es Hloc).
    + intros es''. discriminate.
Qed.

(** An upload with a valid owner id and a short file name without [/] and
    NUL succeeds when the partition is ready. *)
Lemma Main_upload_file_succeeds (urandom16 : N) (file : UploadFile)
  (original user_id : string) (w : world) :
  filename file = Some original ->
  Str.contains "/" original = false ->
  Str.contains Str.NUL original = false ->
  (String.length original <= 218)%nat ->
  valid_name user_id = true ->
  partition_ready w user_id (Uuid.str (Uuid.uuid4 urandom16) ++ "_" ++ original) ->
  fst (Main.upload_file urandom16 file user_id w)
  = Returned {| res_file_id := Uuid.str (Uuid.uuid4 urandom16);
                res_filename := Some original;
                res_user_id := user_id;
                res_url := "http://127.0.0.1:8000/files/" ++ user_id ++ "/"
                             ++ Uuid.str (Uuid.uuid4 urandom16) ++ "_" ++ original |}.
Proof.
  intros Hname Hslash Hnul Hlen Hv Hready.
  pose proof (stored_name_valid urandom16 original Hslash Hnul Hlen) as Hsv.
  set (safe := Uuid.str (Uuid.uuid4 urandom16) ++ "_" ++ original) in *.
  destruct (valid_name_inv _ Hsv) as (Hsafe & Hsafelen & Hsafenul).
  destruct (valid_name_inv _ Hv) as (Hu & Hulen & Hunul).
  destruct (mkdir_partition w user_id safe Hv Hready)
    as (d1 & es1 & Hmk & Hpart & Hfree).
  rewrite Main_upload_file_answer, Hmk, Hname. cbn [fmt]. fold safe.
  destruct (plain_inv _ Hu) as (_ & Hue & _).
  rewrite Hue.
  assert (Hg : Fs.getname (Main.UPLOAD_DIR // user_id // safe) = Returned tt).
  { apply getname_fits.
    - unfold truediv. rewrite (parse_plain _ Hu), (parse_plain _ Hsafe).
      apply no_nul_names.
      constructor; [reflexivity|].
      constructor; [exact Hv|constructor; [exact Hsv|constructor]].
    - pose proof (file_path_length user_id safe) as Hs.
      unfold Fs.PATH_MAX, Fs.NAME_MAX in *. lia. }
  assert (Hpath : Main.UPLOAD_DIR // user_id // safe
                  = mkPath false ["uploads"; user_id; safe]).
  { unfold truediv. rewrite (parse_plain _ Hu), (parse_plain _ Hsafe). reflexivity. }
  rewrite Hpath in *.
  assert (Hplain : Forall (fun c => plain c = true) ["uploads"; user_id])
    by (repeat constructor; assumption).
  assert (Hshort : Forall (fun c => (String.length c <= Fs.NAME_MAX)%nat)
                     ["uploads"; user_id]).
  { constructor; [cbn; unfold Fs.NAME_MAX; lia|]. constructor; [exact Hulen|constructor]. }
  destruct (plain_inv _ Hsafe) as (_ & _ & _ & Hdd).
  assert (Hfit : (Fs.NAME_MAX <? String.length safe)%nat = false)
    by (apply Nat.ltb_ge; exact Hsafelen).
  unfold Fs.open_wb, Fs.parent_and_name. rewrite Hg.
  cbn [parts removelast last Fs.origin is_absolute].
  rewrite (walk_plain _ _ Hplain Hshort _ _ Hpart), Hpart, Hdd, Hfit.
  destruct (Fs.assoc safe es1) as [[content|es'']|] eqn:E; try reflexivity.
  exfalso. exact (Hfree es'' eq_refl).
Qed.

End Success.

(** X13.  Valid uploads succeed and are stored, on the disk of the model
    (a tree of directories and files with the name limits of the kernel;
    permissions, quotas and links are not part of it).  When the [uploads]
    directory exists, the owner id is a valid name (a single path component
    of at most 255 bytes without NUL byte), the file name holds neither [/]
    nor a NUL byte and is at most 218 bytes long (so that the stored name
    [<id>_<name>] has at most 255), and the owner's partition is missing or
    is a directory in which no directory bears the stored name,
    [upload_file] of [main.py] returns the result with the generated id, the
    original name and the URL [.../files/user_id/<id>_<name>], and the path
    [uploads/user_id/<id>_<name>] then leads to a regular file holding the
    bytes of the upload.  [upload_file] of [main_comentado.py] does the same
    when, in addition, the extension is allowed and the payload is within the
    ceiling, and the stored file holds the whole payload. *)
Theorem valid_upload_succeeds_and_is_stored
  (urandom16 : N) (file : Starlette.UploadFile) (original user_id : string)
  (w : world) :
  Starlette.filename file = Some original ->
  Str.contains "/" original = false ->
  Str.contains Str.NUL original = false ->
  (String.length original <= 218)%nat ->
  valid_name user_id = true ->
  partition_ready w user_id (Uuid.str (Uuid.uuid4 urandom16) ++ "_" ++ original) ->
  let result :=
    {| res_file_id := Uuid.str (Uuid.uuid4 urandom16);
       res_filename := Some original;
       res_user_id := user_id;
       res_url := "http://127.0.0.1:8000/files/" ++ user_id ++ "/"
                    ++ Uuid.str (Uuid.uuid4 urandom16) ++ "_" ++ original |} in
  let stored :=
    Pathlib.mkPath false
      ["uploads"; user_id; Uuid.str (Uuid.uuid4 urandom16) ++ "_" ++ original] in
  (fst (Main.upload_file urandom16 file user_id w) = Returned result /\
   Fs.stat (disk (snd (Main.upload_file urandom16 file user_id w)))
           (cwd (snd (Main.upload_file urandom16 file user_id w))) stored
   = Returned (Fs.File (Starlette.remaining (Starlette.file file)))) /\
  (Str.mem (Comentado.file_ext file) Comentado.ALLOWED_EXTENSIONS = true ->
   (Z.of_nat (List.length (Starlette.data (Starlette.file file)))
      <= Comentado.MAX_FILE_SIZE)%Z ->
   fst (Comentado.upload_file urandom16 file user_id w) = Returned result /\
   Fs.stat (disk (snd (Comentado.upload_file urandom16 file user_id w)))
           (cwd (snd (Comentado.upload_file urandom16 file user_id w))) stored
   = Returned (Fs.File (Starlette.data (Starlette.file file)))).
Proof.
  intros Hname Hslash Hnul Hlen Hv Hready result stored.
  destruct (valid_name_inv _ Hv) as (Hu & _ & _).
  pose proof (Main_upload_file_succeeds urandom16 file original user_id w
                Hname Hslash Hnul Hlen Hv Hready) as Hok.
  split.
  - split; [exact Hok|].
    exact (proj1 (Main_upload_file_stores urandom16 file original user_id w _
                    Hname Hslash Hu Hok)).
  - intros Hext Hsize. rewrite Comentado_upload_file_cases, Hext. cbn [negb].
    destruct (plain_inv _ Hu) as (_ & -> & _).
    destruct (Z.gtb_spec (Z.of_nat (List.length (Starlette.data (Starlette.file file))))
                Comentado.MAX_FILE_SIZE); [lia|].
    set (rewound := Starlette.mkUpload (Starlette.filename file)
                      (Starlette.mkSpooled (Starlette.data (Starlette.file file)) 0)).
    assert (Hname' : Starlette.filename rewound = Some original) by exact Hname.
    pose proof (Main_upload_file_succeeds urandom16 rewound original user_id w
                  Hname' Hslash Hnul Hlen Hv Hready) as Hok'.
    split; [exact Hok'|].
    exact (proj1 (Main_upload_file_stores urandom16 rewound original user_id w _
                    Hname' Hslash Hu Hok')).
Qed.

Lemma valid_upload_succeeds_and_is_stored_witness :
  Starlette.filename pdf_upload = Some "notes.pdf" /\
  partition_ready demo_world "dave" (Uuid.str (Uuid.uuid4 5) ++ "_" ++ "notes.pdf") /\
  fst (Main.upload_file 5 pdf_upload "dave" demo_world)
  = Returned {| res_file_id := Uuid.str (Uuid.uuid4 5);
                res_filename := Some "notes.pdf";
                res_user_id := "dave";
                res_url := "http://127.0.0.1:8000/files/" ++ "dave" ++ "/"
                             ++ Uuid.str (Uuid.uuid4 5) ++ "_" ++ "notes.pdf" |} /\
  fst (Comentado.upload_file 5 pdf_upload "dave" demo_world)
  = Returned {| res_file_id := Uuid.str (Uuid.uuid4 5);
                res_filename := Some "notes.pdf";
                res_user_id := "dave";
                res_url := "http://127.0.0.1:8000/files/" ++ "dave" ++ "/"
                             ++ Uuid.str (Uuid.uuid4 5) ++ "_" ++ "notes.pdf" |}.
Proof.
  assert (Hname : Starlette.filename pdf_upload = Some "notes.pdf") by reflexivity.
  assert (Hslash : Str.contains "/" "notes.pdf" = false) by reflexivity.
  assert (Hnul : Str.contains Str.NUL "notes.pdf" = false) by reflexivity.
  assert (Hlen : (String.length "notes.pdf" <= 218)%nat) by (cbn; lia).
  assert (Hu : valid_name "dave" = true) by reflexivity.
  assert (Hready : partition_ready demo_world "dave"
                     (Uuid.str (Uuid.uuid4 5) ++ "_" ++ "notes.pdf")).
  { eexists. split; [reflexivity|]. exact I. }
  assert (Hext : Str.mem (Comentado.file_ext pdf_upload)
                   Comentado.ALLOWED_EXTENSIONS = true) by reflexivity.
  assert (Hsize : (Z.of_nat (List.length (Starlette.data (Starlette.file pdf_upload)))
                     <= Comentado.MAX_FILE_SIZE)%Z) by (vm_compute; discriminate).
  destruct (valid_upload_succeeds_and_is_stored 5 pdf_upload "notes.pdf" "dave"
              demo_world Hname Hslash Hnul Hlen Hu Hready) as ((Hmain & _) & Hcom).
  exact (conj Hname (conj Hready (conj Hmain (proj1 (Hcom Hext Hsize))))).
Defined.

(* ===================================================================== *)
(** ** The names on the disk *)
(* ===================================================================== *)

(** X14.  Uploads keep the names on the disk valid: on a disk where every
    entry name is a single path component of at most 255 bytes without NUL
    byte (as the names of every directory are), the disk [upload_file]
    leaves behind has the same property, whatever the upload and whatever
    its outcome; in both files.  This is the property of the disk that the
    statements about the listings assume. *)
Theorem upload_file_keeps_names_valid
  (urandom16 : N) (file : Starlette.UploadFile) (user_id : string) (w : world) :
  well_formed (disk w) = true ->
  well_formed (disk (snd (Main.upload_file urandom16 file user_id w))) = true /\
  well_formed (disk (snd (Comentado.upload_file urandom16 file user_id w))) = true.
Proof.
  intros Hwf. split; [exact (Main_upload_file_well_formed urandom16 file user_id w Hwf)|].
  rewrite Comentado_upload_file_cases.
  destruct (String.eqb user_id ""); [exact Hwf|].
  destruct (negb (Str.mem (Comentado.file_ext file) Comentado.ALLOWED_EXTENSIONS));
    [exact Hwf|].
  destruct (Z.of_nat (List.length (Starlette.data (Starlette.file file)))
              >? Comentado.MAX_FILE_SIZE)%Z; [exact Hwf|].
  exact (Main_upload_file_well_formed urandom16 _ user_id w Hwf).
Qed.

Lemma upload_file_keeps_names_valid_witness :
  well_formed (disk demo_world) = true /\
  well_formed (disk (snd (Main.upload_file 5 pdf_upload "dave" demo_world))) = true /\
  well_formed (disk (snd (Comentado.upload_file 5 pdf_upload "dave" demo_world))) = true.
Proof.
  assert (Hwf : well_formed (disk demo_world) = true) by reflexivity.
  exact (conj Hwf (upload_file_keeps_names_valid 5 pdf_upload "dave" demo_world Hwf)).
Defined.
